(** * vimcoplit: the MCP manager, its executors and its server runners

    A shallow embedding of [internal/core/mcp] (types, [ValidateParameters],
    the HTTP and local executors, the remote server runner, the declarative
    configuration checks and the [Manager]) together with the properties
    the specification states about them.

    Conventions of the embedding.
    - Go maps are [gmap string _]; a [for k, v := range m] loop visits the
      entries in the order given by [range], an arbitrary enumeration of
      the map (Go leaves the order unspecified).
    - [error] results are [option GoError]; [(T, error)] results are
      [GoError + T].
    - Everything outside the process (clock, UUID source, file system,
      HTTP peers) lives in a [World] that is threaded through every call,
      together with a trace of the externally visible invocations.
    - A file holds the text of a JSON document or bytes that are not
      JSON; a write can fail before the file is opened, leaving it as it
      was, or after it was opened and emptied, leaving it cut off.
    - The manager stores pointers to [Server] and [Tool]; the embedding
      stores the pointed-to records by value, keyed as in the Go maps.
    - Locks are not modelled: every operation is taken as one atomic step. *)

From Stdlib Require Import Ascii.
From stdpp Require Import base option list strings gmap fin_maps pretty.

Set Warnings "-register-all".

Open Scope string_scope.
Open Scope Z_scope.

(** ** Go errors *)

(** The error values this package creates or compares against.
    [DeadlineExceeded] and [Canceled] are the two sentinels of package
    [context]; [URLError] is the pointer type [url.Error], the only error
    type that [http.Client.Do] and [http.Client.Get] return; [FsError]
    stands for the [fs.PathError] values of package [os]. *)
Inductive GoError : Type :=
  | DeadlineExceeded
  | Canceled
  | ErrorString (msg : string)
  | URLError (op url : string) (inner : GoError)
  | FsError (not_exist : bool) (msg : string).

Definition dquote : string := String "034"%char EmptyString.

(** [err.Error()] *)
Fixpoint error_text (e : GoError) : string :=
  match e with
  | DeadlineExceeded => "context deadline exceeded"
  | Canceled => "context canceled"
  | ErrorString msg => msg
  | URLError op url inner =>
      op +:+ " " +:+ dquote +:+ url +:+ dquote +:+ ": " +:+ error_text inner
  | FsError _ msg => msg
  end.

(** [err == context.DeadlineExceeded]: interface equality with the
    sentinel, true for the sentinel itself and for nothing that wraps it. *)
Definition is_DeadlineExceeded (e : GoError) : bool :=
  match e with
  | DeadlineExceeded => true
  | _ => false
  end.

(** [errors.Is(err, context.DeadlineExceeded)]: follows the [Unwrap]
    chain. Not used by the package; it states what "the call ran into
    its deadline" means for a wrapped error. *)
Fixpoint wraps_DeadlineExceeded (e : GoError) : bool :=
  match e with
  | DeadlineExceeded => true
  | URLError _ _ inner => wraps_DeadlineExceeded inner
  | _ => false
  end.

(** [os.IsNotExist] *)
Definition IsNotExist (e : GoError) : bool :=
  match e with
  | FsError ne _ => ne
  | _ => false
  end.

(** ** JSON documents and dynamically typed values *)

(** A decoded JSON document. Numbers carry an integer payload only (no
    code of the package looks at a fraction); [JTime] is the RFC 3339
    string that [time.Time] marshals to, kept symbolic. Strings are taken
    to be valid UTF-8, which JSON text carries unchanged; printing a
    document to text and parsing it back is taken to be the identity. *)
Inductive Doc : Type :=
  | JNull
  | JBool (b : bool)
  | JNum (z : Z)
  | JStr (s : string)
  | JTime (t : Z)
  | JArr (items : list Doc)
  | JObj (fields : list (string * Doc)).

Inductive NumKind : Type :=
  | KInt | KInt8 | KInt16 | KInt32 | KInt64
  | KUint | KUint8 | KUint16 | KUint32 | KUint64
  | KFloat32 | KFloat64.

(** The dynamic content of an [interface{}]. [VOther] is a value of any
    other Go type, with the name [%T] prints and its JSON rendering when
    [json.Marshal] accepts it. *)
Inductive GoValue : Type :=
  | VNil
  | VString (s : string)
  | VNum (k : NumKind) (z : Z)
  | VBool (b : bool)
  | VArray (items : list GoValue)
  | VObject (entries : list (string * GoValue))
  | VOther (type_name : string) (json : option Doc).

Definition kind_name (k : NumKind) : string :=
  match k with
  | KInt => "int" | KInt8 => "int8" | KInt16 => "int16"
  | KInt32 => "int32" | KInt64 => "int64"
  | KUint => "uint" | KUint8 => "uint8" | KUint16 => "uint16"
  | KUint32 => "uint32" | KUint64 => "uint64"
  | KFloat32 => "float32" | KFloat64 => "float64"
  end.

(** [fmt.Sprintf("%T", value)] *)
Definition type_name_of (v : GoValue) : string :=
  match v with
  | VNil => "<nil>"
  | VString _ => "string"
  | VNum k _ => kind_name k
  | VBool _ => "bool"
  | VArray _ => "[]interface {}"
  | VObject _ => "map[string]interface {}"
  | VOther n _ => n
  end.

(** Stand-in for the RFC 3339 text of a time stamp. *)
Definition rfc3339 (t : Z) : string := "T" +:+ pretty t.

(** What [json.Unmarshal] stores into an [interface{}]. *)
Fixpoint doc_to_value (d : Doc) : GoValue :=
  match d with
  | JNull => VNil
  | JBool b => VBool b
  | JNum z => VNum KFloat64 z
  | JStr s => VString s
  | JTime t => VString (rfc3339 t)
  | JArr items => VArray (map doc_to_value items)
  | JObj fields => VObject (map (fun p => (fst p, doc_to_value (snd p))) fields)
  end.

Definition sequence_opt {A} (l : list (option A)) : option (list A) :=
  foldr (fun o acc => match o, acc with
                      | Some x, Some xs => Some (x :: xs)
                      | _, _ => None
                      end) (Some []) l.

(** [json.Marshal] of an [interface{}]; [None] when the value has no
    JSON rendering. *)
Fixpoint value_to_doc (v : GoValue) : option Doc :=
  match v with
  | VNil => Some JNull
  | VString s => Some (JStr s)
  | VNum _ z => Some (JNum z)
  | VBool b => Some (JBool b)
  | VArray items => JArr <$> sequence_opt (map value_to_doc items)
  | VObject entries =>
      JObj <$> sequence_opt
        (map (fun p => match value_to_doc (snd p) with
                       | Some d => Some (fst p, d)
                       | None => None
                       end) entries)
  | VOther _ json => json
  end.

(** ** Catalog entities (types.go) *)

Record ToolParameter : Type := mkToolParameter {
  param_Name : string;
  param_Type : string;
  param_Description : string;
  param_Required : bool;
  param_Default : GoValue
}.

Record Tool : Type := mkTool {
  tool_ID : string;
  tool_Name : string;
  tool_Description : string;
  tool_Version : string;
  tool_Author : string;
  tool_Parameters : list ToolParameter;
  tool_ServerID : string;
  tool_CreatedAt : Z;
  tool_UpdatedAt : Z;
  tool_Metadata : gmap string string
}.

(** [ServerType] and [ServerStatus] are string types: any string is a
    value of them, the constants below are the named ones. *)
Definition ServerTypeLocal : string := "local".
Definition ServerTypeRemote : string := "remote".
Definition ServerStatusRunning : string := "running".
Definition ServerStatusStopped : string := "stopped".
Definition ServerStatusError : string := "error".

Record Server : Type := mkServer {
  srv_ID : string;
  srv_Name : string;
  srv_Description : string;
  srv_Version : string;
  srv_URL : string;
  srv_Type : string;
  srv_Status : string;
  srv_Tools : list Tool;
  srv_CreatedAt : Z;
  srv_UpdatedAt : Z;
  srv_Metadata : gmap string string
}.

Definition ToolExecutionStatusSuccess : string := "success".
Definition ToolExecutionStatusError : string := "error".
Definition ToolExecutionStatusTimeout : string := "timeout".

Record ToolExecutionResult : Type := mkToolExecutionResult {
  exec_Status : string;
  exec_Result : GoValue;
  exec_Error : string;
  exec_StartTime : Z;
  exec_EndTime : Z
}.

Record ToolResult : Type := mkToolResult {
  res_ToolID : string;
  res_Status : string;
  res_Result : GoValue;
  res_Error : string;
  res_StartTime : Z;
  res_EndTime : Z
}.

(** [m[k]] on a [map[string]string]: the empty string when absent. *)
Definition meta (m : gmap string string) (k : string) : string :=
  default "" (m !! k).

(** ** Parameter validation (types.go) *)

(** [validateParameterType]: [None] is the nil error. *)
Definition validateParameterType (paramType : string) (value : GoValue)
  : option GoError :=
  if decide (paramType = "string") then
    match value with
    | VString _ => None
    | _ => Some (ErrorString ("expected string, got " +:+ type_name_of value))
    end
  else if decide (paramType = "number") then
    match value with
    | VNum (KInt | KInt8 | KInt16 | KInt32 | KInt64 | KFloat32 | KFloat64) _ =>
        None
    | _ => Some (ErrorString ("expected number, got " +:+ type_name_of value))
    end
  else if decide (paramType = "boolean") then
    match value with
    | VBool _ => None
    | _ => Some (ErrorString ("expected boolean, got " +:+ type_name_of value))
    end
  else if decide (paramType = "array") then
    match value with
    | VArray _ => None
    | _ => Some (ErrorString ("expected array, got " +:+ type_name_of value))
    end
  else if decide (paramType = "object") then
    match value with
    | VObject _ => None
    | _ => Some (ErrorString ("expected object, got " +:+ type_name_of value))
    end
  else Some (ErrorString ("unsupported parameter type: " +:+ paramType)).

(** First loop of [ValidateParameters]: every required parameter is a key
    of the call's map. *)
Fixpoint check_required (ps : list ToolParameter)
    (params : gmap string GoValue) : option GoError :=
  match ps with
  | [] => None
  | p :: rest =>
      if param_Required p then
        match params !! param_Name p with
        | None =>
            Some (ErrorString ("missing required parameter: " +:+ param_Name p))
        | Some _ => check_required rest params
        end
      else check_required rest params
  end.

(** The inner loop with [break]: the first declaration of that name. *)
Fixpoint find_param (ps : list ToolParameter) (name : string)
  : option ToolParameter :=
  match ps with
  | [] => None
  | p :: rest =>
      if decide (param_Name p = name) then Some p else find_param rest name
  end.

(** Second loop of [ValidateParameters], over the supplied entries in the
    order the [range] statement delivers them. *)
Fixpoint check_supplied (ps : list ToolParameter)
    (entries : list (string * GoValue)) : option GoError :=
  match entries with
  | [] => None
  | (name, value) :: rest =>
      match find_param ps name with
      | None => Some (ErrorString ("unknown parameter: " +:+ name))
      | Some paramDef =>
          match validateParameterType (param_Type paramDef) value with
          | Some err =>
              Some (ErrorString ("invalid type for parameter " +:+ name
                                 +:+ ": " +:+ error_text err))
          | None => check_supplied ps rest
          end
      end
  end.

(** ** The world outside the process *)

(** [context.Context], as far as the package can tell contexts apart:
    what [ctx.Err()] holds when the callee looks at it. *)
Record Context : Type := mkContext {
  ctx_Err : option GoError
}.

Record HTTPRequest : Type := mkHTTPRequest {
  req_Context : Context;
  req_Method : string;
  req_URL : string;
  req_Header : list (string * string);
  req_Body : option Doc;
  req_ClientTimeout : Z
}.

(** What a round trip of [net/http] ends in: a response (status code, and
    the body as a JSON document when it is one), or a transport failure
    with its cause. The client reports a failure as a [url.Error] around
    the cause. *)
Inductive HTTPOutcome : Type :=
  | HTTPResponse (status : Z) (body : option Doc)
  | HTTPFailure (cause : GoError).

Inductive Event : Type :=
  | EvHandler (toolID : string) (params : gmap string GoValue)
  | EvHTTP (req : HTTPRequest)
  | EvSpawn (command dir env : string)
  | EvKill
  | EvGo (routine : string).

(** What a file holds: the text of a JSON document, or bytes that are
    not JSON, such as an empty file or one that was cut off. *)
Inductive FileData : Type :=
  | Text (d : Doc)
  | Junk.

(** [json.Unmarshal] starts by parsing the bytes. *)
Definition parse (data : FileData) : option Doc :=
  match data with
  | Text d => Some d
  | Junk => None
  end.

(** How [os.WriteFile] can fail. It opens the file with [O_TRUNC] and
    then writes: when the open fails the file is untouched; when the
    write fails after the open, the file is there, emptied, and holds at
    most a beginning of the data. *)
Inductive WriteFault : Type :=
  | OpenFails (e : GoError)
  | WriteFails (e : GoError).

Definition fault_error (f : WriteFault) : GoError :=
  match f with
  | OpenFails e | WriteFails e => e
  end.

(** The part of the world the program only reads. *)
Record Env : Type := mkEnv {
  env_clock : nat -> Z;
  env_uuid : nat -> string;
  env_http : HTTPRequest -> HTTPOutcome;
  env_parse_url : string -> option GoError;
  env_spawn : string -> option GoError;
  env_read_fault : option GoError;
  env_mkdir_fault : option GoError;
  env_write_fault : option WriteFault
}.

Record World : Type := mkWorld {
  w_env : Env;
  w_tick : nat;
  w_uuids : nat;
  w_files : gmap string FileData;
  w_trace : list Event
}.

Definition emit (ev : Event) (w : World) : World :=
  mkWorld (w_env w) (w_tick w) (w_uuids w) (w_files w) (w_trace w ++ [ev]).

(** [time.Now()] *)
Definition Now (w : World) : Z * World :=
  (env_clock (w_env w) (w_tick w),
   mkWorld (w_env w) (S (w_tick w)) (w_uuids w) (w_files w) (w_trace w)).

(** [uuid.New().String()] *)
Definition NewUUID (w : World) : string * World :=
  (env_uuid (w_env w) (w_uuids w),
   mkWorld (w_env w) (w_tick w) (S (w_uuids w)) (w_files w) (w_trace w)).

(** [client.Do(req)] and [client.Get(url)] *)
Definition client_Do (req : HTTPRequest) (w : World)
  : (GoError + (Z * option Doc)) * World :=
  let w' := emit (EvHTTP req) w in
  match env_http (w_env w) req with
  | HTTPResponse status body => (inr (status, body), w')
  | HTTPFailure cause =>
      (inl (URLError (if decide (req_Method req = "GET") then "Get" else "Post")
                     (req_URL req) cause), w')
  end.

(** [os.ReadFile] *)
Definition ReadFile (path : string) (w : World) : GoError + FileData :=
  match env_read_fault (w_env w) with
  | Some e => inl e
  | None =>
      match w_files w !! path with
      | Some d => inr d
      | None =>
          inl (FsError true
                 ("open " +:+ path +:+ ": no such file or directory"))
      end
  end.

(** [os.MkdirAll] *)
Definition MkdirAll (dir : string) (w : World) : option GoError :=
  env_mkdir_fault (w_env w).

(** What a write of [data] to [path] leaves on the disk. The data are
    the text of a JSON object, so a beginning of them is not JSON. *)
Definition written (fault : option WriteFault) (path : string) (data : Doc)
    (files : gmap string FileData) : gmap string FileData :=
  match fault with
  | Some (OpenFails _) => files
  | Some (WriteFails _) => <[path := Junk]> files
  | None => <[path := Text data]> files
  end.

(** [os.WriteFile] *)
Definition WriteFile (path : string) (data : Doc) (w : World)
  : option GoError * World :=
  let fault := env_write_fault (w_env w) in
  (fault_error <$> fault,
   mkWorld (w_env w) (w_tick w) (w_uuids w)
     (written fault path data (w_files w)) (w_trace w)).

(** The outcome of a call that returns [(T, error)] and may panic. *)
Inductive Call (A : Type) : Type :=
  | Ok (a : A)
  | Err (e : GoError)
  | Panic (msg : string).
Arguments Ok {A} a.
Arguments Err {A} e.
Arguments Panic {A} msg.

Definition second : Z := 1000000000.

(** ** Executors (executor.go) *)

Record HTTPExecutor : Type := mkHTTPExecutor {
  client_Timeout : Z
}.

Definition ToolHandler : Type :=
  Context -> gmap string GoValue -> GoValue * option GoError.

Record LocalExecutor : Type := mkLocalExecutor {
  handlers : gmap string ToolHandler
}.

(** The two implementations of the [ToolExecutor] interface. *)
Inductive ToolExecutor : Type :=
  | ExHTTP (e : HTTPExecutor)
  | ExLocal (e : LocalExecutor).

Definition NewHTTPExecutor (timeout : Z) : HTTPExecutor :=
  mkHTTPExecutor timeout.

Definition NewLocalExecutor : LocalExecutor :=
  mkLocalExecutor ∅.

Definition RegisterHandler (e : LocalExecutor) (toolID : string)
    (handler : ToolHandler) : LocalExecutor :=
  mkLocalExecutor (<[toolID := handler]> (handlers e)).

Section Mcp.

(** The order in which a [range] statement visits a map. *)
Context (range : forall A : Type, gmap string A -> list (string * A)).
Context (range_perm :
  forall (A : Type) (m : gmap string A), range A m ≡ₚ map_to_list m).

(** [Tool.ValidateParameters] *)
Definition ValidateParameters (t : Tool) (params : gmap string GoValue)
  : option GoError :=
  match check_required (tool_Parameters t) params with
  | Some err => Some err
  | None => check_supplied (tool_Parameters t) (range GoValue params)
  end.

(** [json.Marshal(params)] on the call's parameter map. *)
Definition marshal_params (params : gmap string GoValue) : GoError + Doc :=
  match sequence_opt
          (map (fun p => match value_to_doc (snd p) with
                         | Some d => Some (fst p, d)
                         | None => None
                         end) (map_to_list params)) with
  | Some fields => inr (JObj fields)
  | None => inl (ErrorString "json: unsupported value")
  end.

(** The [error] entry of a response body, after the unchecked type
    assertion [responseBody.(map[string]interface{})]; [None] when the
    assertion panics. *)
Definition body_error_field (body : GoValue) : option (option GoValue) :=
  match body with
  | VObject entries =>
      Some (snd <$> find (fun p => bool_decide (fst p = "error"))
                         (reverse entries))
  | _ => None
  end.

(** [fmt.Sprintf("%v", v)] on the values a JSON body decodes to; strings
    print as they are, the rest by their JSON text, which is left
    symbolic. *)
Definition sprint_value (v : GoValue) : string :=
  match v with
  | VString s => s
  | VNil => "<nil>"
  | VBool true => "true"
  | VBool false => "false"
  | VNum _ z => pretty z
  | _ => "<" +:+ type_name_of v +:+ ">"
  end.

(** The request [HTTPExecutor.Execute] builds: a POST of the marshalled
    parameters to the tool's [endpoint], with the tool's [auth] as the
    [Authorization] header when it has one. *)
Definition tool_request (e : HTTPExecutor) (ctx : Context) (tool : Tool)
    (reqBody : Doc) : HTTPRequest :=
  let auth := meta (tool_Metadata tool) "auth" in
  mkHTTPRequest ctx "POST" (meta (tool_Metadata tool) "endpoint")
    (("Content-Type", "application/json")
       :: (if decide (auth = "") then [] else [("Authorization", auth)]))
    (Some reqBody) (client_Timeout e).

(** [HTTPExecutor.Execute] *)
Definition HTTPExecutor_Execute (e : HTTPExecutor) (ctx : Context)
    (tool : Tool) (params : gmap string GoValue) (w : World)
  : Call ToolExecutionResult * World :=
  match ValidateParameters tool params with
  | Some err =>
      (Err (ErrorString ("parameter validation failed: "
                         +:+ error_text err)), w)
  | None =>
  match marshal_params params with
  | inl err =>
      (Err (ErrorString ("failed to marshal parameters: "
                         +:+ error_text err)), w)
  | inr reqBody =>
  match env_parse_url (w_env w) (meta (tool_Metadata tool) "endpoint") with
  | Some err =>
      (Err (ErrorString ("failed to create request: " +:+ error_text err)), w)
  | None =>
      let req := tool_request e ctx tool reqBody in
      let '(startTime, w) := Now w in
      let '(resp, w) := client_Do req w in
      let '(endTime, w) := Now w in
      match resp with
      | inl err =>
          if is_DeadlineExceeded err then
            (Ok (mkToolExecutionResult ToolExecutionStatusTimeout VNil
                   "execution timed out" startTime endTime), w)
          else
            (Ok (mkToolExecutionResult ToolExecutionStatusError VNil
                   ("request failed: " +:+ error_text err)
                   startTime endTime), w)
      | inr (_, None) =>
          (Ok (mkToolExecutionResult ToolExecutionStatusError VNil
                 "failed to decode response: invalid character"
                 startTime endTime), w)
      | inr (status, Some body) =>
          let responseBody := doc_to_value body in
          if bool_decide (400 <= status) then
            match body_error_field responseBody with
            | None =>
                (Panic ("interface conversion: interface {} is "
                        +:+ type_name_of responseBody
                        +:+ ", not map[string]interface {}"), w)
            | Some (Some errMsg) =>
                (Ok (mkToolExecutionResult ToolExecutionStatusError VNil
                       (sprint_value errMsg) startTime endTime), w)
            | Some None =>
                (Ok (mkToolExecutionResult ToolExecutionStatusError VNil
                       ("server returned status " +:+ pretty status)
                       startTime endTime), w)
            end
          else
            (Ok (mkToolExecutionResult ToolExecutionStatusSuccess responseBody
                   "" startTime endTime), w)
      end
  end end end.

(** [LocalExecutor.Execute] *)
Definition LocalExecutor_Execute (e : LocalExecutor) (ctx : Context)
    (tool : Tool) (params : gmap string GoValue) (w : World)
  : Call ToolExecutionResult * World :=
  match ValidateParameters tool params with
  | Some err =>
      (Err (ErrorString ("parameter validation failed: "
                         +:+ error_text err)), w)
  | None =>
  match handlers e !! tool_ID tool with
  | None =>
      (Err (ErrorString ("no handler registered for tool " +:+ tool_ID tool)), w)
  | Some handler =>
      let '(startTime, w) := Now w in
      let '(result, err) := handler ctx params in
      let w := emit (EvHandler (tool_ID tool) params) w in
      let '(endTime, w) := Now w in
      match err with
      | Some err =>
          if is_DeadlineExceeded err then
            (Ok (mkToolExecutionResult ToolExecutionStatusTimeout VNil
                   "execution timed out" startTime endTime), w)
          else
            (Ok (mkToolExecutionResult ToolExecutionStatusError VNil
                   (error_text err) startTime endTime), w)
      | None =>
          (Ok (mkToolExecutionResult ToolExecutionStatusSuccess result
                 "" startTime endTime), w)
      end
  end end.

(** Dynamic dispatch of [executor.Execute]. *)
Definition Execute (ex : ToolExecutor) (ctx : Context) (tool : Tool)
    (params : gmap string GoValue) (w : World)
  : Call ToolExecutionResult * World :=
  match ex with
  | ExHTTP e => HTTPExecutor_Execute e ctx tool params w
  | ExLocal e => LocalExecutor_Execute e ctx tool params w
  end.

(** ** Server runners (server.go) *)

Record LocalServerRunner : Type := mkLocalServerRunner {
  local_server : Server;
  local_cmd : option (string * string * string);
  local_status : string;
  local_healthURL : string
}.

Definition NewLocalServerRunner (server : Server) : LocalServerRunner :=
  mkLocalServerRunner server None ServerStatusStopped
    (meta (srv_Metadata server) "health_url").

(** The request of [httpClient.Get(url)] on a client with a timeout of
    five seconds. *)
Definition health_request (url : string) : HTTPRequest :=
  mkHTTPRequest (mkContext None) "GET" url [] None (5 * second).

(** The common tail of both [HealthCheck] methods: one GET, 200 expected. *)
Definition probe (url : string) (w : World) : option GoError * World :=
  let '(resp, w) := client_Do (health_request url) w in
  match resp with
  | inl err =>
      (Some (ErrorString ("health check failed: " +:+ error_text err)), w)
  | inr (status, _) =>
      if bool_decide (status ≠ 200) then
        (Some (ErrorString ("health check failed with status: "
                            +:+ pretty status)), w)
      else (None, w)
  end.

(** [LocalServerRunner.HealthCheck] *)
Definition LocalServerRunner_HealthCheck (r : LocalServerRunner)
    (ctx : Context) (w : World) : option GoError * World :=
  if decide (local_healthURL r = "") then (None, w)
  else probe (local_healthURL r) w.

(** [LocalServerRunner.Start]; the health loop it launches is recorded
    as an event and not run. *)
Definition LocalServerRunner_Start (r : LocalServerRunner) (ctx : Context)
    (w : World) : option GoError * LocalServerRunner * World :=
  if decide (local_status r = ServerStatusRunning) then (None, r, w)
  else
    let cmd := meta (srv_Metadata (local_server r)) "start_cmd" in
    if decide (cmd = "") then
      (Some (ErrorString ("no start command specified for server "
                          +:+ srv_ID (local_server r))), r, w)
    else
      let workDir := meta (srv_Metadata (local_server r)) "work_dir" in
      let env := meta (srv_Metadata (local_server r)) "env" in
      let w := emit (EvSpawn cmd workDir env) w in
      match env_spawn (w_env w) cmd with
      | Some err =>
          (Some (ErrorString ("failed to start server: " +:+ error_text err)),
           mkLocalServerRunner (local_server r) (Some (cmd, workDir, env))
             ServerStatusError (local_healthURL r), w)
      | None =>
          (None,
           mkLocalServerRunner (local_server r) (Some (cmd, workDir, env))
             ServerStatusRunning (local_healthURL r),
           emit (EvGo "healthCheck") w)
      end.

Record RemoteServerRunner : Type := mkRemoteServerRunner {
  remote_server : Server;
  remote_status : string
}.

Definition NewRemoteServerRunner (server : Server) : RemoteServerRunner :=
  mkRemoteServerRunner server ServerStatusStopped.

(** The URL [RemoteServerRunner.HealthCheck] asks. *)
Definition remote_health_url (server : Server) : string :=
  let healthURL := srv_URL server +:+ "/health" in
  let customHealthURL := meta (srv_Metadata server) "health_url" in
  if decide (customHealthURL = "") then healthURL else customHealthURL.

(** [RemoteServerRunner.HealthCheck] *)
Definition RemoteServerRunner_HealthCheck (r : RemoteServerRunner)
    (ctx : Context) (w : World) : option GoError * World :=
  probe (remote_health_url (remote_server r)) w.

(** [RemoteServerRunner.Start] *)
Definition RemoteServerRunner_Start (r : RemoteServerRunner) (ctx : Context)
    (w : World) : option GoError * RemoteServerRunner * World :=
  if decide (remote_status r = ServerStatusRunning) then (None, r, w)
  else
    match RemoteServerRunner_HealthCheck r ctx w with
    | (Some err, w) =>
        (Some (ErrorString ("server is not accessible: " +:+ error_text err)),
         mkRemoteServerRunner (remote_server r) ServerStatusError, w)
    | (None, w) =>
        (None, mkRemoteServerRunner (remote_server r) ServerStatusRunning, w)
    end.

(** [RemoteServerRunner.Stop] *)
Definition RemoteServerRunner_Stop (r : RemoteServerRunner) (ctx : Context)
    (w : World) : option GoError * RemoteServerRunner * World :=
  if decide (remote_status r = ServerStatusRunning) then
    (None, mkRemoteServerRunner (remote_server r) ServerStatusStopped, w)
  else (None, r, w).

(** [RemoteServerRunner.Status] *)
Definition RemoteServerRunner_Status (r : RemoteServerRunner) : string :=
  remote_status r.

(** ** Declarative configuration (config.go) *)

Record ToolConfig : Type := mkToolConfig {
  tc_ID : string;
  tc_Name : string;
  tc_Description : string;
  tc_Version : string;
  tc_Author : string;
  tc_Parameters : list ToolParameter;
  tc_Metadata : gmap string string;
  tc_Timeout : Z;
  tc_RetryCount : Z;
  tc_RetryDelay : Z;
  tc_Concurrency : Z;
  tc_RateLimit : Z;
  tc_RequireAuth : bool;
  tc_AllowRoles : list string;
  tc_AllowIPs : list string;
  tc_LogLevel : string;
  tc_LogFile : string;
  tc_LogFormat : string;
  tc_LogMaxSize : Z;
  tc_LogMaxFiles : Z
}.

Record ServerConfig : Type := mkServerConfig {
  sc_ID : string;
  sc_Name : string;
  sc_Description : string;
  sc_Version : string;
  sc_Type : string;
  sc_URL : string;
  sc_Metadata : gmap string string;
  sc_Tools : list ToolConfig;
  sc_Port : Z;
  sc_Host : string;
  sc_SSLEnabled : bool;
  sc_SSLCertFile : string;
  sc_SSLKeyFile : string;
  sc_AllowedOrigins : list string;
  sc_AllowedMethods : list string;
  sc_AllowedHeaders : list string;
  sc_MaxRequestSize : Z;
  sc_ReadTimeout : Z;
  sc_WriteTimeout : Z;
  sc_IdleTimeout : Z;
  sc_ShutdownTimeout : Z
}.

(** The loop of [validateToolConfig] over the declared parameters, from
    index [i] on. *)
Fixpoint validate_parameters_from (i : Z) (ps : list ToolParameter)
  : option GoError :=
  match ps with
  | [] => None
  | param :: rest =>
      if decide (param_Name param = "") then
        Some (ErrorString ("parameter name is required at index " +:+ pretty i))
      else if decide (param_Type param = "") then
        Some (ErrorString ("parameter type is required for parameter "
                           +:+ param_Name param))
      else validate_parameters_from (i + 1) rest
  end.

(** [validateToolConfig] *)
Definition validateToolConfig (config : ToolConfig) : option GoError :=
  if decide (tc_ID config = "") then
    Some (ErrorString "tool ID is required")
  else if decide (tc_Name config = "") then
    Some (ErrorString "tool name is required")
  else if decide (tc_Version config = "") then
    Some (ErrorString "tool version is required")
  else
    match validate_parameters_from 0 (tc_Parameters config) with
    | Some err => Some err
    | None =>
        if bool_decide (tc_Timeout config < 0) then
          Some (ErrorString "timeout must be non-negative")
        else if bool_decide (tc_RetryCount config < 0) then
          Some (ErrorString "retry count must be non-negative")
        else if bool_decide (tc_RetryDelay config < 0) then
          Some (ErrorString "retry delay must be non-negative")
        else if bool_decide (tc_Concurrency config < 0) then
          Some (ErrorString "concurrency must be non-negative")
        else if bool_decide (tc_RateLimit config < 0) then
          Some (ErrorString "rate limit must be non-negative")
        else if bool_decide (tc_LogMaxSize config < 0) then
          Some (ErrorString "log max size must be non-negative")
        else if bool_decide (tc_LogMaxFiles config < 0) then
          Some (ErrorString "log max files must be non-negative")
        else None
    end.

(** The loop of [validateServerConfig] over the embedded tools. *)
Fixpoint validate_tools_from (i : Z) (tools : list ToolConfig)
  : option GoError :=
  match tools with
  | [] => None
  | tool :: rest =>
      match validateToolConfig tool with
      | Some err =>
          Some (ErrorString ("invalid tool config at index " +:+ pretty i
                             +:+ ": " +:+ error_text err))
      | None => validate_tools_from (i + 1) rest
      end
  end.

(** [validateServerConfig] *)
Definition validateServerConfig (config : ServerConfig) : option GoError :=
  if decide (sc_ID config = "") then
    Some (ErrorString "server ID is required")
  else if decide (sc_Name config = "") then
    Some (ErrorString "server name is required")
  else if decide (sc_Version config = "") then
    Some (ErrorString "server version is required")
  else if decide (sc_Type config = "") then
    Some (ErrorString "server type is required")
  else
    match validate_tools_from 0 (sc_Tools config) with
    | Some err => Some err
    | None =>
        if bool_decide (sc_Port config < 0 ∨ sc_Port config > 65535) then
          Some (ErrorString "invalid port number")
        else if sc_SSLEnabled config
                && bool_decide (sc_SSLCertFile config = "") then
          Some (ErrorString
                  "SSL certificate file is required when SSL is enabled")
        else if sc_SSLEnabled config
                && bool_decide (sc_SSLKeyFile config = "") then
          Some (ErrorString "SSL key file is required when SSL is enabled")
        else if bool_decide (sc_ReadTimeout config < 0) then
          Some (ErrorString "read timeout must be non-negative")
        else if bool_decide (sc_WriteTimeout config < 0) then
          Some (ErrorString "write timeout must be non-negative")
        else if bool_decide (sc_IdleTimeout config < 0) then
          Some (ErrorString "idle timeout must be non-negative")
        else if bool_decide (sc_ShutdownTimeout config < 0) then
          Some (ErrorString "shutdown timeout must be non-negative")
        else None
    end.

(** ** JSON codecs of the entities

    [encoding/json] driven by the struct tags: [enc_*] is [json.Marshal],
    [dec_*] is [json.Unmarshal] into a zero value. An absent key and
    [null] leave the zero value; a value of the wrong shape is an error;
    of two equal keys the later one counts. Keys are compared exactly
    (the library also accepts other capitalisations of a key; no file the
    package writes has any). *)

Definition obj_field (name : string) (fields : list (string * Doc))
  : option Doc :=
  snd <$> find (fun p => bool_decide (fst p = name)) (reverse fields).

Definition in_int64 (z : Z) : Prop := - 2 ^ 63 <= z < 2 ^ 63.

(** The zero [time.Time]: January 1 of year 1, in nanoseconds from the
    Unix epoch. *)
Definition zero_time : Z := - 62135596800 * second.

Definition dec_string (d : option Doc) : option string :=
  match d with
  | None | Some JNull => Some ""
  | Some (JStr s) => Some s
  | Some (JTime t) => Some (rfc3339 t)
  | _ => None
  end.

Definition dec_bool (d : option Doc) : option bool :=
  match d with
  | None | Some JNull => Some false
  | Some (JBool b) => Some b
  | _ => None
  end.

Definition dec_int (d : option Doc) : option Z :=
  match d with
  | None | Some JNull => Some 0
  | Some (JNum z) => if bool_decide (in_int64 z) then Some z else None
  | _ => None
  end.

Definition dec_time (d : option Doc) : option Z :=
  match d with
  | None | Some JNull => Some zero_time
  | Some (JTime t) => Some t
  | _ => None
  end.

Definition dec_list {A} (f : Doc -> option A) (d : option Doc)
  : option (list A) :=
  match d with
  | None | Some JNull => Some []
  | Some (JArr items) => mapM f items
  | _ => None
  end.

Definition dec_entry {A} (f : Doc -> option A) (p : string * Doc)
  : option (string * A) :=
  match f (snd p) with
  | Some x => Some (fst p, x)
  | None => None
  end.

Definition dec_map {A} (f : Doc -> option A) (d : option Doc)
  : option (gmap string A) :=
  match d with
  | None | Some JNull => Some ∅
  | Some (JObj fields) => list_to_map <$> mapM (dec_entry f) (reverse fields)
  | _ => None
  end.

Definition enc_entry {A} (f : A -> option Doc) (p : string * A)
  : option (string * Doc) :=
  match f (snd p) with
  | Some d => Some (fst p, d)
  | None => None
  end.

Definition enc_map {A} (f : A -> option Doc) (m : gmap string A)
  : option Doc :=
  JObj <$> mapM (enc_entry f) (map_to_list m).

Definition enc_string_map (m : gmap string string) : Doc :=
  JObj ((fun p => (fst p, JStr (snd p))) <$> map_to_list m).

Definition dec_string_map : option Doc -> option (gmap string string) :=
  dec_map (fun d => dec_string (Some d)).

Definition dec_strings : option Doc -> option (list string) :=
  dec_list (fun d => dec_string (Some d)).

Definition zero_param : ToolParameter := mkToolParameter "" "" "" false VNil.

Definition enc_param (p : ToolParameter) : option Doc :=
  let fixed :=
    [("name", JStr (param_Name p)); ("type", JStr (param_Type p));
     ("description", JStr (param_Description p));
     ("required", JBool (param_Required p))] in
  match param_Default p with
  | VNil => Some (JObj fixed)
  | v => d ← value_to_doc v; Some (JObj (fixed ++ [("default", d)]))
  end.

Definition dec_param (d : Doc) : option ToolParameter :=
  match d with
  | JNull => Some zero_param
  | JObj o =>
      name ← dec_string (obj_field "name" o);
      type ← dec_string (obj_field "type" o);
      description ← dec_string (obj_field "description" o);
      required ← dec_bool (obj_field "required" o);
      Some (mkToolParameter name type description required
              (from_option doc_to_value VNil (obj_field "default" o)))
  | _ => None
  end.

Definition zero_tool : Tool :=
  mkTool "" "" "" "" "" [] "" zero_time zero_time ∅.

Definition enc_tool (t : Tool) : option Doc :=
  ps ← mapM enc_param (tool_Parameters t);
  Some (JObj
    [("id", JStr (tool_ID t)); ("name", JStr (tool_Name t));
     ("description", JStr (tool_Description t));
     ("version", JStr (tool_Version t)); ("author", JStr (tool_Author t));
     ("parameters", JArr ps); ("server_id", JStr (tool_ServerID t));
     ("created_at", JTime (tool_CreatedAt t));
     ("updated_at", JTime (tool_UpdatedAt t));
     ("metadata", enc_string_map (tool_Metadata t))]).

Definition dec_tool (d : Doc) : option Tool :=
  match d with
  | JNull => Some zero_tool
  | JObj o =>
      id ← dec_string (obj_field "id" o);
      name ← dec_string (obj_field "name" o);
      description ← dec_string (obj_field "description" o);
      version ← dec_string (obj_field "version" o);
      author ← dec_string (obj_field "author" o);
      parameters ← dec_list dec_param (obj_field "parameters" o);
      serverID ← dec_string (obj_field "server_id" o);
      createdAt ← dec_time (obj_field "created_at" o);
      updatedAt ← dec_time (obj_field "updated_at" o);
      metadata ← dec_string_map (obj_field "metadata" o);
      Some (mkTool id name description version author parameters serverID
              createdAt updatedAt metadata)
  | _ => None
  end.

Definition zero_server : Server :=
  mkServer "" "" "" "" "" "" "" [] zero_time zero_time ∅.

Definition enc_server (s : Server) : option Doc :=
  ts ← mapM enc_tool (srv_Tools s);
  Some (JObj
    [("id", JStr (srv_ID s)); ("name", JStr (srv_Name s));
     ("description", JStr (srv_Description s));
     ("version", JStr (srv_Version s)); ("url", JStr (srv_URL s));
     ("type", JStr (srv_Type s)); ("status", JStr (srv_Status s));
     ("tools", JArr ts);
     ("created_at", JTime (srv_CreatedAt s));
     ("updated_at", JTime (srv_UpdatedAt s));
     ("metadata", enc_string_map (srv_Metadata s))]).

Definition dec_server (d : Doc) : option Server :=
  match d with
  | JNull => Some zero_server
  | JObj o =>
      id ← dec_string (obj_field "id" o);
      name ← dec_string (obj_field "name" o);
      description ← dec_string (obj_field "description" o);
      version ← dec_string (obj_field "version" o);
      url ← dec_string (obj_field "url" o);
      type ← dec_string (obj_field "type" o);
      status ← dec_string (obj_field "status" o);
      tools ← dec_list dec_tool (obj_field "tools" o);
      createdAt ← dec_time (obj_field "created_at" o);
      updatedAt ← dec_time (obj_field "updated_at" o);
      metadata ← dec_string_map (obj_field "metadata" o);
      Some (mkServer id name description version url type status tools
              createdAt updatedAt metadata)
  | _ => None
  end.

Definition zero_tool_config : ToolConfig :=
  mkToolConfig "" "" "" "" "" [] ∅ 0 0 0 0 0 false [] [] "" "" "" 0 0.

Definition dec_tool_config (d : Doc) : option ToolConfig :=
  match d with
  | JNull => Some zero_tool_config
  | JObj o =>
      id ← dec_string (obj_field "id" o);
      name ← dec_string (obj_field "name" o);
      description ← dec_string (obj_field "description" o);
      version ← dec_string (obj_field "version" o);
      author ← dec_string (obj_field "author" o);
      parameters ← dec_list dec_param (obj_field "parameters" o);
      metadata ← dec_string_map (obj_field "metadata" o);
      timeout ← dec_int (obj_field "timeout" o);
      retryCount ← dec_int (obj_field "retry_count" o);
      retryDelay ← dec_int (obj_field "retry_delay" o);
      concurrency ← dec_int (obj_field "concurrency" o);
      rateLimit ← dec_int (obj_field "rate_limit" o);
      requireAuth ← dec_bool (obj_field "require_auth" o);
      allowRoles ← dec_strings (obj_field "allow_roles" o);
      allowIPs ← dec_strings (obj_field "allow_ips" o);
      logLevel ← dec_string (obj_field "log_level" o);
      logFile ← dec_string (obj_field "log_file" o);
      logFormat ← dec_string (obj_field "log_format" o);
      logMaxSize ← dec_int (obj_field "log_max_size" o);
      logMaxFiles ← dec_int (obj_field "log_max_files" o);
      Some (mkToolConfig id name description version author parameters
              metadata timeout retryCount retryDelay concurrency rateLimit
              requireAuth allowRoles allowIPs logLevel logFile logFormat
              logMaxSize logMaxFiles)
  | _ => None
  end.

Definition dec_server_config (d : Doc) : option ServerConfig :=
  match d with
  | JNull =>
      Some (mkServerConfig "" "" "" "" "" "" ∅ [] 0 "" false "" "" [] [] []
              0 0 0 0 0)
  | JObj o =>
      id ← dec_string (obj_field "id" o);
      name ← dec_string (obj_field "name" o);
      description ← dec_string (obj_field "description" o);
      version ← dec_string (obj_field "version" o);
      type ← dec_string (obj_field "type" o);
      url ← dec_string (obj_field "url" o);
      metadata ← dec_string_map (obj_field "metadata" o);
      tools ← dec_list dec_tool_config (obj_field "tools" o);
      port ← dec_int (obj_field "port" o);
      host ← dec_string (obj_field "host" o);
      sslEnabled ← dec_bool (obj_field "ssl_enabled" o);
      sslCertFile ← dec_string (obj_field "ssl_cert_file" o);
      sslKeyFile ← dec_string (obj_field "ssl_key_file" o);
      allowedOrigins ← dec_strings (obj_field "allowed_origins" o);
      allowedMethods ← dec_strings (obj_field "allowed_methods" o);
      allowedHeaders ← dec_strings (obj_field "allowed_headers" o);
      maxRequestSize ← dec_int (obj_field "max_request_size" o);
      readTimeout ← dec_int (obj_field "read_timeout" o);
      writeTimeout ← dec_int (obj_field "write_timeout" o);
      idleTimeout ← dec_int (obj_field "idle_timeout" o);
      shutdownTimeout ← dec_int (obj_field "shutdown_timeout" o);
      Some (mkServerConfig id name description version type url metadata
              tools port host sslEnabled sslCertFile sslKeyFile
              allowedOrigins allowedMethods allowedHeaders maxRequestSize
              readTimeout writeTimeout idleTimeout shutdownTimeout)
  | _ => None
  end.

(** [LoadToolConfig] *)
Definition LoadToolConfig (path : string) (w : World) : GoError + ToolConfig :=
  match ReadFile path w with
  | inl err =>
      inl (ErrorString ("failed to read tool config: " +:+ error_text err))
  | inr data =>
      match parse data ≫= dec_tool_config with
      | None =>
          inl (ErrorString
                 "failed to parse tool config: json: cannot unmarshal")
      | Some config =>
          match validateToolConfig config with
          | Some err =>
              inl (ErrorString ("invalid tool config: " +:+ error_text err))
          | None => inr config
          end
      end
  end.

(** [LoadServerConfig] *)
Definition LoadServerConfig (path : string) (w : World)
  : GoError + ServerConfig :=
  match ReadFile path w with
  | inl err =>
      inl (ErrorString ("failed to read server config: " +:+ error_text err))
  | inr data =>
      match parse data ≫= dec_server_config with
      | None =>
          inl (ErrorString
                 "failed to parse server config: json: cannot unmarshal")
      | Some config =>
          match validateServerConfig config with
          | Some err =>
              inl (ErrorString ("invalid server config: " +:+ error_text err))
          | None => inr config
          end
      end
  end.

(** ** The manager (manager.go) *)

Record Manager : Type := mkManager {
  servers : gmap string Server;
  tools : gmap string Tool;
  autoApprove : bool;
  timeout : Z;
  configPath : string;
  executors : gmap string ToolExecutor
}.

(** [NewManager] *)
Definition NewManager (path : string) : Manager :=
  mkManager ∅ ∅ false (30 * second) path ∅.

Definition with_servers (m : Manager) (s : gmap string Server) : Manager :=
  mkManager s (tools m) (autoApprove m) (timeout m) (configPath m)
    (executors m).

Definition with_tools (m : Manager) (t : gmap string Tool) : Manager :=
  mkManager (servers m) t (autoApprove m) (timeout m) (configPath m)
    (executors m).

Definition with_autoApprove (m : Manager) (b : bool) : Manager :=
  mkManager (servers m) (tools m) b (timeout m) (configPath m) (executors m).

Definition with_timeout (m : Manager) (d : Z) : Manager :=
  mkManager (servers m) (tools m) (autoApprove m) d (configPath m)
    (executors m).

Definition with_executors (m : Manager) (e : gmap string ToolExecutor)
  : Manager :=
  mkManager (servers m) (tools m) (autoApprove m) (timeout m) (configPath m) e.

Definition server_with_ID (s : Server) (id : string) : Server :=
  mkServer id (srv_Name s) (srv_Description s) (srv_Version s) (srv_URL s)
    (srv_Type s) (srv_Status s) (srv_Tools s) (srv_CreatedAt s)
    (srv_UpdatedAt s) (srv_Metadata s).

Definition server_with_times (s : Server) (created updated : Z) : Server :=
  mkServer (srv_ID s) (srv_Name s) (srv_Description s) (srv_Version s)
    (srv_URL s) (srv_Type s) (srv_Status s) (srv_Tools s) created updated
    (srv_Metadata s).

Definition server_with_status (s : Server) (status : string) (updated : Z)
  : Server :=
  mkServer (srv_ID s) (srv_Name s) (srv_Description s) (srv_Version s)
    (srv_URL s) (srv_Type s) status (srv_Tools s) (srv_CreatedAt s) updated
    (srv_Metadata s).

(** The anonymous struct [saveConfig] marshals. *)
Definition enc_config (m : Manager) : option Doc :=
  ss ← enc_map enc_server (servers m);
  ts ← enc_map enc_tool (tools m);
  Some (JObj [("servers", ss); ("tools", ts);
              ("auto_approve", JBool (autoApprove m));
              ("timeout", JNum (timeout m))]).

(** The anonymous struct [loadConfig] unmarshals into. *)
Definition dec_config (d : Doc)
  : option (gmap string Server * gmap string Tool * bool * Z) :=
  match d with
  | JNull => Some (∅, ∅, false, 0)
  | JObj o =>
      ss ← dec_map dec_server (obj_field "servers" o);
      ts ← dec_map dec_tool (obj_field "tools" o);
      a ← dec_bool (obj_field "auto_approve" o);
      t ← dec_int (obj_field "timeout" o);
      Some (ss, ts, a, t)
  | _ => None
  end.

(** [saveConfig] *)
Definition saveConfig (m : Manager) (w : World) : option GoError * World :=
  match enc_config m with
  | None => (Some (ErrorString "json: unsupported value"), w)
  | Some data =>
      match MkdirAll (configPath m) w with
      | Some err => (Some err, w)
      | None => WriteFile (configPath m) data w
      end
  end.

(** [loadConfig] *)
Definition loadConfig (m : Manager) (w : World) : option GoError * Manager :=
  match ReadFile (configPath m) w with
  | inl err => if IsNotExist err then (None, m) else (Some err, m)
  | inr data =>
      match parse data ≫= dec_config with
      | None => (Some (ErrorString "json: cannot unmarshal"), m)
      | Some (ss, ts, a, t) =>
          (None, mkManager ss ts a t (configPath m) (executors m))
      end
  end.

(** [AddServer] *)
Definition AddServer (m : Manager) (ctx : Context) (server : Server)
    (w : World) : option GoError * Manager * World :=
  let '(server, w) :=
    if decide (srv_ID server = "") then
      let '(id, w) := NewUUID w in (server_with_ID server id, w)
    else (server, w) in
  let '(created, w) := Now w in
  let '(updated, w) := Now w in
  let server := server_with_times server created updated in
  let m := with_servers m (<[srv_ID server := server]> (servers m)) in
  let '(err, w) := saveConfig m w in
  (err, m, w).

(** One turn of the loop of [RemoveServer] over the tools. *)
Definition drop_tool_of (serverID : string) (acc : gmap string Tool)
    (p : string * Tool) : gmap string Tool :=
  if decide (tool_ServerID (snd p) = serverID)
  then delete (fst p) acc else acc.

(** The loop of [RemoveServer] over the tools. *)
Definition remove_tools_of (serverID : string) (ts : gmap string Tool)
  : gmap string Tool :=
  foldl (drop_tool_of serverID) ts (range Tool ts).

(** [RemoveServer] *)
Definition RemoveServer (m : Manager) (ctx : Context) (serverID : string)
    (w : World) : option GoError * Manager * World :=
  match servers m !! serverID with
  | None => (Some (ErrorString "server not found"), m, w)
  | Some _ =>
      let m := with_tools m (remove_tools_of serverID (tools m)) in
      let m := with_servers m (delete serverID (servers m)) in
      let '(err, w) := saveConfig m w in
      (err, m, w)
  end.

(** [GetServer] *)
Definition GetServer (m : Manager) (ctx : Context) (serverID : string)
  : GoError + Server :=
  match servers m !! serverID with
  | None => inl (ErrorString "server not found")
  | Some server => inr server
  end.

(** [ListServers] *)
Definition ListServers (m : Manager) (ctx : Context) : list Server :=
  snd <$> range Server (servers m).

(** The body shared by [StartServer] and [StopServer]. *)
Definition set_server_status (status : string) (m : Manager)
    (serverID : string) (w : World) : option GoError * Manager * World :=
  match servers m !! serverID with
  | None => (Some (ErrorString "server not found"), m, w)
  | Some server =>
      let '(updated, w) := Now w in
      let m :=
        with_servers m
          (<[serverID := server_with_status server status updated]>
             (servers m)) in
      let '(err, w) := saveConfig m w in
      (err, m, w)
  end.

(** [StartServer] *)
Definition StartServer (m : Manager) (ctx : Context) (serverID : string)
    (w : World) : option GoError * Manager * World :=
  set_server_status ServerStatusRunning m serverID w.

(** [StopServer] *)
Definition StopServer (m : Manager) (ctx : Context) (serverID : string)
    (w : World) : option GoError * Manager * World :=
  set_server_status ServerStatusStopped m serverID w.



(** The executor lookup of [ExecuteTool]: the cached executor of the
    server, or a new one by server type, stored under the server's key. *)
Definition obtain_executor (m : Manager) (serverID : string) (server : Server)
  : GoError + (ToolExecutor * Manager) :=
  match executors m !! serverID with
  | Some executor => inr (executor, m)
  | None =>
      if decide (srv_Type server = ServerTypeLocal) then
        let executor := ExLocal NewLocalExecutor in
        inr (executor,
             with_executors m (<[serverID := executor]> (executors m)))
      else if decide (srv_Type server = ServerTypeRemote) then
        let executor := ExHTTP (NewHTTPExecutor (timeout m)) in
        inr (executor,
             with_executors m (<[serverID := executor]> (executors m)))
      else
        inl (ErrorString ("unsupported server type: " +:+ srv_Type server))
  end.

(** [ExecuteTool] *)
Definition ExecuteTool (m : Manager) (ctx : Context) (toolID : string)
    (params : gmap string GoValue) (w : World)
  : Call ToolResult * Manager * World :=
  match tools m !! toolID with
  | None => (Err (ErrorString "tool not found"), m, w)
  | Some tool =>
  match GetServer m ctx (tool_ServerID tool) with
  | inl err =>
      (Err (ErrorString ("server error: " +:+ error_text err)), m, w)
  | inr server =>
      if decide (srv_Status server ≠ ServerStatusRunning) then
        (Err (ErrorString "server is not running"), m, w)
      else
        match obtain_executor m (tool_ServerID tool) server with
        | inl err => (Err err, m, w)
        | inr (executor, m) =>
            let '(result, w) := Execute executor ctx tool params w in
            match result with
            | Err err => (Err err, m, w)
            | Panic msg => (Panic msg, m, w)
            | Ok result =>
                (Ok (mkToolResult toolID (exec_Status result)
                       (exec_Result result) (exec_Error result)
                       (exec_StartTime result) (exec_EndTime result)), m, w)
            end
        end
  end end.

(** [SetAutoApprove] *)
Definition SetAutoApprove (m : Manager) (ctx : Context) (enabled : bool)
    (w : World) : option GoError * Manager * World :=
  let m := with_autoApprove m enabled in
  let '(err, w) := saveConfig m w in
  (err, m, w).

(** [GetAutoApprove] *)
Definition GetAutoApprove (m : Manager) (ctx : Context) : bool :=
  autoApprove m.

(** [SetTimeout] *)
Definition SetTimeout (m : Manager) (ctx : Context) (d : Z) (w : World)
  : option GoError * Manager * World :=
  let m := with_timeout m d in
  let '(err, w) := saveConfig m w in
  (err, m, w).

(** [GetTimeout] *)
Definition GetTimeout (m : Manager) (ctx : Context) : Z :=
  timeout m.

(** [RegisterLocalTool] *)
Definition RegisterLocalTool (m : Manager) (serverID : string) (tool : Tool)
    (handler : ToolHandler) (w : World) : option GoError * Manager * World :=
  match servers m !! serverID with
  | None => (Some (ErrorString "server not found"), m, w)
  | Some server =>
      if decide (srv_Type server ≠ ServerTypeLocal) then
        (Some (ErrorString "server is not a local server"), m, w)
      else
        let '(created, w) := Now w in
        let '(updated, w) := Now w in
        let tool :=
          mkTool (tool_ID tool) (tool_Name tool) (tool_Description tool)
            (tool_Version tool) (tool_Author tool) (tool_Parameters tool)
            serverID created updated (tool_Metadata tool) in
        let m := with_tools m (<[tool_ID tool := tool]> (tools m)) in
        let '(executor, m) :=
          match executors m !! serverID with
          | Some executor => (executor, m)
          | None =>
              (ExLocal NewLocalExecutor,
               with_executors m
                 (<[serverID := ExLocal NewLocalExecutor]> (executors m)))
          end in
        match executor with
        | ExHTTP _ => (Some (ErrorString "invalid executor type"), m, w)
        | ExLocal localExecutor =>
            let m :=
              with_executors m
                (<[serverID :=
                     ExLocal (RegisterHandler localExecutor (tool_ID tool)
                                handler)]> (executors m)) in
            let '(err, w) := saveConfig m w in
            (err, m, w)
        end
  end.

(** The [Tool] that [LoadToolFromConfig] and [LoadServerFromConfig] build
    from a tool configuration. *)
Definition tool_of_config (config : ToolConfig) (serverID : string)
    (created updated : Z) : Tool :=
  mkTool (tc_ID config) (tc_Name config) (tc_Description config)
    (tc_Version config) (tc_Author config) (tc_Parameters config)
    serverID created updated (tc_Metadata config).

(** [LoadToolFromConfig]; the [Tool] literal sets no [ServerID]. *)
Definition LoadToolFromConfig (m : Manager) (ctx : Context) (path : string)
    (w : World) : option GoError * Manager * World :=
  match LoadToolConfig path w with
  | inl err =>
      (Some (ErrorString ("failed to load tool config: " +:+ error_text err)),
       m, w)
  | inr config =>
      let '(created, w) := Now w in
      let '(updated, w) := Now w in
      let tool := tool_of_config config "" created updated in
      let m := with_tools m (<[tool_ID tool := tool]> (tools m)) in
      let '(err, w) := saveConfig m w in
      (err, m, w)
  end.

(** The loop of [LoadServerFromConfig] over the server's tools. *)
Fixpoint load_server_tools (serverID : string) (configs : list ToolConfig)
    (m : Manager) (w : World) : Manager * World :=
  match configs with
  | [] => (m, w)
  | toolConfig :: rest =>
      let '(created, w) := Now w in
      let '(updated, w) := Now w in
      let tool := tool_of_config toolConfig serverID created updated in
      load_server_tools serverID rest
        (with_tools m (<[tool_ID tool := tool]> (tools m))) w
  end.

(** [LoadServerFromConfig] *)
Definition LoadServerFromConfig (m : Manager) (ctx : Context) (path : string)
    (w : World) : option GoError * Manager * World :=
  match LoadServerConfig path w with
  | inl err =>
      (Some (ErrorString ("failed to load server config: "
                          +:+ error_text err)), m, w)
  | inr config =>
      let '(created, w) := Now w in
      let '(updated, w) := Now w in
      let server :=
        mkServer (sc_ID config) (sc_Name config) (sc_Description config)
          (sc_Version config) (sc_URL config) (sc_Type config)
          ServerStatusStopped [] created updated (sc_Metadata config) in
      let m := with_servers m (<[srv_ID server := server]> (servers m)) in
      let '(m, w) := load_server_tools (srv_ID server) (sc_Tools config) m w in
      let '(err, w) := saveConfig m w in
      (err, m, w)
  end.

(** ** Notions the statements below are phrased with *)

(** The conversion at the end of [ExecuteTool], as a function of the
    executor's outcome. *)
Definition to_ToolResult (toolID : string) (c : Call ToolExecutionResult)
  : Call ToolResult :=
  match c with
  | Ok result =>
      Ok (mkToolResult toolID (exec_Status result) (exec_Result result)
            (exec_Error result) (exec_StartTime result) (exec_EndTime result))
  | Err err => Err err
  | Panic msg => Panic msg
  end.

(** The executor that matches a server's type: handler dispatch for a
    local server, HTTP with the manager's timeout for a remote one. *)
Definition executor_for (m : Manager) (server : Server)
  : option ToolExecutor :=
  if decide (srv_Type server = ServerTypeLocal) then
    Some (ExLocal NewLocalExecutor)
  else if decide (srv_Type server = ServerTypeRemote) then
    Some (ExHTTP (NewHTTPExecutor (timeout m)))
  else None.

(** The runtime shapes a type tag stands for. *)
Definition has_shape (tag : string) (v : GoValue) : Prop :=
  match v with
  | VString _ => tag = "string"
  | VNum k _ =>
      tag = "number"
      ∧ k ∈ [KInt; KInt8; KInt16; KInt32; KInt64; KFloat32; KFloat64]
  | VBool _ => tag = "boolean"
  | VArray _ => tag = "array"
  | VObject _ => tag = "object"
  | VNil | VOther _ _ => False
  end.

(** A call's parameter map breaks a tool's parameter schema: a required
    parameter is absent, or a supplied key is not declared, or a supplied
    value does not have the shape of the type tag of the declaration the
    key resolves to. *)
Definition violates_schema (t : Tool) (params : gmap string GoValue) : Prop :=
  (∃ p, p ∈ tool_Parameters t ∧ param_Required p = true
        ∧ params !! param_Name p = None)
  ∨ (∃ k, is_Some (params !! k)
          ∧ ∀ p, p ∈ tool_Parameters t → param_Name p ≠ k)
  ∨ (∃ k v p, params !! k = Some v
              ∧ find_param (tool_Parameters t) k = Some p
              ∧ ¬ has_shape (param_Type p) v).


(** The mutating calls of the manager, with their arguments. *)
Inductive Mutation : Type :=
  | CallAddServer (ctx : Context) (server : Server)
  | CallRemoveServer (ctx : Context) (serverID : string)
  | CallStartServer (ctx : Context) (serverID : string)
  | CallStopServer (ctx : Context) (serverID : string)
  | CallSetAutoApprove (ctx : Context) (enabled : bool)
  | CallSetTimeout (ctx : Context) (d : Z)
  | CallRegisterLocalTool (serverID : string) (tool : Tool)
      (handler : ToolHandler)
  | CallLoadToolFromConfig (ctx : Context) (path : string)
  | CallLoadServerFromConfig (ctx : Context) (path : string).

Definition perform (c : Mutation) (m : Manager) (w : World)
  : option GoError * Manager * World :=
  match c with
  | CallAddServer ctx server => AddServer m ctx server w
  | CallRemoveServer ctx serverID => RemoveServer m ctx serverID w
  | CallStartServer ctx serverID => StartServer m ctx serverID w
  | CallStopServer ctx serverID => StopServer m ctx serverID w
  | CallSetAutoApprove ctx enabled => SetAutoApprove m ctx enabled w
  | CallSetTimeout ctx d => SetTimeout m ctx d w
  | CallRegisterLocalTool serverID tool handler =>
      RegisterLocalTool m serverID tool handler w
  | CallLoadToolFromConfig ctx path => LoadToolFromConfig m ctx path w
  | CallLoadServerFromConfig ctx path => LoadServerFromConfig m ctx path w
  end.


(** The health endpoint of a remote runner answers 200. *)
Definition healthy (r : RemoteServerRunner) (w : World) : Prop :=
  ∃ body,
    env_http (w_env w) (health_request (remote_health_url (remote_server r)))
      = HTTPResponse 200 body.

(** What the specification says of [RemoteServerRunner.Start], for every
    runner: exactly one health check, after which the runner is running
    and [Start] has succeeded if the endpoint answered 200, and is in
    error and [Start] has failed otherwise. *)
Definition Start_as_specified : Prop :=
  ∀ (r : RemoteServerRunner) (ctx : Context) (w : World),
    let out := RemoteServerRunner_Start r ctx w in
    w_trace (snd out)
      = (w_trace w
           ++ [EvHTTP (health_request (remote_health_url (remote_server r)))])%list
    ∧ (healthy r w →
         fst (fst out) = None
         ∧ remote_status (snd (fst out)) = ServerStatusRunning)
    ∧ (¬ healthy r w →
         is_Some (fst (fst out))
         ∧ remote_status (snd (fst out)) = ServerStatusError).

(** A declared parameter without a name or without a type. *)
Definition bad_parameter (p : ToolParameter) : Prop :=
  param_Name p = "" ∨ param_Type p = "".

(** The rejection rules of the specification, read on a tool
    configuration: identity, parameters, and the numeric limits. *)
Definition tool_rules (c : ToolConfig) : Prop :=
  tc_ID c = "" ∨ tc_Name c = "" ∨ tc_Version c = ""
  ∨ Exists bad_parameter (tc_Parameters c)
  ∨ tc_Timeout c < 0 ∨ tc_RetryCount c < 0 ∨ tc_RetryDelay c < 0
  ∨ tc_Concurrency c < 0 ∨ tc_RateLimit c < 0
  ∨ tc_LogMaxSize c < 0 ∨ tc_LogMaxFiles c < 0.

(** The rejection rules of the specification, read on a server
    configuration; its embedded tool configurations fall under the tool
    rules. *)
Definition server_rules_as_specified (c : ServerConfig) : Prop :=
  sc_ID c = "" ∨ sc_Name c = "" ∨ sc_Version c = ""
  ∨ Exists tool_rules (sc_Tools c)
  ∨ (sc_Port c < 0 ∨ sc_Port c > 65535)
  ∨ (sc_SSLEnabled c = true
     ∧ (sc_SSLCertFile c = "" ∨ sc_SSLKeyFile c = ""))
  ∨ sc_ReadTimeout c < 0 ∨ sc_WriteTimeout c < 0
  ∨ sc_IdleTimeout c < 0 ∨ sc_ShutdownTimeout c < 0.

(** The rules [validateServerConfig] enforces: the above and a type. *)
Definition server_rules (c : ServerConfig) : Prop :=
  server_rules_as_specified c ∨ sc_Type c = "".

(** What the specification says of the two loaders: a file that reads
    and parses is refused when it breaks one of the listed rules and
    accepted when it breaks none. *)
Definition loaders_as_specified : Prop :=
  ∀ (path : string) (w : World) (doc : Doc),
    ReadFile path w = inr (Text doc) →
    (∀ c, dec_tool_config doc = Some c →
       (tool_rules c → ∃ e, LoadToolConfig path w = inl e)
       ∧ (¬ tool_rules c → LoadToolConfig path w = inr c))
    ∧ (∀ c, dec_server_config doc = Some c →
         (server_rules_as_specified c → ∃ e, LoadServerConfig path w = inl e)
         ∧ (¬ server_rules_as_specified c → LoadServerConfig path w = inr c)).

(** ** Sample data for the instances at the end *)

(** The iteration order of stdpp's own enumeration. *)
Definition map_order : ∀ A : Type, gmap string A → list (string * A) :=
  fun A m => map_to_list m.

Definition background : Context := mkContext None.

(** An environment whose HTTP peers never answer in time, with a working
    disk. *)
Definition down_env : Env :=
  mkEnv (fun n => Z.of_nat n) (fun n => "uuid-" +:+ pretty n)
    (fun _ => HTTPFailure DeadlineExceeded) (fun _ => None) (fun _ => None)
    None None None.

Definition echo_tool : Tool :=
  mkTool "t1" "echo" "" "1.0" ""
    [mkToolParameter "x" "string" "" true VNil] "s1" 0 0
    {[ "endpoint" := "http://tools.example/echo" ]}.

Definition remote_s1 (status : string) : Server :=
  mkServer "s1" "remote one" "" "1.0" "http://tools.example" ServerTypeRemote
    status [] 0 0 ∅.

Definition registry (status : string) : Manager :=
  mkManager {[ "s1" := remote_s1 status ]} {[ "t1" := echo_tool ]} false
    (30 * second) "/var/mcp/registry.json" ∅.

Definition echo_file : Doc :=
  JObj [("id", JStr "echo"); ("name", JStr "echo"); ("version", JStr "1.0")].

Definition echo_config : ToolConfig :=
  mkToolConfig "echo" "echo" "" "1.0" "" [] ∅ 0 0 0 0 0 false [] [] "" "" ""
    0 0.

(** A server configuration with ID, name and version and no type. *)
Definition untyped_server_file : Doc :=
  JObj [("id", JStr "s2"); ("name", JStr "two"); ("version", JStr "1.0")].

Definition untyped_server_config : ServerConfig :=
  mkServerConfig "s2" "two" "" "1.0" "" "" ∅ [] 0 "" false "" "" [] [] []
    0 0 0 0 0.

Definition down_world : World :=
  mkWorld down_env 0 0
    (<["/etc/mcp/tools/echo.json" := Text echo_file]>
       (<["/etc/mcp/servers/s2.json" := Text untyped_server_file]> ∅)) [].

(** ** Further notions *)

(** The type tag under which a JSON value decodes to a matching Go
    value; [null] has none. *)
Definition json_tag (d : Doc) : option string :=
  match d with
  | JNull => None
  | JBool _ => Some "boolean"
  | JNum _ => Some "number"
  | JStr _ | JTime _ => Some "string"
  | JArr _ => Some "array"
  | JObj _ => Some "object"
  end.

(** A value that JSON can carry: it marshals, and what it marshals to
    decodes back to it. *)
Definition json_borne (v : GoValue) : Prop :=
  ∃ d, value_to_doc v = Some d ∧ doc_to_value d = v.

(** Tools and servers all of whose parameter defaults JSON can carry. *)
Definition plain_tool (t : Tool) : Prop :=
  Forall (fun p => json_borne (param_Default p)) (tool_Parameters t).

Definition plain_server (s : Server) : Prop :=
  Forall plain_tool (srv_Tools s).

(** ** The local runner's stop channel (server.go) *)

(** A [LocalServerRunner] together with the state of its [stopChan],
    which [NewLocalServerRunner] makes once and nothing remakes. *)
Record LocalRunner : Type := mkLocalRunner {
  lr_core : LocalServerRunner;
  lr_stop_closed : bool
}.

Definition NewLocalRunner (server : Server) : LocalRunner :=
  mkLocalRunner (NewLocalServerRunner server) false.

(** [LocalServerRunner.Start] does not touch the channel. *)
Definition LocalRunner_Start (r : LocalRunner) (ctx : Context) (w : World)
  : option GoError * LocalRunner * World :=
  let '(err, core, w) := LocalServerRunner_Start (lr_core r) ctx w in
  (err, mkLocalRunner core (lr_stop_closed r), w).

Definition local_with_status (r : LocalServerRunner) (status : string)
  : LocalServerRunner :=
  mkLocalServerRunner (local_server r) (local_cmd r) status
    (local_healthURL r).

(** [LocalServerRunner.Stop]; [kill] is what [Process.Kill] returns when
    it is called. Closing a closed channel panics. *)
Definition LocalRunner_Stop (r : LocalRunner) (ctx : Context)
    (kill : option GoError) (w : World) : Call unit * LocalRunner * World :=
  if decide (local_status (lr_core r) ≠ ServerStatusRunning) then
    (Ok tt, r, w)
  else if lr_stop_closed r then
    (Panic "close of closed channel", r, w)
  else
    match local_cmd (lr_core r) with
    | Some _ =>
        let w := emit EvKill w in
        match kill with
        | Some err =>
            (Err (ErrorString ("failed to stop server: " +:+ error_text err)),
             mkLocalRunner (lr_core r) true, w)
        | None =>
            (Ok tt,
             mkLocalRunner (local_with_status (lr_core r) ServerStatusStopped)
               true, w)
        end
    | None =>
        (Ok tt,
         mkLocalRunner (local_with_status (lr_core r) ServerStatusStopped)
           true, w)
    end.

(** One turn of the ticker branch of the health loop: a failed check
    demotes the runner to [error]. *)
Definition health_tick (r : LocalServerRunner) (w : World)
  : LocalServerRunner * World :=
  match LocalServerRunner_HealthCheck r (mkContext None) w with
  | (Some _, w) => (local_with_status r ServerStatusError, w)
  | (None, w) => (r, w)
  end.

(** ** The context manager (context.go) *)

Record ContextItem : Type := mkContextItem {
  item_ID : string;
  item_Type : string;
  item_Value : string;
  item_CreatedAt : Z
}.

(** [NewContextItem] *)
Definition NewContextItem (id typ value : string) (w : World)
  : ContextItem * World :=
  let '(now, w) := Now w in (mkContextItem id typ value now, w).

Record ContextManager : Type := mkContextManager {
  items : gmap string ContextItem
}.

(** [NewManager] of the context package *)
Definition NewContextManager : ContextManager := mkContextManager ∅.

(** [AddItem] *)
Definition AddItem (m : ContextManager) (item : ContextItem)
  : ContextManager :=
  mkContextManager (<[item_ID item := item]> (items m)).

(** [RemoveItem] *)
Definition RemoveItem (m : ContextManager) (id : string)
  : option GoError * ContextManager :=
  match items m !! id with
  | None => (Some (ErrorString "context item not found"), m)
  | Some _ => (None, mkContextManager (delete id (items m)))
  end.

(** [GetItem] *)
Definition GetItem (m : ContextManager) (id : string)
  : GoError + ContextItem :=
  match items m !! id with
  | None => inl (ErrorString "context item not found")
  | Some item => inr item
  end.

(** [ListItems] *)
Definition ListItems (m : ContextManager) : list ContextItem :=
  snd <$> range ContextItem (items m).

(** A sequence of lifecycle calls on a remote runner, each in the world
    the previous one left. *)
Inductive RunnerCall : Type :=
  | DoStart (ctx : Context)
  | DoStop (ctx : Context).

Definition remote_call (c : RunnerCall) (r : RemoteServerRunner) (w : World)
  : RemoteServerRunner * World :=
  match c with
  | DoStart ctx =>
      (snd (fst (RemoteServerRunner_Start r ctx w)),
       snd (RemoteServerRunner_Start r ctx w))
  | DoStop ctx =>
      (snd (fst (RemoteServerRunner_Stop r ctx w)),
       snd (RemoteServerRunner_Stop r ctx w))
  end.

Fixpoint remote_calls (cs : list RunnerCall) (r : RemoteServerRunner)
    (w : World) : RemoteServerRunner * World :=
  match cs with
  | [] => (r, w)
  | c :: rest =>
      let '(r, w) := remote_call c r w in remote_calls rest r w
  end.

(** ** Loading a directory of configurations (manager.go) *)

(** The two loops of [LoadConfigsFromDirectory]: load the files in
    order and return at the first one that fails, naming it. *)
Fixpoint load_each
    (load : Manager → Context → string → World
            → option GoError * Manager * World)
    (kind : string) (paths : list string) (m : Manager) (ctx : Context)
    (w : World) : option GoError * Manager * World :=
  match paths with
  | [] => (None, m, w)
  | configPath :: rest =>
      match load m ctx configPath w with
      | (Some err, m, w) =>
          (Some (ErrorString ("failed to load " +:+ kind +:+ " config "
                              +:+ configPath +:+ ": " +:+ error_text err)),
           m, w)
      | (None, m, w) => load_each load kind rest m ctx w
      end
  end.

(** [LoadConfigsFromDirectory]; [glob dir sub w] is
    [filepath.Glob(filepath.Join(dir, sub, "*.json"))] on the files of
    [w]. *)
Definition LoadConfigsFromDirectory
    (glob : string → string → World → GoError + list string)
    (m : Manager) (ctx : Context) (dirPath : string) (w : World)
  : option GoError * Manager * World :=
  match glob dirPath "servers" w with
  | inl err =>
      (Some (ErrorString ("failed to find server configs: "
                          +:+ error_text err)), m, w)
  | inr serverConfigs =>
      match load_each LoadServerFromConfig "server" serverConfigs m ctx w with
      | (Some err, m, w) => (Some err, m, w)
      | (None, m, w) =>
          match glob dirPath "tools" w with
          | inl err =>
              (Some (ErrorString ("failed to find tool configs: "
                                  +:+ error_text err)), m, w)
          | inr toolConfigs =>
              load_each LoadToolFromConfig "tool" toolConfigs m ctx w
          end
      end
  end.

(** ** Writing declarative configurations (config.go) *)

(** The fields [json.Marshal] writes, from the fields of a struct each
    with the flag that says whether it is written: always for a plain
    tag, only when non-zero for [omitempty]. *)
Definition kept (fields : list (bool * string * Doc))
  : list (string * Doc) :=
  omap (fun f : bool * string * Doc =>
          if fst (fst f) then Some (snd (fst f), snd f) else None)
       fields.

Definition int_set (z : Z) : bool := negb (bool_decide (z = 0)).
Definition string_set (s : string) : bool := negb (bool_decide (s = "")).
Definition strings_set (l : list string) : bool :=
  match l with [] => false | _ => true end.

Definition enc_strings (l : list string) : Doc := JArr (JStr <$> l).

Definition tool_config_fields (c : ToolConfig) (ps : list Doc)
  : list (bool * string * Doc) :=
  [(true, "id", JStr (tc_ID c));
   (true, "name", JStr (tc_Name c));
   (true, "description", JStr (tc_Description c));
   (true, "version", JStr (tc_Version c));
   (true, "author", JStr (tc_Author c));
   (true, "parameters", JArr ps);
   (true, "metadata", enc_string_map (tc_Metadata c));
   (int_set (tc_Timeout c), "timeout", JNum (tc_Timeout c));
   (int_set (tc_RetryCount c), "retry_count", JNum (tc_RetryCount c));
   (int_set (tc_RetryDelay c), "retry_delay", JNum (tc_RetryDelay c));
   (int_set (tc_Concurrency c), "concurrency", JNum (tc_Concurrency c));
   (int_set (tc_RateLimit c), "rate_limit", JNum (tc_RateLimit c));
   (tc_RequireAuth c, "require_auth", JBool (tc_RequireAuth c));
   (strings_set (tc_AllowRoles c), "allow_roles",
    enc_strings (tc_AllowRoles c));
   (strings_set (tc_AllowIPs c), "allow_ips", enc_strings (tc_AllowIPs c));
   (string_set (tc_LogLevel c), "log_level", JStr (tc_LogLevel c));
   (string_set (tc_LogFile c), "log_file", JStr (tc_LogFile c));
   (string_set (tc_LogFormat c), "log_format", JStr (tc_LogFormat c));
   (int_set (tc_LogMaxSize c), "log_max_size", JNum (tc_LogMaxSize c));
   (int_set (tc_LogMaxFiles c), "log_max_files", JNum (tc_LogMaxFiles c))].

(** [json.Marshal] of a [ToolConfig] *)
Definition enc_tool_config (c : ToolConfig) : option Doc :=
  ps ← mapM enc_param (tc_Parameters c);
  Some (JObj (kept (tool_config_fields c ps))).

Definition server_config_fields (c : ServerConfig) (ts : list Doc)
  : list (bool * string * Doc) :=
  [(true, "id", JStr (sc_ID c));
   (true, "name", JStr (sc_Name c));
   (true, "description", JStr (sc_Description c));
   (true, "version", JStr (sc_Version c));
   (true, "type", JStr (sc_Type c));
   (string_set (sc_URL c), "url", JStr (sc_URL c));
   (true, "metadata", enc_string_map (sc_Metadata c));
   (true, "tools", JArr ts);
   (int_set (sc_Port c), "port", JNum (sc_Port c));
   (string_set (sc_Host c), "host", JStr (sc_Host c));
   (sc_SSLEnabled c, "ssl_enabled", JBool (sc_SSLEnabled c));
   (string_set (sc_SSLCertFile c), "ssl_cert_file", JStr (sc_SSLCertFile c));
   (string_set (sc_SSLKeyFile c), "ssl_key_file", JStr (sc_SSLKeyFile c));
   (strings_set (sc_AllowedOrigins c), "allowed_origins",
    enc_strings (sc_AllowedOrigins c));
   (strings_set (sc_AllowedMethods c), "allowed_methods",
    enc_strings (sc_AllowedMethods c));
   (strings_set (sc_AllowedHeaders c), "allowed_headers",
    enc_strings (sc_AllowedHeaders c));
   (int_set (sc_MaxRequestSize c), "max_request_size",
    JNum (sc_MaxRequestSize c));
   (int_set (sc_ReadTimeout c), "read_timeout", JNum (sc_ReadTimeout c));
   (int_set (sc_WriteTimeout c), "write_timeout", JNum (sc_WriteTimeout c));
   (int_set (sc_IdleTimeout c), "idle_timeout", JNum (sc_IdleTimeout c));
   (int_set (sc_ShutdownTimeout c), "shutdown_timeout",
    JNum (sc_ShutdownTimeout c))].

(** [json.Marshal] of a [ServerConfig] *)
Definition enc_server_config (c : ServerConfig) : option Doc :=
  ts ← mapM enc_tool_config (sc_Tools c);
  Some (JObj (kept (server_config_fields c ts))).

(** The common body of [SaveToolConfig] and [SaveServerConfig]. *)
Definition save_config_file (kind : string) (data : option Doc)
    (path : string) (w : World) : option GoError * World :=
  match data with
  | None =>
      (Some (ErrorString ("failed to marshal " +:+ kind
                          +:+ " config: json: unsupported value")), w)
  | Some data =>
      match MkdirAll path w with
      | Some err =>
          (Some (ErrorString ("failed to create directory: "
                              +:+ error_text err)), w)
      | None =>
          match WriteFile path data w with
          | (Some err, w) =>
              (Some (ErrorString ("failed to write " +:+ kind +:+ " config: "
                                  +:+ error_text err)), w)
          | (None, w) => (None, w)
          end
      end
  end.


(** [SaveServerConfig] *)
Definition SaveServerConfig (config : ServerConfig) (path : string)
    (w : World) : option GoError * World :=
  save_config_file "server" (enc_server_config config) path w.

(** The integer fields of a configuration hold what their Go types,
    [int] and [int64], can hold. *)
Definition tool_config_in_range (c : ToolConfig) : Prop :=
  Forall in_int64
    [tc_Timeout c; tc_RetryCount c; tc_RetryDelay c; tc_Concurrency c;
     tc_RateLimit c; tc_LogMaxSize c; tc_LogMaxFiles c].

Definition server_config_in_range (c : ServerConfig) : Prop :=
  Forall tool_config_in_range (sc_Tools c)
  ∧ Forall in_int64
      [sc_Port c; sc_MaxRequestSize c; sc_ReadTimeout c; sc_WriteTimeout c;
       sc_IdleTimeout c; sc_ShutdownTimeout c].

(** A value as it comes back from its JSON rendering: a number of any Go
    kind comes back as a float64, a value of another type as the string,
    array or object it is rendered as. *)
Definition through_json (v : GoValue) : GoValue :=
  from_option doc_to_value VNil (value_to_doc v).

Definition param_through_json (p : ToolParameter) : ToolParameter :=
  mkToolParameter (param_Name p) (param_Type p) (param_Description p)
    (param_Required p) (through_json (param_Default p)).

(** A configuration with every parameter default as it comes back from
    JSON, and every other field as it is. *)
Definition tool_config_through_json (c : ToolConfig) : ToolConfig :=
  mkToolConfig (tc_ID c) (tc_Name c) (tc_Description c) (tc_Version c)
    (tc_Author c) (param_through_json <$> tc_Parameters c) (tc_Metadata c)
    (tc_Timeout c) (tc_RetryCount c) (tc_RetryDelay c) (tc_Concurrency c)
    (tc_RateLimit c) (tc_RequireAuth c) (tc_AllowRoles c) (tc_AllowIPs c)
    (tc_LogLevel c) (tc_LogFile c) (tc_LogFormat c) (tc_LogMaxSize c)
    (tc_LogMaxFiles c).

Definition server_config_through_json (c : ServerConfig) : ServerConfig :=
  mkServerConfig (sc_ID c) (sc_Name c) (sc_Description c) (sc_Version c)
    (sc_Type c) (sc_URL c) (sc_Metadata c)
    (tool_config_through_json <$> sc_Tools c) (sc_Port c) (sc_Host c)
    (sc_SSLEnabled c) (sc_SSLCertFile c) (sc_SSLKeyFile c)
    (sc_AllowedOrigins c) (sc_AllowedMethods c) (sc_AllowedHeaders c)
    (sc_MaxRequestSize c) (sc_ReadTimeout c) (sc_WriteTimeout c)
    (sc_IdleTimeout c) (sc_ShutdownTimeout c).

(** A parameter whose default comes back from JSON as it is. *)
Definition default_kept (p : ToolParameter) : Prop :=
  through_json (param_Default p) = param_Default p.

Definition field_key (f : bool * string * Doc) : string := snd (fst f).

(** ** More sample data *)

Definition local_l1 (status : string) : Server :=
  mkServer "l1" "local one" "" "1.0" "" ServerTypeLocal status [] 0 0
    {[ "start_cmd" := "true" ]}.

Definition local_registry : Manager :=
  mkManager {[ "l1" := local_l1 ServerStatusRunning ]} ∅ false (30 * second)
    "/var/mcp/registry.json" ∅.

(** A handler that echoes its parameter [x]. *)
Definition echo_handler : ToolHandler :=
  fun _ params => (VObject [("echo", default VNil (params !! "x"))], None).

Definition hi : gmap string GoValue := {[ "x" := VString "hi" ]}.

(** An environment whose HTTP peers answer 200 with a JSON object. *)
Definition up_env : Env :=
  mkEnv (fun n => Z.of_nat n) (fun n => "uuid-" +:+ pretty n)
    (fun _ => HTTPResponse 200 (Some (JObj [("ok", JBool true)])))
    (fun _ => None) (fun _ => None) None None None.

Definition up_world : World := mkWorld up_env 0 0 ∅ [].

(** The sample registry with an HTTP executor of five seconds cached for
    [s1]. *)
Definition cached_registry : Manager :=
  with_executors (registry ServerStatusRunning)
    {[ "s1" := ExHTTP (NewHTTPExecutor (5 * second)) ]}.

(** A server configuration of a type that is neither local nor remote,
    with one tool. *)
Definition grpc_server_config : ServerConfig :=
  mkServerConfig "s3" "three" "" "1.0" "grpc" "" ∅ [echo_config] 0 ""
    false "" "" [] [] [] 0 0 0 0 0.

Definition grpc_server_file : Doc :=
  JObj [("id", JStr "s3"); ("name", JStr "three"); ("version", JStr "1.0");
        ("type", JStr "grpc"); ("tools", JArr [echo_file])].

Definition config_world : World :=
  mkWorld down_env 0 0
    (<["/etc/mcp/servers/s2.json" := Text untyped_server_file]>
       (<["/etc/mcp/servers/s3.json" := Text grpc_server_file]> ∅)) [].

(** A directory listing with the server files [s3.json] and [s2.json]
    and no tool file. *)
Definition server_files (dir sub : string) (w : World)
  : GoError + list string :=
  if decide (sub = "servers")
  then inr ["/etc/mcp/servers/s3.json"; "/etc/mcp/servers/s2.json"]
  else inr [].

Definition fresh_local_runner : LocalRunner :=
  NewLocalRunner (local_l1 ServerStatusStopped).

(** The fresh runner after it was started, stopped and started again. *)
Definition restarted_runner : LocalRunner * World :=
  let '(_, r1, w1) :=
    LocalRunner_Start fresh_local_runner background down_world in
  let '(_, r2, w2) := LocalRunner_Stop r1 background None w1 in
  let '(_, r3, w3) := LocalRunner_Start r2 background w2 in
  (r3, w3).

(** A running local runner with a health URL. *)
Definition watched_runner : LocalRunner :=
  mkLocalRunner
    (mkLocalServerRunner (local_l1 ServerStatusRunning)
       (Some ("true", "", "")) ServerStatusRunning "http://localhost/health")
    false.


Definition note_item : ContextItem :=
  mkContextItem "c1" "file" "main.go" 0.

(** * Properties *)

(** ** Dispatch preconditions of [ExecuteTool] *)

(** C1. Executing a tool whose owning server exists and is not running
    fails with "server is not running"; the manager (its executor cache
    included) and the world (its trace of handler calls and HTTP requests
    included) are left exactly as they were. *)
Theorem ExecuteTool_server_not_running
    (m : Manager) (ctx : Context) (toolID : string) (tool : Tool)
    (server : Server) (params : gmap string GoValue) (w : World) :
  tools m !! toolID = Some tool →
  servers m !! tool_ServerID tool = Some server →
  srv_Status server ≠ ServerStatusRunning →
  ExecuteTool m ctx toolID params w
    = (Err (ErrorString "server is not running"), m, w).
Proof.
  intros Htool Hserver Hstatus.
  unfold ExecuteTool, GetServer.
  rewrite Htool, Hserver.
  destruct (decide (srv_Status server ≠ ServerStatusRunning)) as [_|Hrun].
  - reflexivity.
  - contradiction.
Qed.

Lemma ExecuteTool_dangling (m : Manager) (ctx : Context) (toolID : string)
    (tool : Tool) (params : gmap string GoValue) (w : World) :
  tools m !! toolID = Some tool →
  servers m !! tool_ServerID tool = None →
  ExecuteTool m ctx toolID params w
    = (Err (ErrorString "server error: server not found"), m, w).
Proof.
  intros Htool Hserver. unfold ExecuteTool, GetServer.
  rewrite Htool, Hserver. reflexivity.
Qed.

(** C10. A tool loaded by [LoadToolFromConfig] is registered under its
    configured ID with an empty [ServerID], whether or not the registry
    could be persisted; in every manager that holds this tool and has no
    server under the empty ID, executing it fails with "server error:
    server not found" and changes neither the manager nor the world. *)
Theorem LoadToolFromConfig_tool_is_dangling
    (m : Manager) (ctx : Context) (path : string) (w : World)
    (config : ToolConfig) :
  LoadToolConfig path w = inr config →
  ∃ tool,
    tools (snd (fst (LoadToolFromConfig m ctx path w))) !! tc_ID config
      = Some tool
    ∧ tool_ServerID tool = ""
    ∧ ∀ (m' : Manager) (ctx' : Context) (params : gmap string GoValue)
        (w' : World),
        tools m' !! tc_ID config = Some tool →
        servers m' !! "" = None →
        ExecuteTool m' ctx' (tc_ID config) params w'
          = (Err (ErrorString "server error: server not found"), m', w').
Proof.
  intros Hload. unfold LoadToolFromConfig. rewrite Hload.
  destruct (Now w) as [created w1].
  destruct (Now w1) as [updated w2].
  set (tool := tool_of_config config "" created updated).
  destruct (saveConfig _ w2) as [err w3]. cbn.
  exists tool. split; [|split].
  - apply lookup_insert_eq.
  - reflexivity.
  - intros m' ctx' params w' Htool Hnone.
    apply ExecuteTool_dangling with (tool := tool); [exact Htool|exact Hnone].
Qed.

(** ** Parameter validation *)

Lemma validateParameterType_accepts (tag : string) (v : GoValue) :
  validateParameterType tag v = None ↔ has_shape tag v.
Proof.
  unfold validateParameterType, has_shape.
  destruct v as [|s|k z|b|items|entries|n j]; try destruct k;
    repeat case_decide;
    rewrite ?list_elem_of_In; cbn; intuition congruence.
Qed.

Lemma check_required_missing (ps : list ToolParameter)
    (params : gmap string GoValue) (p : ToolParameter) :
  p ∈ ps → param_Required p = true → params !! param_Name p = None →
  is_Some (check_required ps params).
Proof.
  intros Hin Hreq Hmiss.
  induction ps as [|q ps IH]; [by apply elem_of_nil in Hin|].
  apply elem_of_cons in Hin as [<-|Hin]; cbn.
  - rewrite Hreq, Hmiss. eauto.
  - destruct (param_Required q); [destruct (params !! param_Name q)|];
      eauto.
Qed.

Lemma find_param_undeclared (ps : list ToolParameter) (k : string) :
  (∀ p, p ∈ ps → param_Name p ≠ k) → find_param ps k = None.
Proof.
  induction ps as [|q ps IH]; intros Hall; cbn; [done|].
  case_decide as Hq.
  - exfalso. apply (Hall q); [left | exact Hq].
  - apply IH. intros p Hp. apply Hall. by right.
Qed.

Lemma find_param_unique (ps : list ToolParameter) (p : ToolParameter) :
  NoDup (param_Name <$> ps) → p ∈ ps → find_param ps (param_Name p) = Some p.
Proof.
  induction ps as [|q ps IH]; intros Hnd Hin; [by apply elem_of_nil in Hin|].
  cbn in Hnd. apply NoDup_cons in Hnd as [Hq Hnd]. cbn.
  apply elem_of_cons in Hin as [->|Hin].
  - by rewrite decide_True.
  - rewrite decide_False; [by apply IH|].
    intros Heq. apply Hq. rewrite Heq. by apply list_elem_of_fmap_2.
Qed.

(** The second loop stops with an error as soon as the entries hold one
    that does not resolve or that its declaration refuses, wherever in
    the iteration order that entry comes. *)
Lemma check_supplied_bad_entry (ps : list ToolParameter)
    (entries : list (string * GoValue)) (k : string) (v : GoValue) :
  (k, v) ∈ entries →
  match find_param ps k with
  | None => True
  | Some p => is_Some (validateParameterType (param_Type p) v)
  end →
  is_Some (check_supplied ps entries).
Proof.
  intros Hin Hbad.
  induction entries as [|[k' v'] entries IH]; [by apply elem_of_nil in Hin|].
  cbn. apply elem_of_cons in Hin as [Heq|Hin].
  - inversion Heq; subst k' v'.
    destruct (find_param ps k) as [p|]; [|eauto].
    destruct Hbad as [err ->]. eauto.
  - destruct (find_param ps k') as [p'|]; [|eauto].
    destruct (validateParameterType (param_Type p') v'); eauto.
Qed.

Lemma range_lookup {A : Type} (m : gmap string A) (k : string) (x : A) :
  (k, x) ∈ range A m ↔ m !! k = Some x.
Proof. rewrite (range_perm A m). apply elem_of_map_to_list. Qed.

Lemma ValidateParameters_rejects (t : Tool) (params : gmap string GoValue) :
  violates_schema t params → is_Some (ValidateParameters t params).
Proof.
  unfold ValidateParameters.
  intros [(p & Hin & Hreq & Hmiss) | [(k & [v Hv] & Hundecl)
                                     | (k & v & p & Hv & Hfind & Hty)]].
  - destruct (check_required_missing _ params p Hin Hreq Hmiss) as [e ->].
    eauto.
  - destruct (check_required _ params); [eauto|].
    apply check_supplied_bad_entry with (k := k) (v := v).
    + by apply range_lookup.
    + by rewrite find_param_undeclared.
  - destruct (check_required _ params); [eauto|].
    apply check_supplied_bad_entry with (k := k) (v := v).
    + by apply range_lookup.
    + rewrite Hfind.
      destruct (validateParameterType (param_Type p) v) eqn:Hcheck; [eauto|].
      by apply validateParameterType_accepts in Hcheck.
Qed.

(** C2. When the call's parameter map omits a required parameter, holds
    an undeclared key, or holds a value its declaration's type tag
    refuses, [Execute] of either executor returns an error and no result,
    and the world is untouched: no handler was called and no HTTP request
    was sent. This holds for every order in which the map is ranged
    over. *)
Theorem Execute_rejects_invalid_parameters
    (ex : ToolExecutor) (ctx : Context) (t : Tool)
    (params : gmap string GoValue) (w : World) :
  violates_schema t params →
  ∃ err, Execute ex ctx t params w = (Err err, w).
Proof.
  intros Hbad.
  destruct (ValidateParameters_rejects t params Hbad) as [e He].
  destruct ex as [e'|e']; cbn;
    unfold HTTPExecutor_Execute, LocalExecutor_Execute;
    rewrite He; eauto.
Qed.

(** ** Removing a server *)






(** ** The executor cache *)

Lemma ExecuteTool_cached (m : Manager) (ctx : Context) (toolID : string)
    (tool : Tool) (server : Server) (params : gmap string GoValue)
    (w : World) (ex : ToolExecutor) :
  tools m !! toolID = Some tool →
  servers m !! tool_ServerID tool = Some server →
  srv_Status server = ServerStatusRunning →
  executors m !! tool_ServerID tool = Some ex →
  ExecuteTool m ctx toolID params w
    = (to_ToolResult toolID (fst (Execute ex ctx tool params w)), m,
       snd (Execute ex ctx tool params w)).
Proof.
  intros Htool Hserver Hrun Hex.
  unfold ExecuteTool, GetServer, obtain_executor.
  rewrite Htool, Hserver, Hex.
  rewrite decide_False by (intros Hne; by apply Hne).
  destruct (Execute ex ctx tool params w) as [[r|e|msg] w']; reflexivity.
Qed.

Lemma executor_for_cases (m : Manager) (server : Server) :
  (srv_Type server = ServerTypeLocal →
     executor_for m server = Some (ExLocal NewLocalExecutor))
  ∧ (srv_Type server = ServerTypeRemote →
     executor_for m server = Some (ExHTTP (NewHTTPExecutor (timeout m))))
  ∧ (srv_Type server ≠ ServerTypeLocal →
     srv_Type server ≠ ServerTypeRemote →
     executor_for m server = None).
Proof.
  unfold executor_for. repeat split.
  - intros ->. reflexivity.
  - intros ->. reflexivity.
  - intros Hl Hr. by rewrite !decide_False.
Qed.

(** C4. For a tool whose server is running: with an executor cached
    under the tool's [ServerID], [ExecuteTool] runs that executor and
    leaves the manager as it is. With none cached, it builds the executor
    that matches the server's type, stores it under the tool's
    [ServerID] and runs it: for "local" a handler-dispatch executor with
    no handler registered yet; for "remote" an HTTP executor whose
    client timeout is the manager's current timeout, so that every
    request it builds carries that timeout; for any other type it fails
    with "unsupported server type" and stores nothing. Once stored,
    every later [ExecuteTool] for a tool of that server, in any manager
    state that still holds this cache, runs the stored executor and
    builds none. *)
Theorem ExecuteTool_executor_cache
    (m : Manager) (ctx : Context) (toolID : string) (tool : Tool)
    (server : Server) (params : gmap string GoValue) (w : World) :
  tools m !! toolID = Some tool →
  servers m !! tool_ServerID tool = Some server →
  srv_Status server = ServerStatusRunning →
  (∀ ex, executors m !! tool_ServerID tool = Some ex →
     ExecuteTool m ctx toolID params w
       = (to_ToolResult toolID (fst (Execute ex ctx tool params w)), m,
          snd (Execute ex ctx tool params w)))
  ∧ (executors m !! tool_ServerID tool = None →
     match executor_for m server with
     | None =>
         srv_Type server ≠ ServerTypeLocal
         ∧ srv_Type server ≠ ServerTypeRemote
         ∧ ExecuteTool m ctx toolID params w
             = (Err (ErrorString ("unsupported server type: "
                                  +:+ srv_Type server)), m, w)
     | Some ex =>
         let m1 :=
           with_executors m (<[tool_ServerID tool := ex]> (executors m)) in
         (srv_Type server = ServerTypeLocal ∧ ex = ExLocal NewLocalExecutor
          ∨ srv_Type server = ServerTypeRemote
            ∧ ex = ExHTTP (NewHTTPExecutor (timeout m)))
         ∧ match ex with
           | ExLocal le =>
               srv_Type server = ServerTypeLocal ∧ handlers le = ∅
           | ExHTTP e =>
               srv_Type server = ServerTypeRemote
               ∧ client_Timeout e = timeout m
               ∧ ∀ ctx' tool' reqBody,
                   req_ClientTimeout (tool_request e ctx' tool' reqBody)
                     = timeout m
           end
         ∧ ExecuteTool m ctx toolID params w
             = (to_ToolResult toolID (fst (Execute ex ctx tool params w)), m1,
                snd (Execute ex ctx tool params w))
         ∧ ∀ (m2 : Manager) (ctx2 : Context) (toolID2 : string)
             (tool2 : Tool) (server2 : Server)
             (params2 : gmap string GoValue) (w2 : World),
             executors m2 = executors m1 →
             tools m2 !! toolID2 = Some tool2 →
             tool_ServerID tool2 = tool_ServerID tool →
             servers m2 !! tool_ServerID tool = Some server2 →
             srv_Status server2 = ServerStatusRunning →
             ExecuteTool m2 ctx2 toolID2 params2 w2
               = (to_ToolResult toolID2
                    (fst (Execute ex ctx2 tool2 params2 w2)), m2,
                  snd (Execute ex ctx2 tool2 params2 w2))
     end).
Proof.
  intros Htool Hserver Hrun. split.
  - intros ex Hex. by apply ExecuteTool_cached with (server := server).
  - intros Hnone.
    assert (Hstep : ∀ ex,
      obtain_executor m (tool_ServerID tool) server
        = inr (ex, with_executors m
                     (<[tool_ServerID tool := ex]> (executors m))) →
      ExecuteTool m ctx toolID params w
        = (to_ToolResult toolID (fst (Execute ex ctx tool params w)),
           with_executors m (<[tool_ServerID tool := ex]> (executors m)),
           snd (Execute ex ctx tool params w))).
    { intros ex Hob. unfold ExecuteTool, GetServer.
      rewrite Htool, Hserver, Hob.
      rewrite decide_False by (intros Hne; by apply Hne).
      destruct (Execute ex ctx tool params w) as [[r|e|msg] w']; reflexivity. }
    assert (Hlater : ∀ ex (m2 : Manager) ctx2 toolID2 tool2 server2
                       params2 w2,
      executors m2
        = executors (with_executors m
                       (<[tool_ServerID tool := ex]> (executors m))) →
      tools m2 !! toolID2 = Some tool2 →
      tool_ServerID tool2 = tool_ServerID tool →
      servers m2 !! tool_ServerID tool = Some server2 →
      srv_Status server2 = ServerStatusRunning →
      ExecuteTool m2 ctx2 toolID2 params2 w2
        = (to_ToolResult toolID2 (fst (Execute ex ctx2 tool2 params2 w2)), m2,
           snd (Execute ex ctx2 tool2 params2 w2))).
    { intros ex m2 ctx2 toolID2 tool2 server2 params2 w2 Hcache Ht2 Hsid Hs2
        Hrun2.
      apply ExecuteTool_cached with (server := server2); try done.
      - by rewrite Hsid.
      - rewrite Hsid, Hcache. cbn. apply lookup_insert_eq. }
    unfold executor_for.
    destruct (decide (srv_Type server = ServerTypeLocal)) as [Hl|Hl];
      [|destruct (decide (srv_Type server = ServerTypeRemote)) as [Hr|Hr]].
    + cbn zeta. split; [by left|]. split; [done|].
      split; [|by apply Hlater].
      apply Hstep. unfold obtain_executor.
      by rewrite Hnone, decide_True.
    + cbn zeta. split; [by right|]. split; [done|].
      split; [|by apply Hlater].
      apply Hstep. unfold obtain_executor.
      by rewrite Hnone, decide_False, decide_True.
    + split; [done|]. split; [done|].
      unfold ExecuteTool, GetServer, obtain_executor.
      rewrite Htool, Hserver, Hnone.
      rewrite decide_False by (intros Hne; by apply Hne).
      by rewrite !decide_False.
Qed.

(** ** Classification of execution results *)

(** The local executor: once validation has passed and a handler is
    registered, the handler is called once and its outcome is classified
    by comparing its error with the deadline sentinel. *)
Lemma LocalExecutor_classifies (e : LocalExecutor) (ctx : Context)
    (tool : Tool) (params : gmap string GoValue) (w : World)
    (handler : ToolHandler) :
  ValidateParameters tool params = None →
  handlers e !! tool_ID tool = Some handler →
  ∃ r w',
    LocalExecutor_Execute e ctx tool params w = (Ok r, w')
    ∧ w_trace w' = (w_trace w ++ [EvHandler (tool_ID tool) params])%list
    ∧ match snd (handler ctx params) with
      | Some err =>
          exec_Result r = VNil
          ∧ (if is_DeadlineExceeded err
             then exec_Status r = ToolExecutionStatusTimeout
                  ∧ exec_Error r = "execution timed out"
             else exec_Status r = ToolExecutionStatusError
                  ∧ exec_Error r = error_text err)
      | None =>
          exec_Status r = ToolExecutionStatusSuccess
          ∧ exec_Result r = fst (handler ctx params)
          ∧ exec_Error r = ""
      end.
Proof.
  intros Hvalid Hhandler. unfold LocalExecutor_Execute.
  unfold ToolHandler in *. rewrite Hvalid, Hhandler. cbn.
  destruct (handler ctx params) as [result [err|]]; cbn.
  - destruct (is_DeadlineExceeded err) eqn:Hd; eauto 10.
  - eauto 10.
Qed.

(** What the client hands back is never the sentinel itself. *)
Lemma client_Do_error_is_wrapped (req : HTTPRequest) (w : World)
    (err : GoError) :
  fst (client_Do req w) = inl err → is_DeadlineExceeded err = false.
Proof.
  unfold client_Do.
  destruct (env_http (w_env w) req) as [status body|cause]; cbn.
  - discriminate.
  - intros Heq. inversion Heq. reflexivity.
Qed.

(** The HTTP executor never reports [Timeout]: a transport failure comes
    back wrapped, so the comparison with the sentinel cannot succeed,
    whatever the cause. *)
Lemma HTTPExecutor_never_reports_timeout (e : HTTPExecutor) (ctx : Context)
    (tool : Tool) (params : gmap string GoValue) (w w' : World)
    (r : ToolExecutionResult) :
  HTTPExecutor_Execute e ctx tool params w = (Ok r, w') →
  exec_Status r ≠ ToolExecutionStatusTimeout.
Proof.
  unfold HTTPExecutor_Execute.
  destruct (ValidateParameters tool params); [discriminate|].
  destruct (marshal_params params) as [?|reqBody]; [discriminate|].
  destruct (env_parse_url _ _); [discriminate|].
  cbn.
  pose proof (client_Do_error_is_wrapped (tool_request e ctx tool reqBody)
                (snd (Now w))) as Hwrapped.
  destruct (client_Do _ _) as [[err|[status [body|]]] w1]; cbn.
  - rewrite (Hwrapped err eq_refl). intros Heq. inversion Heq. done.
  - case_bool_decide.
    + destruct (body_error_field _) as [[errMsg|]|];
        intros Heq; inversion Heq; done.
    + intros Heq. inversion Heq. done.
  - intros Heq. inversion Heq. done.
Qed.

(** A request that fails in transport is reported as [Error], also when
    the cause is the expiry of the deadline. *)
Lemma HTTPExecutor_transport_failure (e : HTTPExecutor) (ctx : Context)
    (tool : Tool) (params : gmap string GoValue) (w : World)
    (reqBody : Doc) (cause : GoError) :
  ValidateParameters tool params = None →
  marshal_params params = inr reqBody →
  env_parse_url (w_env w) (meta (tool_Metadata tool) "endpoint") = None →
  env_http (w_env w) (tool_request e ctx tool reqBody) = HTTPFailure cause →
  ∃ r w',
    HTTPExecutor_Execute e ctx tool params w = (Ok r, w')
    ∧ exec_Status r = ToolExecutionStatusError
    ∧ exec_Result r = VNil
    ∧ exec_Error r
        = "request failed: "
          +:+ error_text
                (URLError "Post" (meta (tool_Metadata tool) "endpoint") cause).
Proof.
  intros Hvalid Hbody Hurl Hfail. unfold HTTPExecutor_Execute.
  rewrite Hvalid, Hbody, Hurl. cbn. unfold client_Do. cbn.
  rewrite Hfail. cbn. eauto 10.
Qed.

(** ** Persisting and reloading the registry *)

#[local] Arguments dec_string_map : simpl never.
#[local] Arguments dec_list : simpl never.
#[local] Arguments dec_map : simpl never.

(** Settles the comparisons of object keys met while a decoder runs on
    an object whose keys are known. *)
Ltac decide_keys :=
  cbn;
  repeat match goal with
    | |- context [bool_decide (?a = ?b)] =>
        let r := eval vm_compute in (bool_decide (a = b)) in
        change (bool_decide (a = b)) with r
    end;
  cbn.

(** Whatever [enc_*] produces, [dec_*] accepts. *)
Lemma dec_enc_param (p : ToolParameter) (d : Doc) :
  enc_param p = Some d → is_Some (dec_param d).
Proof.
  unfold enc_param. intros Henc.
  destruct (param_Default p); simplify_option_eq; cbn; eauto.
Qed.

Lemma dec_enc_list {A B : Type} (enc : A → option Doc) (dec : Doc → option B)
    (l : list A) (ds : list Doc) :
  (∀ a d, enc a = Some d → is_Some (dec d)) →
  mapM enc l = Some ds → is_Some (dec_list dec (Some (JArr ds))).
Proof.
  intros Hdec Henc. unfold dec_list. apply mapM_is_Some_2.
  apply mapM_Some_1 in Henc.
  induction Henc as [|a d l ds Had _ IH]; constructor; [|exact IH].
  cbn. by apply Hdec with (a := a).
Qed.

Lemma dec_enc_string_map (m : gmap string string) :
  is_Some (dec_string_map (Some (enc_string_map m))).
Proof.
  unfold dec_string_map, enc_string_map, dec_map.
  apply fmap_is_Some, mapM_is_Some_2, Forall_forall.
  intros [k d] Hin. apply elem_of_reverse, list_elem_of_fmap in Hin
    as ([k' s] & Heq & _). inversion Heq; subst. cbn. eauto.
Qed.

Lemma dec_enc_tool (t : Tool) (d : Doc) :
  enc_tool t = Some d → is_Some (dec_tool d).
Proof.
  unfold enc_tool. intros Henc.
  destruct (mapM enc_param (tool_Parameters t)) as [ps|] eqn:Hps;
    [|discriminate].
  cbn in Henc. inversion Henc; subst d. decide_keys.
  destruct (dec_enc_list enc_param dec_param _ _ dec_enc_param Hps)
    as [ps' ->]. cbn.
  destruct (dec_enc_string_map (tool_Metadata t)) as [md ->].
  cbn. eauto.
Qed.

Lemma dec_enc_server (s : Server) (d : Doc) :
  enc_server s = Some d → is_Some (dec_server d).
Proof.
  unfold enc_server. intros Henc.
  destruct (mapM enc_tool (srv_Tools s)) as [ts|] eqn:Hts; [|discriminate].
  cbn in Henc. inversion Henc; subst d. decide_keys.
  destruct (dec_enc_list enc_tool dec_tool _ _ dec_enc_tool Hts) as [ts' ->].
  cbn.
  destruct (dec_enc_string_map (srv_Metadata s)) as [md ->].
  cbn. eauto.
Qed.

(** A marshalled map unmarshals to a map with the same keys. *)
Lemma dec_enc_map_dom {A B : Type} (enc : A → option Doc)
    (dec : Doc → option B) (m : gmap string A) (d : Doc) :
  (∀ a d, enc a = Some d → is_Some (dec d)) →
  enc_map enc m = Some d →
  ∃ m' : gmap string B, dec_map dec (Some d) = Some m' ∧ dom m' = dom m.
Proof.
  intros Hdec Henc. unfold enc_map in Henc.
  destruct (mapM (enc_entry enc) (map_to_list m)) as [fields|] eqn:Hfields;
    [|discriminate].
  cbn in Henc. inversion Henc; subst d. cbn.
  apply mapM_Some_1 in Hfields.
  assert (Hkeys : ∃ l', mapM (dec_entry dec) (reverse fields) = Some l'
                        ∧ l'.*1 = reverse ((map_to_list m).*1)).
  { rewrite <- fmap_reverse.
    apply Forall2_reverse in Hfields. revert Hfields.
    generalize (reverse (map_to_list m)) (reverse fields).
    intros l1 l2 Hfields.
    induction Hfields as [|[k a] [k' d'] l1 l2 Hhd _ (l' & Hl' & Hk)].
    - by exists [].
    - unfold enc_entry in Hhd. cbn in Hhd.
      destruct (enc a) as [da|] eqn:Ha; [|discriminate].
      inversion Hhd; subst k' d'.
      destruct (Hdec a da Ha) as [b Hb].
      exists ((k, b) :: l'). split.
      + cbn. rewrite Hl'. unfold dec_entry. cbn [fst snd].
        rewrite Hb. reflexivity.
      + cbn. by rewrite Hk. }
  destruct Hkeys as (l' & Hl' & Hk). unfold dec_map. rewrite Hl'. cbn.
  eexists; split; [reflexivity|].
  rewrite dom_list_to_map_L, Hk.
  apply set_eq. intros k.
  rewrite elem_of_list_to_set, elem_of_reverse, elem_of_dom.
  rewrite list_elem_of_fmap. split.
  - intros ([k' a] & -> & Hin). apply elem_of_map_to_list in Hin. eauto.
  - intros [a Ha]. exists (k, a). split; [done|].
    by apply elem_of_map_to_list.
Qed.

(** C6. When [saveConfig] succeeds, [loadConfig] on the resulting world
    (by any manager with the same configuration path, the file being
    readable) succeeds and yields the same set of server IDs, the same
    set of tool IDs, the same auto-approve flag and the same timeout. *)
Theorem saveConfig_loadConfig_roundtrip (m m0 : Manager) (w w' : World) :
  in_int64 (timeout m) →
  env_read_fault (w_env w) = None →
  configPath m0 = configPath m →
  saveConfig m w = (None, w') →
  ∃ m',
    loadConfig m0 w' = (None, m')
    ∧ dom (servers m') = dom (servers m)
    ∧ dom (tools m') = dom (tools m)
    ∧ autoApprove m' = autoApprove m
    ∧ timeout m' = timeout m.
Proof.
  intros Hrange Hread Hpath Hsave.
  unfold saveConfig in Hsave.
  destruct (enc_config m) as [data|] eqn:Henc; [|discriminate].
  destruct (MkdirAll (configPath m) w); [discriminate|].
  unfold WriteFile in Hsave.
  destruct (env_write_fault (w_env w)); [discriminate|].
  inversion Hsave; subst w'; clear Hsave.
  unfold loadConfig, ReadFile. cbn [w_env w_files].
  rewrite Hread, Hpath, lookup_insert_eq.
  unfold enc_config in Henc.
  destruct (enc_map enc_server (servers m)) as [ss|] eqn:Hss; [|discriminate].
  destruct (enc_map enc_tool (tools m)) as [ts|] eqn:Hts; [|discriminate].
  cbn in Henc. inversion Henc; subst data; clear Henc.
  destruct (dec_enc_map_dom enc_server dec_server _ _ dec_enc_server Hss)
    as (ss' & Hss' & Hdoms).
  destruct (dec_enc_map_dom enc_tool dec_tool _ _ dec_enc_tool Hts)
    as (ts' & Hts' & Hdomt).
  unfold dec_config. decide_keys.
  rewrite Hss', Hts'. cbn.
  rewrite bool_decide_eq_true_2 by exact Hrange. cbn.
  eexists. split; [reflexivity|]. cbn. done.
Qed.

(** ** Persistence failures *)

#[local] Arguments saveConfig : simpl never.
#[local] Arguments LoadToolConfig : simpl never.
#[local] Arguments LoadServerConfig : simpl never.
#[local] Arguments enc_config : simpl never.




Lemma load_server_tools_keeps (serverID : string) (configs : list ToolConfig)
    (m : Manager) (w : World) :
  let m' := fst (load_server_tools serverID configs m w) in
  servers m' = servers m ∧ executors m' = executors m
  ∧ autoApprove m' = autoApprove m ∧ timeout m' = timeout m
  ∧ configPath m' = configPath m.
Proof.
  revert m w. induction configs as [|c configs IH]; intros m w; [done|].
  cbn. destruct (IH (with_tools m
                       (<[tc_ID c := tool_of_config c serverID
                                       (env_clock (w_env w) (w_tick w))
                                       (env_clock (w_env w) (S (w_tick w)))]>
                          (tools m)))
                   (snd (Now (snd (Now w))))) as (H1 & H2 & H3 & H4 & H5).
  cbn in *. done.
Qed.

Lemma load_server_tools_registers (serverID : string)
    (configs : list ToolConfig) (m : Manager) (w : World) (k : string) :
  ((∃ t, tools m !! k = Some t ∧ tool_ServerID t = serverID
         ∧ tool_ID t = k)
   ∨ k ∈ tc_ID <$> configs) →
  ∃ t, tools (fst (load_server_tools serverID configs m w)) !! k = Some t
       ∧ tool_ServerID t = serverID ∧ tool_ID t = k.
Proof.
  revert m w. induction configs as [|c configs IH]; intros m w Hk.
  - destruct Hk as [Hk|Hk]; [exact Hk|]. by apply elem_of_nil in Hk.
  - cbn [load_server_tools]. cbn. apply IH.
    destruct (decide (k = tc_ID c)) as [->|Hne].
    + left. cbn. rewrite lookup_insert_eq. eauto.
    + destruct Hk as [(t & Ht & Hs & Hi)|Hk].
      * left. cbn. rewrite lookup_insert_ne by done. eauto.
      * right. cbn in Hk. apply elem_of_cons in Hk as [Hk|Hk]; done.
Qed.






(** ** The remote server runner *)

(** One probe is one GET; it succeeds exactly on a 200 answer. *)
Lemma probe_outcome (url : string) (w : World) :
  w_trace (snd (probe url w)) = (w_trace w ++ [EvHTTP (health_request url)])%list
  ∧ w_files (snd (probe url w)) = w_files w
  ∧ (fst (probe url w) = None
     ↔ ∃ body, env_http (w_env w) (health_request url) = HTTPResponse 200 body).
Proof.
  unfold probe, client_Do.
  destruct (env_http (w_env w) (health_request url)) as [status body|cause];
    cbn.
  - case_bool_decide as Hst; cbn.
    + split; [done|]. split; [done|]. split; [done|].
      intros [body' Heq]. inversion Heq. done.
    + split; [done|]. split; [done|]. split; [|done].
      intros _. exists body. by rewrite Hst.
  - split; [done|]. split; [done|]. split; [done|]. intros [? ?]; done.
Qed.

(** C8, as the code has it. A runner that is already running returns
    from [Start] at once, without any health check and without a change.
    Any other runner performs exactly one health check (one GET of the
    health URL, nothing else, so no process is spawned): on a 200 answer
    [Start] succeeds and the status becomes running; on any other answer
    or on a transport failure [Start] fails and the status becomes
    error. *)
Theorem RemoteServerRunner_Start_checks_health
    (r : RemoteServerRunner) (ctx : Context) (w : World) :
  (remote_status r = ServerStatusRunning →
     RemoteServerRunner_Start r ctx w = (None, r, w))
  ∧ (remote_status r ≠ ServerStatusRunning →
     ∃ err r' w',
       RemoteServerRunner_Start r ctx w = (err, r', w')
       ∧ w_trace w'
           = (w_trace w
                ++ [EvHTTP (health_request
                              (remote_health_url (remote_server r)))])%list
       ∧ remote_server r' = remote_server r
       ∧ (healthy r w →
            err = None ∧ remote_status r' = ServerStatusRunning)
       ∧ (¬ healthy r w →
            is_Some err ∧ remote_status r' = ServerStatusError)).
Proof.
  unfold RemoteServerRunner_Start, RemoteServerRunner_HealthCheck. split.
  - intros Hrun. by rewrite decide_True.
  - intros Hstop. rewrite decide_False by done.
    destruct (probe_outcome (remote_health_url (remote_server r)) w)
      as (Htrace & _ & Hok).
    fold (healthy r w) in Hok.
    destruct (probe _ w) as [[err|] w']; cbn in *.
    + eexists _, _, _. split; [reflexivity|]. cbn.
      split; [done|]. split; [done|]. split.
      * intros Hh. apply Hok in Hh. discriminate.
      * intros _. eauto.
    + eexists _, _, _. split; [reflexivity|]. cbn.
      split; [done|]. split; [done|]. split.
      * done.
      * intros Hn. exfalso. apply Hn, Hok. done.
Qed.

(** ** Validation of declarative configurations *)

Lemma validate_parameters_from_accepts (i : Z) (ps : list ToolParameter) :
  validate_parameters_from i ps = None ↔ ¬ Exists bad_parameter ps.
Proof.
  revert i. induction ps as [|p ps IH]; intros i; cbn.
  - split; [|done]. intros _ Hex. inversion Hex.
  - rewrite Exists_cons. unfold bad_parameter at 1.
    repeat case_decide; [split; [done|tauto]..|].
    rewrite IH. tauto.
Qed.

Lemma validateToolConfig_accepts (c : ToolConfig) :
  validateToolConfig c = None ↔ ¬ tool_rules c.
Proof.
  unfold validateToolConfig, tool_rules.
  repeat (case_decide; [split; [done|tauto]|]).
  destruct (validate_parameters_from 0 (tc_Parameters c)) eqn:Hps.
  - split; [done|]. intros Hn. exfalso.
    assert (Hex : ¬ ¬ Exists bad_parameter (tc_Parameters c)).
    { rewrite <- validate_parameters_from_accepts with (i := 0).
      by rewrite Hps. }
    tauto.
  - apply validate_parameters_from_accepts in Hps.
    repeat (case_bool_decide; [split; [done|tauto]|]).
    split; [|done]. intros _. intuition lia.
Qed.

Lemma validate_tools_from_accepts (i : Z) (ts : list ToolConfig) :
  validate_tools_from i ts = None ↔ ¬ Exists tool_rules ts.
Proof.
  revert i. induction ts as [|t ts IH]; intros i; cbn.
  - split; [|done]. intros _ Hex. inversion Hex.
  - rewrite Exists_cons.
    destruct (validateToolConfig t) eqn:Ht.
    + split; [done|]. intros Hn. exfalso.
      assert (Hnn : ¬ ¬ tool_rules t).
      { rewrite <- validateToolConfig_accepts. by rewrite Ht. }
      tauto.
    + apply validateToolConfig_accepts in Ht. rewrite IH. tauto.
Qed.

Lemma validateServerConfig_accepts (c : ServerConfig) :
  validateServerConfig c = None ↔ ¬ server_rules c.
Proof.
  unfold validateServerConfig, server_rules, server_rules_as_specified.
  repeat (case_decide; [split; [done|tauto]|]).
  destruct (validate_tools_from 0 (sc_Tools c)) eqn:Hts.
  - split; [done|]. intros Hn. exfalso.
    assert (Hex : ¬ ¬ Exists tool_rules (sc_Tools c)).
    { rewrite <- validate_tools_from_accepts with (i := 0). by rewrite Hts. }
    tauto.
  - apply validate_tools_from_accepts in Hts.
    case_bool_decide; [split; [done|tauto]|].
    destruct (sc_SSLEnabled c); cbn.
    + repeat (case_bool_decide; [split; [done|tauto]|]).
      split; [|done]. intros _. intuition lia.
    + repeat (case_bool_decide; [split; [done|tauto]|]).
      split; [|done]. intros _. intuition (try lia; try discriminate).
Qed.

(** C9, as the code has it. A tool configuration that reads and parses
    is refused when it breaks a tool rule (missing ID, name or version; a
    parameter without name or type; a negative timeout, retry count,
    retry delay, concurrency, rate limit, log size or log file count) and
    accepted otherwise. A server configuration that reads and parses is
    refused when it lacks ID, name, version or type, when one of its
    embedded tools breaks a tool rule, when the port is outside 0..65535,
    when SSL is enabled without certificate or key file, or when one of
    its four timeouts is negative, and accepted otherwise. *)
Theorem loaders_accept_iff_rules_hold (path : string) (w : World) (doc : Doc) :
  ReadFile path w = inr (Text doc) →
  (∀ c, dec_tool_config doc = Some c →
     (tool_rules c → ∃ e, LoadToolConfig path w = inl e)
     ∧ (¬ tool_rules c → LoadToolConfig path w = inr c))
  ∧ (∀ c, dec_server_config doc = Some c →
       (server_rules c → ∃ e, LoadServerConfig path w = inl e)
       ∧ (¬ server_rules c → LoadServerConfig path w = inr c)).
Proof.
  intros Hread. split; intros c Hdec.
  - unfold LoadToolConfig. rewrite Hread. cbn. rewrite Hdec.
    destruct (validateToolConfig c) eqn:Hv.
    + split; [eauto|]. intros Hn.
      apply validateToolConfig_accepts in Hn. congruence.
    + split; [|done]. intros Hr.
      apply validateToolConfig_accepts in Hv. done.
  - unfold LoadServerConfig. rewrite Hread. cbn. rewrite Hdec.
    destruct (validateServerConfig c) eqn:Hv.
    + split; [eauto|]. intros Hn.
      apply validateServerConfig_accepts in Hn. congruence.
    + split; [|done]. intros Hr.
      apply validateServerConfig_accepts in Hv. done.
Qed.

(** * Further properties *)

(** ** Parameter validation, both directions *)

Lemma check_required_present (ps : list ToolParameter)
    (params : gmap string GoValue) :
  (∀ p, p ∈ ps → param_Required p = true →
        is_Some (params !! param_Name p)) →
  check_required ps params = None.
Proof.
  induction ps as [|q ps IH]; intros Hall; cbn; [done|].
  destruct (param_Required q) eqn:Hreq.
  - destruct (Hall q) as [v ->]; [by left|done|].
    apply IH. intros p Hp. apply Hall. by right.
  - apply IH. intros p Hp. apply Hall. by right.
Qed.

Lemma find_param_declared (ps : list ToolParameter) (k : string) :
  find_param ps k = None → ∀ p, p ∈ ps → param_Name p ≠ k.
Proof.
  induction ps as [|q ps IH]; cbn; intros Hfind p Hp;
    [by apply elem_of_nil in Hp|].
  case_decide as Hq; [discriminate|].
  apply elem_of_cons in Hp as [->|Hp]; [done|by apply IH].
Qed.

Lemma check_supplied_good_entries (ps : list ToolParameter)
    (entries : list (string * GoValue)) :
  (∀ k v, (k, v) ∈ entries →
          ∃ p, find_param ps k = Some p ∧ has_shape (param_Type p) v) →
  check_supplied ps entries = None.
Proof.
  induction entries as [|[k v] entries IH]; intros Hall; cbn; [done|].
  destruct (Hall k v) as (p & -> & Hshape); [by left|].
  apply validateParameterType_accepts in Hshape. rewrite Hshape.
  apply IH. intros k' v' Hin. apply Hall. by right.
Qed.

(** X1. [ValidateParameters] returns nil exactly for the parameter maps
    that do not break the schema, in whatever order the map is ranged
    over: every required parameter is present, every supplied key is
    declared, and every supplied value has the shape of its declared
    tag. Optional parameters may be absent; defaults play no part. *)
Theorem ValidateParameters_accepts_iff (t : Tool)
    (params : gmap string GoValue) :
  ValidateParameters t params = None ↔ ¬ violates_schema t params.
Proof.
  split.
  - intros Hnone Hbad.
    destruct (ValidateParameters_rejects t params Hbad) as [e He].
    congruence.
  - intros Hgood. unfold ValidateParameters.
    rewrite check_required_present.
    + apply check_supplied_good_entries. intros k v Hin%range_lookup.
      destruct (find_param (tool_Parameters t) k) as [p|] eqn:Hfind.
      * exists p. split; [done|].
        destruct (validateParameterType (param_Type p) v) eqn:Hcheck.
        -- exfalso. apply Hgood. right; right. exists k, v, p.
           split; [done|]. split; [done|].
           intros Hshape%validateParameterType_accepts. congruence.
        -- by apply validateParameterType_accepts.
      * exfalso. apply Hgood. right; left. exists k. split; [eauto|].
        by apply find_param_declared.
    + intros p Hp Hreq.
      destruct (params !! param_Name p) eqn:Hv; [eauto|].
      exfalso. apply Hgood. left. eauto.
Qed.

(** X2. A parameter value that came out of a JSON document is accepted
    under exactly one type tag, the one of its JSON kind; a JSON [null]
    is refused under every tag. *)
Theorem validateParameterType_on_json (tag : string) (d : Doc) :
  validateParameterType tag (doc_to_value d) = None ↔ json_tag d = Some tag.
Proof.
  rewrite validateParameterType_accepts.
  destruct d; cbn; rewrite ?list_elem_of_In; cbn;
    intuition congruence.
Qed.

(** ** The executors *)

(** X3. Handler registration and dispatch in the local executor: after
    [RegisterHandler e id h], a valid call for tool [id] invokes [h]
    exactly once and classifies what it returns (nil error: success with
    the handler's value; the deadline sentinel: timeout; any other error:
    error with its text); calls for every other tool behave as they did
    before the registration; and a valid call for a tool without a
    handler fails with "no handler registered" and invokes nothing. *)
Theorem RegisterHandler_dispatch (e : LocalExecutor) (id : string)
    (h : ToolHandler) (ctx : Context) (tool : Tool)
    (params : gmap string GoValue) (w : World) :
  ValidateParameters tool params = None →
  (tool_ID tool = id →
     ∃ r w',
       LocalExecutor_Execute (RegisterHandler e id h) ctx tool params w
         = (Ok r, w')
       ∧ w_trace w' = (w_trace w ++ [EvHandler id params])%list
       ∧ match snd (h ctx params) with
         | Some err =>
             exec_Result r = VNil
             ∧ (if is_DeadlineExceeded err
                then exec_Status r = ToolExecutionStatusTimeout
                     ∧ exec_Error r = "execution timed out"
                else exec_Status r = ToolExecutionStatusError
                     ∧ exec_Error r = error_text err)
         | None =>
             exec_Status r = ToolExecutionStatusSuccess
             ∧ exec_Result r = fst (h ctx params)
             ∧ exec_Error r = ""
         end)
  ∧ (tool_ID tool ≠ id →
       LocalExecutor_Execute (RegisterHandler e id h) ctx tool params w
         = LocalExecutor_Execute e ctx tool params w)
  ∧ (handlers e !! tool_ID tool = None →
       LocalExecutor_Execute e ctx tool params w
         = (Err (ErrorString ("no handler registered for tool "
                              +:+ tool_ID tool)), w)).
Proof.
  intros Hvalid. split; [|split].
  - intros <-.
    apply LocalExecutor_classifies; [exact Hvalid|].
    cbn. apply lookup_insert_eq.
  - intros Hne. unfold LocalExecutor_Execute, RegisterHandler. cbn.
    unfold ToolHandler in *. by rewrite lookup_insert_ne.
  - intros Hnone. unfold LocalExecutor_Execute.
    unfold ToolHandler in *. by rewrite Hvalid, Hnone.
Qed.

(** X4. How the HTTP executor classifies an answer. Once validation,
    marshalling and request construction have passed, exactly one request
    is sent. A body that is not JSON gives an [error] result. A JSON body
    with a status below 400 (any 1xx, 2xx or 3xx) gives [success] with
    the decoded body as payload. With a status of 400 or more, a JSON
    object gives an [error] result without payload, and any other JSON
    value (array, string, number, boolean, null) makes [Execute] panic on
    its unchecked type assertion. *)
Theorem HTTPExecutor_classifies_response (e : HTTPExecutor) (ctx : Context)
    (tool : Tool) (params : gmap string GoValue) (w : World)
    (reqBody : Doc) (status : Z) (body : option Doc) :
  ValidateParameters tool params = None →
  marshal_params params = inr reqBody →
  env_parse_url (w_env w) (meta (tool_Metadata tool) "endpoint") = None →
  env_http (w_env w) (tool_request e ctx tool reqBody)
    = HTTPResponse status body →
  let out := HTTPExecutor_Execute e ctx tool params w in
  w_trace (snd out)
    = (w_trace w ++ [EvHTTP (tool_request e ctx tool reqBody)])%list
  ∧ match body with
    | None =>
        ∃ r, fst out = Ok r
             ∧ exec_Status r = ToolExecutionStatusError
             ∧ exec_Result r = VNil
    | Some d =>
        if bool_decide (status < 400) then
          ∃ r, fst out = Ok r
               ∧ exec_Status r = ToolExecutionStatusSuccess
               ∧ exec_Result r = doc_to_value d
               ∧ exec_Error r = ""
        else
          match d with
          | JObj _ =>
              ∃ r, fst out = Ok r
                   ∧ exec_Status r = ToolExecutionStatusError
                   ∧ exec_Result r = VNil
          | _ => ∃ msg, fst out = Panic msg
          end
    end.
Proof.
  intros Hvalid Hbody Hurl Hresp. unfold HTTPExecutor_Execute.
  rewrite Hvalid, Hbody, Hurl. cbn. unfold client_Do. cbn.
  rewrite Hresp. cbn.
  destruct body as [d|]; [|cbn; eauto 10].
  destruct (decide (status < 400)) as [Hlt|Hge].
  - rewrite (bool_decide_eq_true_2 (status < 400)) by done.
    rewrite bool_decide_eq_false_2 by lia. cbn. eauto 10.
  - rewrite (bool_decide_eq_false_2 (status < 400)) by done.
    rewrite bool_decide_eq_true_2 by lia.
    destruct d; cbn; eauto.
    destruct (find _ _) as [[k v]|]; cbn; eauto 10.
Qed.

(** ** The registry *)



(** X7. The executor cache is never invalidated: of all mutating calls
    only [RegisterLocalTool] touches it. Adding, replacing, removing,
    starting and stopping a server, changing the auto-approve flag or the
    timeout, and loading a tool or server configuration all leave every
    cached executor in place, and the configuration path with it. *)
Theorem executor_cache_never_invalidated (c : Mutation) (m : Manager)
    (w : World) :
  (∀ serverID tool handler, c ≠ CallRegisterLocalTool serverID tool handler) →
  executors (snd (fst (perform c m w))) = executors m
  ∧ configPath (snd (fst (perform c m w))) = configPath m.
Proof.
  intros Hnot. destruct c; cbn [perform].
  - unfold AddServer. destruct (decide (srv_ID server = "")); cbn;
      by destruct (saveConfig _ _).
  - unfold RemoveServer. destruct (servers m !! serverID); [|done].
    by destruct (saveConfig _ _).
  - unfold StartServer, set_server_status.
    destruct (servers m !! serverID); [|done]. cbn.
    by destruct (saveConfig _ _).
  - unfold StopServer, set_server_status.
    destruct (servers m !! serverID); [|done]. cbn.
    by destruct (saveConfig _ _).
  - unfold SetAutoApprove. by destruct (saveConfig _ _).
  - unfold SetTimeout. by destruct (saveConfig _ _).
  - by destruct (Hnot serverID tool handler).
  - unfold LoadToolFromConfig.
    destruct (LoadToolConfig path w); [done|]. cbn.
    by destruct (saveConfig _ _).
  - unfold LoadServerFromConfig.
    destruct (LoadServerConfig path w) as [err|config]; [done|]. cbn.
    match goal with
    | |- context [load_server_tools ?S ?C ?M ?W] =>
        pose proof (load_server_tools_keeps S C M W) as (_ & He & _ & _ & Hp);
        destruct (load_server_tools S C M W) as [m1 w1]
    end.
    cbn in *. by destruct (saveConfig _ _).
Qed.

(** X8. A cached HTTP executor keeps the timeout it was built with:
    after [SetTimeout], [ExecuteTool] on a tool of that server still runs
    the cached executor, so the request carries the old client timeout
    and the result does not depend on the new value. *)
Theorem SetTimeout_misses_cached_executor (m : Manager) (ctx : Context)
    (d : Z) (w0 : World) (toolID : string) (tool : Tool) (server : Server)
    (e : HTTPExecutor) (params : gmap string GoValue) (w : World) :
  tools m !! toolID = Some tool →
  servers m !! tool_ServerID tool = Some server →
  srv_Status server = ServerStatusRunning →
  executors m !! tool_ServerID tool = Some (ExHTTP e) →
  let m' := snd (fst (SetTimeout m ctx d w0)) in
  timeout m' = d
  ∧ ExecuteTool m' ctx toolID params w
      = (to_ToolResult toolID
           (fst (HTTPExecutor_Execute e ctx tool params w)), m',
         snd (HTTPExecutor_Execute e ctx tool params w)).
Proof.
  intros Htool Hserver Hrun Hex. unfold SetTimeout.
  destruct (saveConfig _ w0) as [err w1]. cbn. split; [done|].
  apply (ExecuteTool_cached (with_timeout m d) ctx toolID tool server params w
           (ExHTTP e)); done.
Qed.

(** X9. Registering a local tool and executing it. On a running local
    server whose cached executor, if any, is a local one,
    [RegisterLocalTool] followed by [ExecuteTool] with valid parameters
    calls the registered handler exactly once and returns its outcome
    under the tool's ID: [success] with the handler's value when it
    returns no error, [timeout] for the deadline sentinel, [error] with
    the error text otherwise. Persisting is not needed for this: it holds
    also when [RegisterLocalTool] returned a write error. *)
Theorem RegisterLocalTool_then_ExecuteTool (m : Manager)
    (serverID : string) (server : Server) (tool : Tool) (h : ToolHandler)
    (w0 : World) (ctx : Context) (params : gmap string GoValue)
    (w : World) :
  servers m !! serverID = Some server →
  srv_Type server = ServerTypeLocal →
  srv_Status server = ServerStatusRunning →
  (∀ e, executors m !! serverID ≠ Some (ExHTTP e)) →
  ValidateParameters tool params = None →
  let m1 := snd (fst (RegisterLocalTool m serverID tool h w0)) in
  ∃ r w',
    ExecuteTool m1 ctx (tool_ID tool) params w = (Ok r, m1, w')
    ∧ res_ToolID r = tool_ID tool
    ∧ w_trace w' = (w_trace w ++ [EvHandler (tool_ID tool) params])%list
    ∧ match snd (h ctx params) with
      | Some err =>
          res_Result r = VNil
          ∧ (if is_DeadlineExceeded err
             then res_Status r = ToolExecutionStatusTimeout
                  ∧ res_Error r = "execution timed out"
             else res_Status r = ToolExecutionStatusError
                  ∧ res_Error r = error_text err)
      | None =>
          res_Status r = ToolExecutionStatusSuccess
          ∧ res_Result r = fst (h ctx params)
          ∧ res_Error r = ""
      end.
Proof.
  intros Hserver Hlocal Hrun Hnohttp Hvalid.
  assert (Hgo : ∀ (m1 : Manager) (le : LocalExecutor) created updated,
    servers m1 = servers m →
    tools m1 !! tool_ID tool
      = Some (mkTool (tool_ID tool) (tool_Name tool) (tool_Description tool)
                (tool_Version tool) (tool_Author tool) (tool_Parameters tool)
                serverID created updated (tool_Metadata tool)) →
    executors m1 !! serverID
      = Some (ExLocal (RegisterHandler le (tool_ID tool) h)) →
    ∃ r w',
      ExecuteTool m1 ctx (tool_ID tool) params w = (Ok r, m1, w')
      ∧ res_ToolID r = tool_ID tool
      ∧ w_trace w' = (w_trace w ++ [EvHandler (tool_ID tool) params])%list
      ∧ match snd (h ctx params) with
        | Some err =>
            res_Result r = VNil
            ∧ (if is_DeadlineExceeded err
               then res_Status r = ToolExecutionStatusTimeout
                    ∧ res_Error r = "execution timed out"
               else res_Status r = ToolExecutionStatusError
                    ∧ res_Error r = error_text err)
        | None =>
            res_Status r = ToolExecutionStatusSuccess
            ∧ res_Result r = fst (h ctx params)
            ∧ res_Error r = ""
        end).
  { intros m1 le created updated Hsrv Htool Hex.
    set (tool' := mkTool (tool_ID tool) (tool_Name tool)
                    (tool_Description tool) (tool_Version tool)
                    (tool_Author tool) (tool_Parameters tool) serverID
                    created updated (tool_Metadata tool)) in *.
    rewrite (ExecuteTool_cached m1 ctx (tool_ID tool) tool' server params w
               (ExLocal (RegisterHandler le (tool_ID tool) h)));
      [|done|by rewrite Hsrv|done|done].
    destruct (LocalExecutor_classifies
                (RegisterHandler le (tool_ID tool) h) ctx tool' params w h)
      as (r & w' & Hexec & Htrace & Hclass);
      [exact Hvalid|cbn; apply lookup_insert_eq|].
    cbn [Execute]. rewrite Hexec. cbn.
    eexists _, _. split; [reflexivity|]. cbn.
    split; [done|]. split; [done|]. exact Hclass. }
  unfold RegisterLocalTool. rewrite Hserver.
  rewrite decide_False by (intros Hne; by apply Hne).
  cbn.
  destruct (executors m !! serverID) as [[e|le]|] eqn:Hex.
  - by destruct (Hnohttp e).
  - cbn. destruct (saveConfig _ _) as [err w1]. cbn.
    eapply Hgo; cbn; [done|apply lookup_insert_eq|apply lookup_insert_eq].
  - cbn. destruct (saveConfig _ _) as [err w1]. cbn.
    eapply Hgo; cbn; [done|apply lookup_insert_eq|apply lookup_insert_eq].
Qed.

(** X10. What [RegisterLocalTool] refuses. An unknown server and a
    server that is not local are refused with nothing changed. When the
    server is local but the executor cached under its ID is an HTTP one,
    the call fails with "invalid executor type" after the tool has been
    entered into the registry: the tool stays registered in memory, bound
    to the server, while no handler is registered and nothing is
    persisted. *)
Theorem RegisterLocalTool_refusals (m : Manager) (serverID : string)
    (tool : Tool) (h : ToolHandler) (w : World) :
  (servers m !! serverID = None →
     RegisterLocalTool m serverID tool h w
       = (Some (ErrorString "server not found"), m, w))
  ∧ (∀ server, servers m !! serverID = Some server →
       srv_Type server ≠ ServerTypeLocal →
       RegisterLocalTool m serverID tool h w
         = (Some (ErrorString "server is not a local server"), m, w))
  ∧ (∀ server e, servers m !! serverID = Some server →
       srv_Type server = ServerTypeLocal →
       executors m !! serverID = Some (ExHTTP e) →
       ∃ m' registered,
         RegisterLocalTool m serverID tool h w
           = (Some (ErrorString "invalid executor type"), m',
              snd (Now (snd (Now w))))
         ∧ tools m' = <[tool_ID tool := registered]> (tools m)
         ∧ tool_ServerID registered = serverID
         ∧ tool_Parameters registered = tool_Parameters tool
         ∧ executors m' = executors m
         ∧ servers m' = servers m
         ∧ w_files (snd (Now (snd (Now w)))) = w_files w).
Proof.
  unfold RegisterLocalTool. split; [|split].
  - intros Hnone. by rewrite Hnone.
  - intros server Hsome Htype. rewrite Hsome. by rewrite decide_True.
  - intros server e Hsome Htype Hex. rewrite Hsome.
    rewrite decide_False by (intros Hne; by apply Hne).
    cbn. rewrite Hex. cbn. eexists _, _. split; [reflexivity|]. done.
Qed.

(** ** Loading the registry *)

(** X11. [loadConfig] changes the manager only when it succeeds on an
    existing file. A missing registry file is not an error and leaves the
    manager as it is; any other read failure and a file that does not
    decode are reported and leave the manager as it is; on success the
    four persisted fields are replaced and the configuration path and the
    executor cache are kept. *)
Theorem loadConfig_outcomes (m : Manager) (w : World) :
  (env_read_fault (w_env w) = None → w_files w !! configPath m = None →
     loadConfig m w = (None, m))
  ∧ (∀ e, fst (loadConfig m w) = Some e → snd (loadConfig m w) = m)
  ∧ (∀ e, env_read_fault (w_env w) = Some e → IsNotExist e = false →
       loadConfig m w = (Some e, m))
  ∧ configPath (snd (loadConfig m w)) = configPath m
  ∧ executors (snd (loadConfig m w)) = executors m.
Proof.
  unfold loadConfig, ReadFile. repeat split.
  - intros Hread Hfile. by rewrite Hread, Hfile.
  - intros e.
    destruct (env_read_fault (w_env w)) as [e'|].
    + by destruct (IsNotExist e').
    + destruct (w_files w !! configPath m) as [d|]; [|done].
      by destruct (parse d ≫= dec_config) as [[[[ss ts] a] t]|].
  - intros e Hread Hne. by rewrite Hread, Hne.
  - destruct (env_read_fault (w_env w)) as [e'|].
    + by destruct (IsNotExist e').
    + destruct (w_files w !! configPath m) as [d|]; [|done].
      by destruct (parse d ≫= dec_config) as [[[[ss ts] a] t]|].
  - destruct (env_read_fault (w_env w)) as [e'|].
    + by destruct (IsNotExist e').
    + destruct (w_files w !! configPath m) as [d|]; [|done].
      by destruct (parse d ≫= dec_config) as [[[[ss ts] a] t]|].
Qed.

Lemma list_to_map_reverse_to_list {A : Type} (m : gmap string A) :
  list_to_map (reverse (map_to_list m)) = m.
Proof.
  rewrite (list_to_map_proper _ (map_to_list m)).
  - apply list_to_map_to_list.
  - rewrite fmap_reverse, reverse_Permutation.
    apply NoDup_fst_map_to_list.
  - apply reverse_Permutation.
Qed.

Lemma mapM_exact {A B : Type} (enc : A → option B) (dec : B → option A)
    (l : list A) (ds : list B) :
  Forall (fun a => ∀ d, enc a = Some d → dec d = Some a) l →
  mapM enc l = Some ds → mapM dec ds = Some l.
Proof.
  intros Hall Henc. apply mapM_Some_2. apply mapM_Some_1 in Henc.
  induction Henc as [|a d l ds Had _ IH]; [constructor|].
  apply Forall_cons in Hall as [Ha Hall].
  constructor; [by apply Ha | by apply IH].
Qed.

Lemma dec_enc_map_exact {A : Type} (enc : A → option Doc)
    (dec : Doc → option A) (m : gmap string A) (d : Doc) :
  (∀ k a, m !! k = Some a → ∀ d, enc a = Some d → dec d = Some a) →
  enc_map enc m = Some d → dec_map dec (Some d) = Some m.
Proof.
  intros Hdec Henc. unfold enc_map in Henc.
  destruct (mapM (enc_entry enc) (map_to_list m)) as [fields|] eqn:Hfields;
    [|discriminate].
  cbn in Henc. inversion Henc; subst d. unfold dec_map.
  assert (Hback : mapM (dec_entry dec) fields = Some (map_to_list m)).
  { apply (mapM_exact (enc_entry enc)); [|done].
    apply Forall_forall. intros [k a] Hin%elem_of_map_to_list [k' d'] He.
    unfold enc_entry in He. cbn in He.
    destruct (enc a) as [da|] eqn:Ha; [|discriminate].
    injection He as <- <-. unfold dec_entry. cbn.
    by rewrite (Hdec k a Hin da Ha). }
  apply mapM_Some_1, Forall2_reverse, mapM_Some_2 in Hback.
  rewrite Hback. cbn. by rewrite list_to_map_reverse_to_list.
Qed.

Lemma dec_enc_string_map_exact (m : gmap string string) :
  dec_string_map (Some (enc_string_map m)) = Some m.
Proof.
  unfold dec_string_map, enc_string_map, dec_map.
  rewrite <- fmap_reverse.
  assert (Hback : ∀ l : list (string * string),
    mapM (dec_entry (fun d => dec_string (Some d)))
      ((fun p => (fst p, JStr (snd p))) <$> l) = Some l).
  { intros l. apply mapM_Some_2.
    induction l as [|[k v] l IH]; cbn; constructor; [done|exact IH]. }
  rewrite Hback. cbn. by rewrite list_to_map_reverse_to_list.
Qed.

Lemma dec_enc_param_exact (p : ToolParameter) (d : Doc) :
  json_borne (param_Default p) → enc_param p = Some d → dec_param d = Some p.
Proof.
  intros (dv & Hto & Hfrom). unfold enc_param. destruct p as [n ty de rq df].
  cbn in *. intros Henc.
  destruct df; simplify_option_eq; decide_keys; try done.
  all: by rewrite Hfrom.
Qed.

Lemma dec_enc_tool_exact (t : Tool) (d : Doc) :
  plain_tool t → enc_tool t = Some d → dec_tool d = Some t.
Proof.
  intros Hplain. unfold enc_tool. intros Henc.
  destruct (mapM enc_param (tool_Parameters t)) as [ps|] eqn:Hps;
    [|discriminate].
  cbn in Henc. inversion Henc; subst d. decide_keys.
  assert (Hback : dec_list dec_param (Some (JArr ps))
                    = Some (tool_Parameters t)).
  { unfold dec_list. apply (mapM_exact enc_param); [|done].
    eapply Forall_impl; [exact Hplain|].
    intros p Hp d'. by apply dec_enc_param_exact. }
  rewrite Hback, dec_enc_string_map_exact. cbn. by destruct t.
Qed.

Lemma dec_enc_server_exact (s : Server) (d : Doc) :
  plain_server s → enc_server s = Some d → dec_server d = Some s.
Proof.
  intros Hplain. unfold enc_server. intros Henc.
  destruct (mapM enc_tool (srv_Tools s)) as [ts|] eqn:Hts; [|discriminate].
  cbn in Henc. inversion Henc; subst d. decide_keys.
  assert (Hback : dec_list dec_tool (Some (JArr ts)) = Some (srv_Tools s)).
  { unfold dec_list. apply (mapM_exact enc_tool); [|done].
    eapply Forall_impl; [exact Hplain|].
    intros t Ht d'. by apply dec_enc_tool_exact. }
  rewrite Hback, dec_enc_string_map_exact. cbn. by destruct s.
Qed.

(** X12. The registry survives a restart field by field. When every
    parameter default in the registry is a value JSON can carry (nil,
    strings, booleans, float64 numbers, arrays and objects of such), a
    successful [saveConfig] followed by [loadConfig] restores the servers
    map and the tools map exactly, with every field of every entry, and
    the auto-approve flag and the timeout. In particular a server saved
    as running is loaded as running, while the executor cache of the
    loading manager is whatever it was. *)
Theorem saveConfig_loadConfig_exact (m m0 : Manager) (w w' : World) :
  (∀ k s, servers m !! k = Some s → plain_server s) →
  (∀ k t, tools m !! k = Some t → plain_tool t) →
  in_int64 (timeout m) →
  env_read_fault (w_env w) = None →
  configPath m0 = configPath m →
  saveConfig m w = (None, w') →
  loadConfig m0 w'
    = (None, mkManager (servers m) (tools m) (autoApprove m) (timeout m)
               (configPath m0) (executors m0)).
Proof.
  intros Hservers Htools Hrange Hread Hpath Hsave.
  unfold saveConfig in Hsave.
  destruct (enc_config m) as [data|] eqn:Henc; [|discriminate].
  destruct (MkdirAll (configPath m) w); [discriminate|].
  unfold WriteFile in Hsave.
  destruct (env_write_fault (w_env w)); [discriminate|].
  inversion Hsave; subst w'; clear Hsave.
  unfold loadConfig, ReadFile. cbn [w_env w_files].
  rewrite Hread, Hpath, lookup_insert_eq.
  unfold enc_config in Henc.
  destruct (enc_map enc_server (servers m)) as [ss|] eqn:Hss; [|discriminate].
  destruct (enc_map enc_tool (tools m)) as [ts|] eqn:Hts; [|discriminate].
  cbn in Henc. inversion Henc; subst data; clear Henc.
  unfold dec_config. decide_keys.
  rewrite (dec_enc_map_exact enc_server dec_server (servers m) ss);
    [|intros k s Hk d; apply dec_enc_server_exact; eauto|done].
  rewrite (dec_enc_map_exact enc_tool dec_tool (tools m) ts);
    [|intros k t Hk d; apply dec_enc_tool_exact; eauto|done].
  cbn. rewrite bool_decide_eq_true_2 by exact Hrange. reflexivity.
Qed.

(** ** Runner lifecycles *)

(** X13. Whatever sequence of [Start] and [Stop] calls a remote runner
    goes through after [NewRemoteServerRunner], its status is one of
    stopped, running and error, it still serves the same server, the
    files are untouched, and everything it has sent is health checks:
    each event it added to the trace is a GET of its own health URL (so
    [Stop] sends nothing and nothing is ever spawned or killed). *)
Theorem remote_runner_invariant (server : Server) (cs : list RunnerCall)
    (w : World) :
  let out := remote_calls cs (NewRemoteServerRunner server) w in
  (remote_status (fst out) = ServerStatusStopped
   ∨ remote_status (fst out) = ServerStatusRunning
   ∨ remote_status (fst out) = ServerStatusError)
  ∧ remote_server (fst out) = server
  ∧ w_files (snd out) = w_files w
  ∧ ∃ n : nat,
      w_trace (snd out)
        = (w_trace w
             ++ replicate n
                  (EvHTTP (health_request (remote_health_url server))))%list.
Proof.
  assert (Hgen : ∀ cs r w0,
    (remote_status r = ServerStatusStopped
     ∨ remote_status r = ServerStatusRunning
     ∨ remote_status r = ServerStatusError) →
    remote_server r = server →
    let out := remote_calls cs r w0 in
    (remote_status (fst out) = ServerStatusStopped
     ∨ remote_status (fst out) = ServerStatusRunning
     ∨ remote_status (fst out) = ServerStatusError)
    ∧ remote_server (fst out) = server
    ∧ w_files (snd out) = w_files w0
    ∧ ∃ n : nat,
        w_trace (snd out)
          = (w_trace w0
               ++ replicate n
                    (EvHTTP (health_request (remote_health_url server))))%list).
  { clear cs w. induction cs as [|c cs IH]; intros r w0 Hst Hsrv.
    - cbn. repeat split; try done. exists 0%nat. cbn.
      by rewrite app_nil_r.
    - cbn [remote_calls].
      assert (Hstep :
        (remote_status (fst (remote_call c r w0)) = ServerStatusStopped
         ∨ remote_status (fst (remote_call c r w0)) = ServerStatusRunning
         ∨ remote_status (fst (remote_call c r w0)) = ServerStatusError)
        ∧ remote_server (fst (remote_call c r w0)) = server
        ∧ w_files (snd (remote_call c r w0)) = w_files w0
        ∧ ∃ n : nat,
            w_trace (snd (remote_call c r w0))
              = (w_trace w0
                   ++ replicate n
                        (EvHTTP (health_request
                                   (remote_health_url server))))%list).
      { destruct c as [ctx|ctx]; cbn.
        - unfold RemoteServerRunner_Start, RemoteServerRunner_HealthCheck.
          case_decide.
          + cbn. repeat split; try done. exists 0%nat. cbn.
            by rewrite app_nil_r.
          + destruct (probe_outcome (remote_health_url (remote_server r)) w0)
              as (Htrace & Hfiles & _).
            rewrite Hsrv in *.
            destruct (probe _ w0) as [[err|] w1]; cbn in *;
              (split; [tauto|]); (split; [done|]);
              (split; [done|]); by exists 1%nat.
        - unfold RemoteServerRunner_Stop. case_decide; cbn.
          + split; [tauto|]. repeat split; try done.
            exists 0%nat. cbn. by rewrite app_nil_r.
          + repeat split; try done. exists 0%nat. cbn.
            by rewrite app_nil_r. }
      destruct (remote_call c r w0) as [r1 w1].
      destruct Hstep as (Hst1 & Hsrv1 & Hfiles1 & n1 & Htrace1). cbn in *.
      destruct (IH r1 w1 Hst1 Hsrv1) as (Hst2 & Hsrv2 & Hfiles2 & n2 & Htrace2).
      cbn zeta in *. repeat split; try done.
      + by rewrite Hfiles2.
      + exists (n1 + n2)%nat.
        rewrite Htrace2, Htrace1, replicate_add. by rewrite app_assoc. }
  apply Hgen; [by left|done].
Qed.

(** Rewrites the decided comparisons of the goal to their outcome. *)
Ltac settle_decisions :=
  repeat
    (first
       [ rewrite decide_True by (done || congruence)
       | rewrite decide_False
           by (done || congruence
               || (let Hx := fresh in intros Hx; by apply Hx)) ];
     cbn).

(** X14. The stop channel of a local runner is closed by the first
    [Stop] that finds the runner running and is never made anew, so the
    next such [Stop] panics. Hence a runner that is started, stopped and
    started again cannot be stopped; and a [Stop] whose kill fails leaves
    the runner running with the channel closed, so that retrying the
    [Stop] panics too. *)
Theorem LocalRunner_second_Stop_panics (r : LocalRunner) (ctx : Context)
    (w : World) (kill : option GoError) :
  lr_stop_closed r = false →
  local_status (lr_core r) ≠ ServerStatusRunning →
  meta (srv_Metadata (local_server (lr_core r))) "start_cmd" ≠ "" →
  env_spawn (w_env w)
    (meta (srv_Metadata (local_server (lr_core r))) "start_cmd") = None →
  let '(e1, r1, w1) := LocalRunner_Start r ctx w in
  e1 = None
  ∧ (let '(c2, r2, w2) := LocalRunner_Stop r1 ctx None w1 in
     let '(e3, r3, w3) := LocalRunner_Start r2 ctx w2 in
     c2 = Ok tt ∧ e3 = None
     ∧ local_status (lr_core r3) = ServerStatusRunning
     ∧ LocalRunner_Stop r3 ctx kill w3
         = (Panic "close of closed channel", r3, w3))
  ∧ (∀ err,
       let '(c2, r2, w2) := LocalRunner_Stop r1 ctx (Some err) w1 in
       c2 = Err (ErrorString ("failed to stop server: " +:+ error_text err))
       ∧ local_status (lr_core r2) = ServerStatusRunning
       ∧ LocalRunner_Stop r2 ctx kill w2
           = (Panic "close of closed channel", r2, w2)).
Proof.
  intros Hopen Hstopped Hcmd Hspawn.
  destruct r as [[server cmd status url] closed]. cbn in *. subst closed.
  unfold LocalRunner_Start, LocalRunner_Stop, LocalServerRunner_Start. cbn.
  settle_decisions. rewrite Hspawn. cbn. settle_decisions.
  rewrite Hspawn. cbn. settle_decisions. done.
Qed.

(** X15. A local runner demoted by a failed health check cannot be
    stopped: after the check has failed the status is error, [Stop]
    returns nil without closing the channel and without killing the
    process it spawned, and a following [Start] spawns the command once
    more. *)
Theorem failed_health_check_orphans_process (r : LocalRunner)
    (ctx : Context) (w : World) (kill : option GoError) :
  local_status (lr_core r) = ServerStatusRunning →
  local_healthURL (lr_core r) ≠ "" →
  (¬ ∃ body, env_http (w_env w) (health_request (local_healthURL (lr_core r)))
              = HTTPResponse 200 body) →
  let '(core1, w1) := health_tick (lr_core r) w in
  let r1 := mkLocalRunner core1 (lr_stop_closed r) in
  local_status core1 = ServerStatusError
  ∧ LocalRunner_Stop r1 ctx kill w1 = (Ok tt, r1, w1)
  ∧ (meta (srv_Metadata (local_server (lr_core r))) "start_cmd" ≠ "" →
     ∃ dir env,
       w_trace (snd (LocalRunner_Start r1 ctx w1))
         = (w_trace w1
              ++ EvSpawn (meta (srv_Metadata (local_server (lr_core r)))
                            "start_cmd") dir env
              :: match env_spawn (w_env w)
                         (meta (srv_Metadata (local_server (lr_core r)))
                            "start_cmd") with
                 | Some _ => []
                 | None => [EvGo "healthCheck"]
                 end)%list).
Proof.
  intros Hrun Hurl Hdown.
  destruct r as [[server cmd status url] closed]. cbn in *. subst status.
  unfold health_tick, LocalServerRunner_HealthCheck. cbn.
  rewrite (decide_False (P := url = "")) by done.
  destruct (probe_outcome url w) as (Htrace & Hfiles & Hok).
  destruct (probe url w) as [[err|] w1] eqn:Hprobe; cbn in *.
  - split; [done|]. split.
    + unfold LocalRunner_Stop. cbn. by settle_decisions.
    + intros Hcmd. unfold LocalRunner_Start, LocalServerRunner_Start. cbn.
      settle_decisions.
      assert (Henv : w_env w1 = w_env w).
      { unfold probe, client_Do in Hprobe.
        destruct (env_http _ _); [case_bool_decide|];
          by inversion Hprobe. }
      rewrite Henv.
      destruct (env_spawn (w_env w) _); cbn; eexists _, _;
        [reflexivity|]. by rewrite <- app_assoc.
  - exfalso. apply Hdown. by apply Hok.
Qed.

(** ** The context manager *)

(** X16. The context manager is a map keyed by item ID. [AddItem] makes
    the item retrievable under its ID and replaces an item that had the
    same ID; [RemoveItem] of an ID that is not there fails and changes
    nothing, and of one that is there makes [GetItem] fail for it; both
    leave every other item as it was; [ListItems] lists every item once. *)
Theorem ContextManager_round_trips (m : ContextManager)
    (item : ContextItem) (id : string) :
  GetItem (AddItem m item) (item_ID item) = inr item
  ∧ (id ≠ item_ID item → GetItem (AddItem m item) id = GetItem m id)
  ∧ (items m !! id = None →
       RemoveItem m id = (Some (ErrorString "context item not found"), m))
  ∧ (is_Some (items m !! id) →
       fst (RemoveItem m id) = None
       ∧ GetItem (snd (RemoveItem m id)) id
           = inl (ErrorString "context item not found")
       ∧ ∀ other, other ≠ id →
           GetItem (snd (RemoveItem m id)) other = GetItem m other)
  ∧ ListItems m ≡ₚ (map_to_list (items m)).*2.
Proof.
  unfold GetItem, AddItem, RemoveItem, ListItems. cbn.
  split; [by rewrite lookup_insert_eq|].
  split; [intros Hne; by rewrite lookup_insert_ne|].
  split; [intros Hnone; by rewrite Hnone|].
  split; [|by rewrite (range_perm _ _)].
  intros [x Hx]. rewrite Hx. cbn. split; [done|].
  split; [by rewrite lookup_delete_eq|].
  intros other Hne. by rewrite lookup_delete_ne.
Qed.

(** ** Loading configurations into the registry *)

Lemma load_server_tools_others (serverID : string)
    (configs : list ToolConfig) (m : Manager) (w : World) (k : string) :
  k ∉ tc_ID <$> configs →
  tools (fst (load_server_tools serverID configs m w)) !! k = tools m !! k.
Proof.
  revert m w. induction configs as [|c configs IH]; intros m w Hk; [done|].
  cbn [load_server_tools]. cbn. cbn in Hk.
  apply not_elem_of_cons in Hk as [Hne Hk].
  rewrite IH by done. cbn. by rewrite lookup_insert_ne.
Qed.

(** X17. [LoadServerFromConfig]: a configuration that fails to load
    changes nothing. One that loads registers the server under its
    configured ID with status stopped (replacing a server of that ID,
    running or not) and an empty embedded tool list, and registers every
    tool of the configuration under the tool's ID, bound to that server;
    tools with other IDs and the executor cache are left alone. *)
Theorem LoadServerFromConfig_registers (m : Manager) (ctx : Context)
    (path : string) (w : World) :
  (∀ e, LoadServerConfig path w = inl e →
     LoadServerFromConfig m ctx path w
       = (Some (ErrorString ("failed to load server config: "
                             +:+ error_text e)), m, w))
  ∧ (∀ config, LoadServerConfig path w = inr config →
       let m' := snd (fst (LoadServerFromConfig m ctx path w)) in
       servers m'
         = <[sc_ID config :=
               mkServer (sc_ID config) (sc_Name config)
                 (sc_Description config) (sc_Version config) (sc_URL config)
                 (sc_Type config) ServerStatusStopped []
                 (env_clock (w_env w) (w_tick w))
                 (env_clock (w_env w) (S (w_tick w)))
                 (sc_Metadata config)]> (servers m)
       ∧ (∀ tc, tc ∈ sc_Tools config →
            ∃ t, tools m' !! tc_ID tc = Some t
                 ∧ tool_ServerID t = sc_ID config
                 ∧ tool_ID t = tc_ID tc)
       ∧ (∀ k, k ∉ tc_ID <$> sc_Tools config →
            tools m' !! k = tools m !! k)
       ∧ executors m' = executors m).
Proof.
  unfold LoadServerFromConfig. split.
  - intros e He. by rewrite He.
  - intros config Hc. rewrite Hc. cbn.
    match goal with
    | |- context [load_server_tools ?S ?C ?M ?W] =>
        pose proof (load_server_tools_keeps S C M W) as (Hs & He & _);
        pose proof (λ k, load_server_tools_registers S C M W k) as Hreg;
        pose proof (λ k, load_server_tools_others S C M W k) as Hoth;
        destruct (load_server_tools S C M W) as [m1 w1]
    end.
    cbn in *. destruct (saveConfig m1 w1) as [err w2]. cbn.
    split; [done|]. split; [|split; [|done]].
    + intros tc Htc. apply Hreg. right. by apply list_elem_of_fmap_2.
    + intros k Hk. by apply Hoth.
Qed.

Lemma load_each_app
    (load : Manager → Context → string → World
            → option GoError * Manager * World)
    (kind : string) (l1 l2 : list string) (m : Manager) (ctx : Context)
    (w : World) :
  load_each load kind (l1 ++ l2)%list m ctx w
    = match load_each load kind l1 m ctx w with
      | (None, m1, w1) => load_each load kind l2 m1 ctx w1
      | failed => failed
      end.
Proof.
  revert m w. induction l1 as [|p l1 IH]; intros m w; [done|].
  cbn. destruct (load m ctx p w) as [[[err|] m1] w1]; [done|]. apply IH.
Qed.

Lemma load_server_tools_grows (serverID : string)
    (configs : list ToolConfig) (m : Manager) (w : World) :
  dom (tools m) ⊆ dom (tools (fst (load_server_tools serverID configs m w))).
Proof.
  revert m w. induction configs as [|c configs IH]; intros m w; [done|].
  cbn [load_server_tools]. cbn. etrans; [|apply IH]. cbn.
  apply dom_insert_subseteq.
Qed.

Lemma LoadServerFromConfig_grows (m : Manager) (ctx : Context)
    (path : string) (w : World) :
  dom (servers m) ⊆ dom (servers (snd (fst (LoadServerFromConfig m ctx path w))))
  ∧ dom (tools m) ⊆ dom (tools (snd (fst (LoadServerFromConfig m ctx path w)))).
Proof.
  unfold LoadServerFromConfig.
  destruct (LoadServerConfig path w) as [e|config]; [done|]. cbn.
  match goal with
  | |- context [load_server_tools ?S ?C ?M ?W] =>
      pose proof (load_server_tools_keeps S C M W) as (Hs & _);
      pose proof (load_server_tools_grows S C M W) as Hg;
      destruct (load_server_tools S C M W) as [m1 w1]
  end.
  cbn in *. destruct (saveConfig m1 w1) as [err w2]. cbn.
  split; [|done]. rewrite Hs. apply dom_insert_subseteq.
Qed.

Lemma load_each_servers_grows (paths : list string) (m : Manager)
    (ctx : Context) (w : World) :
  let m' :=
    snd (fst (load_each LoadServerFromConfig "server" paths m ctx w)) in
  dom (servers m) ⊆ dom (servers m') ∧ dom (tools m) ⊆ dom (tools m').
Proof.
  revert m w. induction paths as [|p paths IH]; intros m w; [done|].
  cbn. pose proof (LoadServerFromConfig_grows m ctx p w) as [Hs Ht].
  destruct (LoadServerFromConfig m ctx p w) as [[[err|] m1] w1]; cbn in *;
    [done|].
  destruct (IH m1 w1) as [Hs' Ht']. cbn zeta in *.
  split; etrans; done.
Qed.

(** X18. [LoadConfigsFromDirectory] stops at the first server file that
    fails and reports it by name; the server files after it and all tool
    files are not looked at. The call does not undo anything: every
    server and tool registered before the call or by the files before
    the failing one is still registered when it returns the error. *)
Theorem LoadConfigsFromDirectory_stops_at_first_failure
    (glob : string → string → World → GoError + list string)
    (m : Manager) (ctx : Context) (dirPath : string) (w : World)
    (good : list string) (bad : string) (rest : list string)
    (m1 : Manager) (w1 : World) (e : GoError) (m2 : Manager) (w2 : World) :
  glob dirPath "servers" w = inr (good ++ bad :: rest)%list →
  load_each LoadServerFromConfig "server" good m ctx w = (None, m1, w1) →
  LoadServerFromConfig m1 ctx bad w1 = (Some e, m2, w2) →
  LoadConfigsFromDirectory glob m ctx dirPath w
    = (Some (ErrorString ("failed to load server config " +:+ bad +:+ ": "
                          +:+ error_text e)), m2, w2)
  ∧ dom (servers m) ⊆ dom (servers m2)
  ∧ dom (tools m) ⊆ dom (tools m2).
Proof.
  intros Hglob Hgood Hbad. unfold LoadConfigsFromDirectory.
  rewrite Hglob, load_each_app, Hgood. cbn. rewrite Hbad.
  split; [done|].
  pose proof (load_each_servers_grows good m ctx w) as [Hs Ht].
  rewrite Hgood in Hs, Ht. cbn in Hs, Ht.
  pose proof (LoadServerFromConfig_grows m1 ctx bad w1) as [Hs' Ht'].
  rewrite Hbad in Hs', Ht'. cbn in Hs', Ht'.
  split; etrans; done.
Qed.

(** ** Writing and reading back declarative configurations *)

#[local] Arguments int_set : simpl never.
#[local] Arguments string_set : simpl never.
#[local] Arguments strings_set : simpl never.
#[local] Arguments enc_strings : simpl never.
#[local] Arguments enc_string_map : simpl never.
#[local] Arguments dec_strings : simpl never.
#[local] Arguments dec_int : simpl never.
#[local] Arguments dec_string : simpl never.
#[local] Arguments dec_bool : simpl never.

(** A key that occurs once is found with its value; one that does not
    occur is not found. *)
Lemma obj_field_found (fs : list (string * Doc)) (k : string) (d : Doc) :
  NoDup fs.*1 → (k, d) ∈ fs → obj_field k fs = Some d.
Proof.
  intros Hnd Hin. unfold obj_field.
  destruct (find _ (reverse fs)) as [[k' d']|] eqn:Hfind; cbn.
  - apply find_some in Hfind as [Hin' Hk].
    apply bool_decide_eq_true in Hk. cbn in Hk. subst k'.
    rewrite <- list_elem_of_In, elem_of_reverse in Hin'.
    pose proof (elem_of_list_to_map_1 (M := gmap string) fs k d Hnd Hin) as H1.
    pose proof (elem_of_list_to_map_1 (M := gmap string) fs k d' Hnd Hin')
      as H2.
    congruence.
  - exfalso.
    assert (Hk : bool_decide (fst (k, d) = k) = false).
    { apply (find_none _ _ Hfind (k, d)).
      rewrite <- list_elem_of_In, elem_of_reverse. done. }
    cbn in Hk. by rewrite bool_decide_eq_true_2 in Hk.
Qed.

Lemma obj_field_absent (fs : list (string * Doc)) (k : string) :
  k ∉ fs.*1 → obj_field k fs = None.
Proof.
  intros Hk. unfold obj_field.
  destruct (find _ (reverse fs)) as [[k' d']|] eqn:Hfind; [|done].
  exfalso. apply find_some in Hfind as [Hin' Hk'].
  apply bool_decide_eq_true in Hk'. cbn in Hk'. subst k'.
  rewrite <- list_elem_of_In, elem_of_reverse in Hin'.
  apply Hk. apply list_elem_of_fmap. by exists (k, d').
Qed.

Lemma elem_of_kept (l : list (bool * string * Doc)) (k : string) (d : Doc) :
  (k, d) ∈ kept l ↔ (true, k, d) ∈ l.
Proof.
  unfold kept. rewrite list_elem_of_omap. split.
  - intros ([[b k'] d'] & Hin & Hf). cbn in Hf.
    destruct b; [|discriminate]. by inversion Hf; subst.
  - intros Hin. by exists (true, k, d).
Qed.

Lemma NoDup_kept (l : list (bool * string * Doc)) :
  NoDup (field_key <$> l) → NoDup (kept l).*1.
Proof.
  induction l as [|[[b k] d] l IH]; cbn; [constructor|].
  intros [Hk Hnd]%NoDup_cons. destruct b; cbn; [|by apply IH].
  apply NoDup_cons. split; [|by apply IH].
  intros ([k' d'] & -> & Hin)%list_elem_of_fmap. cbn in Hk.
  apply elem_of_kept in Hin. apply Hk.
  apply list_elem_of_fmap. by exists (true, k', d').
Qed.

Lemma obj_field_kept (l : list (bool * string * Doc)) (b : bool)
    (k : string) (d : Doc) :
  NoDup (field_key <$> l) → (b, k, d) ∈ l →
  obj_field k (kept l) = if b then Some d else None.
Proof.
  intros Hnd Hin. destruct b.
  - apply obj_field_found; [by apply NoDup_kept|by apply elem_of_kept].
  - apply obj_field_absent.
    intros ([k' d'] & -> & Hin')%list_elem_of_fmap. cbn in *.
    apply elem_of_kept in Hin'.
    assert (Hsame : ∀ f1 f2, f1 ∈ l → f2 ∈ l →
                      field_key f1 = field_key f2 → f1 = f2).
    { clear -Hnd. induction l as [|f l IH]; intros f1 f2 H1 H2 Hk.
      - by apply elem_of_nil in H1.
      - cbn in Hnd. apply NoDup_cons in Hnd as [Hf Hnd].
        apply elem_of_cons in H1 as [->|H1];
          apply elem_of_cons in H2 as [->|H2]; try done.
        + exfalso. apply Hf. rewrite Hk. by apply list_elem_of_fmap_2.
        + exfalso. apply Hf. rewrite <- Hk. by apply list_elem_of_fmap_2.
        + by apply IH. }
    by pose proof (Hsame _ _ Hin Hin' eq_refl).
Qed.

#[local] Arguments kept : simpl never.
#[local] Arguments tool_config_fields : simpl never.
#[local] Arguments server_config_fields : simpl never.

Lemma tool_config_fields_NoDup (c : ToolConfig) (ps : list Doc) :
  NoDup (field_key <$> tool_config_fields c ps).
Proof. apply (bool_decide_unpack _). vm_compute. done. Qed.

Lemma server_config_fields_NoDup (c : ServerConfig) (ts : list Doc) :
  NoDup (field_key <$> server_config_fields c ts).
Proof. apply (bool_decide_unpack _). vm_compute. done. Qed.

(** Looks up, in the goal, the fields a decoder asks for. *)
Ltac find_field :=
  repeat (first [apply list_elem_of_here | apply list_elem_of_further]).

Ltac lookup_fields Hnd :=
  repeat match goal with
    | |- context [obj_field ?k (kept ?l)] =>
        let H := fresh in
        eassert (H : obj_field k (kept l) = _)
          by (eapply obj_field_kept; [apply Hnd | find_field]);
        rewrite H; clear H
    end.

Lemma dec_int_kept (z : Z) :
  in_int64 z → dec_int (if int_set z then Some (JNum z) else None) = Some z.
Proof.
  intros Hz. unfold int_set, dec_int. case_bool_decide as H0; cbn.
  - by subst.
  - by rewrite bool_decide_eq_true_2.
Qed.

Lemma dec_string_kept (s : string) :
  dec_string (if string_set s then Some (JStr s) else None) = Some s.
Proof. unfold string_set, dec_string. case_bool_decide; cbn; by subst. Qed.

Lemma dec_bool_kept (b : bool) :
  dec_bool (if b then Some (JBool b) else None) = Some b.
Proof. by destruct b. Qed.

Lemma dec_strings_kept (l : list string) :
  dec_strings (if strings_set l then Some (enc_strings l) else None) = Some l.
Proof.
  assert (Hall : dec_strings (Some (enc_strings l)) = Some l).
  { unfold dec_strings, dec_list, enc_strings. apply mapM_Some_2.
    induction l as [|s l IH]; cbn; constructor; [done|exact IH]. }
  destruct l; [done|exact Hall].
Qed.

Lemma dec_string_plain (s : string) : dec_string (Some (JStr s)) = Some s.
Proof. reflexivity. Qed.

Ltac decode_fields :=
  rewrite ?dec_string_plain, ?dec_string_kept, ?dec_bool_kept,
    ?dec_strings_kept, ?dec_enc_string_map_exact;
  rewrite ?dec_int_kept by assumption.

Lemma mapM_through {A B : Type} (enc : A → option B) (dec : B → option A)
    (f : A → A) (l : list A) (ds : list B) :
  Forall (fun a => ∀ d, enc a = Some d → dec d = Some (f a)) l →
  mapM enc l = Some ds → mapM dec ds = Some (f <$> l).
Proof.
  intros Hall Henc. apply mapM_Some_2. apply mapM_Some_1 in Henc.
  induction Henc as [|a d l ds Had _ IH]; [constructor|].
  apply Forall_cons in Hall as [Ha Hall].
  constructor; [by apply Ha | by apply IH].
Qed.

Lemma dec_enc_param_through (p : ToolParameter) (d : Doc) :
  enc_param p = Some d → dec_param d = Some (param_through_json p).
Proof.
  unfold enc_param, param_through_json, through_json.
  destruct p as [n ty de rq df]. cbn. intros Henc.
  destruct df; simplify_option_eq; decide_keys; done.
Qed.

Lemma fmap_fixed {A : Type} (f : A → A) (l : list A) :
  f <$> l = l ↔ Forall (fun a => f a = a) l.
Proof.
  induction l as [|a l IH]; cbn.
  - split; [constructor|done].
  - rewrite Forall_cons, <- IH. split.
    + intros Heq. by inversion Heq as [[Ha Hl]]; rewrite Ha, !Hl.
    + intros [-> ->]. done.
Qed.


Lemma param_through_json_fixed (p : ToolParameter) :
  param_through_json p = p ↔ default_kept p.
Proof.
  unfold param_through_json, default_kept. destruct p; cbn. split.
  - intros Heq. by inversion Heq as [Hd]; rewrite !Hd.
  - by intros ->.
Qed.

Lemma tool_config_through_json_fixed (c : ToolConfig) :
  tool_config_through_json c = c ↔ Forall default_kept (tc_Parameters c).
Proof.
  rewrite <- (Forall_iff _ _ _ param_through_json_fixed), <- fmap_fixed.
  unfold tool_config_through_json. destruct c; cbn. split.
  - intros Heq. by inversion Heq as [Hps]; rewrite !Hps.
  - by intros ->.
Qed.

Lemma validate_parameters_from_through (i : Z) (ps : list ToolParameter) :
  validate_parameters_from i (param_through_json <$> ps)
    = validate_parameters_from i ps.
Proof.
  revert i. induction ps as [|p ps IH]; intros i; [done|].
  cbn. by rewrite IH.
Qed.

Lemma validateToolConfig_through (c : ToolConfig) :
  validateToolConfig (tool_config_through_json c) = validateToolConfig c.
Proof.
  unfold validateToolConfig. cbn.
  by rewrite validate_parameters_from_through.
Qed.

Lemma validate_tools_from_through (i : Z) (ts : list ToolConfig) :
  validate_tools_from i (tool_config_through_json <$> ts)
    = validate_tools_from i ts.
Proof.
  revert i. induction ts as [|t ts IH]; intros i; [done|].
  cbn [fmap list_fmap validate_tools_from].
  by rewrite validateToolConfig_through, IH.
Qed.

Lemma validateServerConfig_through (c : ServerConfig) :
  validateServerConfig (server_config_through_json c)
    = validateServerConfig c.
Proof.
  unfold validateServerConfig. cbn.
  by rewrite validate_tools_from_through.
Qed.

Lemma dec_enc_tool_config (c : ToolConfig) (d : Doc) :
  tool_config_in_range c → enc_tool_config c = Some d →
  dec_tool_config d = Some (tool_config_through_json c).
Proof.
  intros Hints. unfold enc_tool_config. intros Henc.
  destruct (mapM enc_param (tc_Parameters c)) as [ps|] eqn:Hps;
    [|discriminate].
  change (Some (JObj (kept (tool_config_fields c ps))) = Some d) in Henc.
  injection Henc as <-.
  unfold tool_config_in_range in Hints. rewrite !Forall_cons in Hints.
  destruct Hints as (? & ? & ? & ? & ? & ? & ? & _).
  assert (Hback : dec_list dec_param (Some (JArr ps))
                    = Some (param_through_json <$> tc_Parameters c)).
  { unfold dec_list. apply (mapM_through enc_param); [|done].
    apply Forall_forall. intros p _ d'. apply dec_enc_param_through. }
  unfold dec_tool_config.
  lookup_fields (tool_config_fields_NoDup c ps).
  decode_fields. rewrite Hback. reflexivity.
Qed.

Lemma dec_enc_server_config (c : ServerConfig) (d : Doc) :
  server_config_in_range c → enc_server_config c = Some d →
  dec_server_config d = Some (server_config_through_json c).
Proof.
  intros [Htools Hints]. unfold enc_server_config. intros Henc.
  destruct (mapM enc_tool_config (sc_Tools c)) as [ts|] eqn:Hts;
    [|discriminate].
  change (Some (JObj (kept (server_config_fields c ts))) = Some d) in Henc.
  injection Henc as <-.
  rewrite !Forall_cons in Hints.
  destruct Hints as (? & ? & ? & ? & ? & ? & _).
  assert (Hback : dec_list dec_tool_config (Some (JArr ts))
                    = Some (tool_config_through_json <$> sc_Tools c)).
  { unfold dec_list. apply (mapM_through enc_tool_config); [|done].
    eapply Forall_impl; [exact Htools|].
    intros t Ht d'. by apply dec_enc_tool_config. }
  unfold dec_server_config.
  lookup_fields (server_config_fields_NoDup c ts).
  decode_fields. rewrite Hback. reflexivity.
Qed.


(** X20. The same for server configurations, embedded tool
    configurations included: [SaveServerConfig] does not validate; after
    a successful save of a configuration whose integer fields are in the
    range of their Go types, [LoadServerConfig] fails when the
    configuration breaks a server rule, and otherwise returns it with
    the parameter defaults of its tools as JSON decoding makes them and
    every other field as saved. The loaded configuration is the saved
    one exactly when every default of every embedded tool comes back
    from JSON as it is. *)
Theorem SaveServerConfig_then_LoadServerConfig (c : ServerConfig)
    (path : string) (w w' : World) :
  server_config_in_range c →
  env_read_fault (w_env w) = None →
  SaveServerConfig c path w = (None, w') →
  (¬ server_rules c →
     LoadServerConfig path w' = inr (server_config_through_json c))
  ∧ (server_rules c → ∃ e, LoadServerConfig path w' = inl e)
  ∧ (server_config_through_json c = c
     ↔ Forall (fun t => Forall default_kept (tc_Parameters t)) (sc_Tools c)).
Proof.
  intros Hrange Hread Hsave.
  unfold SaveServerConfig, save_config_file, MkdirAll, WriteFile in Hsave.
  destruct (enc_server_config c) as [data|] eqn:Henc; [|discriminate].
  destruct (env_mkdir_fault (w_env w)); [discriminate|].
  destruct (env_write_fault (w_env w)); [discriminate|].
  injection Hsave as <-.
  unfold LoadServerConfig, ReadFile. cbn [w_env w_files written].
  rewrite Hread, lookup_insert_eq. cbn [parse mbind option_bind].
  rewrite (dec_enc_server_config c data Hrange Henc).
  rewrite validateServerConfig_through.
  split; [|split].
  - destruct (validateServerConfig c) eqn:Hv; [|done].
    intros Hn%validateServerConfig_accepts. congruence.
  - destruct (validateServerConfig c) eqn:Hv; [eauto|].
    intros Hr. by apply validateServerConfig_accepts in Hv.
  - rewrite <- (Forall_iff _ _ _ tool_config_through_json_fixed),
      <- fmap_fixed.
    unfold server_config_through_json. destruct c; cbn. split.
    + intros Heq. by inversion Heq as [Hts]; rewrite !Hts.
    + by intros ->.
Qed.

(** ** How the registry operations compose *)


Lemma ExecuteTool_server_not_running_state (m : Manager) (ctx : Context)
    (toolID : string) (tool : Tool) (server : Server)
    (params : gmap string GoValue) (w : World) :
  tools m !! toolID = Some tool →
  servers m !! tool_ServerID tool = Some server →
  srv_Status server ≠ ServerStatusRunning →
  ExecuteTool m ctx toolID params w
    = (Err (ErrorString "server is not running"), m, w).
Proof.
  intros Htool Hserver Hstatus. unfold ExecuteTool, GetServer.
  rewrite Htool, Hserver. by rewrite decide_True.
Qed.

(** X22. The status gates execution and nothing else does. After
    [StopServer], [ExecuteTool] on a tool of that server fails with
    "server is not running", also when an executor is cached and whether
    or not the stop was persisted; after [StartServer] the same call
    runs the cached executor, although nothing has checked that the
    server can be reached. *)
Theorem StopServer_gates_execution (m : Manager) (ctx : Context)
    (toolID : string) (tool : Tool) (server : Server)
    (params : gmap string GoValue) (w0 w : World) :
  tools m !! toolID = Some tool →
  servers m !! tool_ServerID tool = Some server →
  let stopped := snd (fst (StopServer m ctx (tool_ServerID tool) w0)) in
  let started := snd (fst (StartServer m ctx (tool_ServerID tool) w0)) in
  ExecuteTool stopped ctx toolID params w
    = (Err (ErrorString "server is not running"), stopped, w)
  ∧ ∀ ex, executors m !! tool_ServerID tool = Some ex →
      ExecuteTool started ctx toolID params w
        = (to_ToolResult toolID (fst (Execute ex ctx tool params w)),
           started, snd (Execute ex ctx tool params w)).
Proof.
  intros Htool Hserver.
  unfold StopServer, StartServer, set_server_status. rewrite Hserver. cbn.
  destruct (saveConfig _ _) as [e1 w1].
  destruct (saveConfig _ _) as [e2 w2]. cbn. split.
  - eapply ExecuteTool_server_not_running_state; cbn;
      [done|apply lookup_insert_eq|done].
  - intros ex Hex.
    eapply ExecuteTool_cached; cbn; [done|apply lookup_insert_eq|done|done].
Qed.

(** X23. Validation lets through server types that dispatch cannot
    serve. A server configuration with any non-empty type loads; when
    the type is neither "local" nor "remote", every tool it brings fails
    in [ExecuteTool] with "unsupported server type", once the server is
    started and as long as no executor is cached for it. *)
Theorem unsupported_server_type_is_loadable (m : Manager) (ctx : Context)
    (path : string) (w : World) (config : ServerConfig) (tc : ToolConfig)
    (params : gmap string GoValue) (w1 w2 : World) :
  LoadServerConfig path w = inr config →
  sc_Type config ≠ ServerTypeLocal →
  sc_Type config ≠ ServerTypeRemote →
  tc ∈ sc_Tools config →
  executors m !! sc_ID config = None →
  let m1 := snd (fst (LoadServerFromConfig m ctx path w)) in
  let m2 := snd (fst (StartServer m1 ctx (sc_ID config) w1)) in
  ExecuteTool m2 ctx (tc_ID tc) params w2
    = (Err (ErrorString ("unsupported server type: " +:+ sc_Type config)),
       m2, w2).
Proof.
  intros Hload Hl Hr Htc Hcache.
  unfold LoadServerFromConfig. rewrite Hload. cbn.
  match goal with
  | |- context [load_server_tools ?S ?C ?M ?W] =>
      pose proof (load_server_tools_keeps S C M W) as (Hs & He & _);
      pose proof (load_server_tools_registers S C M W (tc_ID tc)) as Hreg;
      destruct (load_server_tools S C M W) as [m1 w1']
  end.
  cbn in Hs, He, Hreg.
  destruct Hreg as (t & Ht & Hsid & _);
    [right; by apply list_elem_of_fmap_2|].
  destruct (saveConfig m1 w1') as [err w3]. cbn.
  unfold StartServer, set_server_status.
  rewrite Hs, lookup_insert_eq. cbn.
  destruct (saveConfig _ _) as [err' w4]. cbn.
  unfold ExecuteTool, GetServer, obtain_executor. cbn.
  rewrite Ht, Hsid, lookup_insert_eq. cbn.
  rewrite decide_False by (intros Hne; by apply Hne).
  rewrite He, Hcache. cbn.
  by rewrite !decide_False.
Qed.

End Mcp.

(** * Instances *)

Lemma map_order_perm (A : Type) (m : gmap string A) :
  map_order A m ≡ₚ map_to_list m.
Proof. reflexivity. Qed.

(** The stopped server [s1] refuses the execution of its tool [t1]. *)
Lemma ExecuteTool_server_not_running_example :
  ExecuteTool map_order (registry ServerStatusStopped) background "t1" ∅
      down_world
    = (Err (ErrorString "server is not running"),
       registry ServerStatusStopped, down_world).
Proof.
  apply (ExecuteTool_server_not_running map_order
           (registry ServerStatusStopped) background "t1" echo_tool
           (remote_s1 ServerStatusStopped) ∅ down_world).
  - vm_compute. reflexivity.
  - vm_compute. reflexivity.
  - vm_compute. discriminate.
Defined.

(** A call without the required [x] is refused by the local executor. *)
Lemma Execute_rejects_invalid_parameters_example :
  ∃ err,
    Execute map_order (ExLocal NewLocalExecutor) background echo_tool ∅
        down_world
      = (Err err, down_world).
Proof.
  apply (Execute_rejects_invalid_parameters map_order map_order_perm).
  left. exists (mkToolParameter "x" "string" "" true VNil).
  split; [apply list_elem_of_here|]. split; reflexivity.
Defined.


(** The first execution on the running remote server [s1] caches an HTTP
    executor whose client timeout is the manager's thirty seconds, and
    the request it sends for [t1] carries it. *)
Lemma ExecuteTool_executor_cache_example :
  ∃ e,
    executors
      (snd (fst (ExecuteTool map_order (registry ServerStatusRunning)
                   background "t1" hi down_world)))
      !! "s1"
    = Some (ExHTTP e)
    ∧ client_Timeout e = 30 * second
    ∧ req_ClientTimeout
        (tool_request e background echo_tool (JObj [("x", JStr "hi")]))
      = 30 * second.
Proof.
  destruct (ExecuteTool_executor_cache map_order
              (registry ServerStatusRunning) background "t1" echo_tool
              (remote_s1 ServerStatusRunning) hi down_world)
    as [_ Hfresh].
  - vm_compute. reflexivity.
  - vm_compute. reflexivity.
  - reflexivity.
  - destruct Hfresh as (_ & (_ & Hclient & Hrequest) & Hrun & _).
    + vm_compute. reflexivity.
    + exists (NewHTTPExecutor (timeout (registry ServerStatusRunning))).
      split; [rewrite Hrun; vm_compute; reflexivity|].
      split; [exact Hclient | apply Hrequest].
Defined.

(** C5. The HTTP executor at a request that runs into its deadline: the
    client's error wraps [context.DeadlineExceeded], and the result is
    classified [error], not [timeout]. *)
Theorem HTTPExecutor_deadline_reported_as_error :
  let cause := URLError "Post" "http://tools.example/echo" DeadlineExceeded in
  wraps_DeadlineExceeded cause = true
  ∧ fst (HTTPExecutor_Execute map_order (NewHTTPExecutor (30 * second))
           background echo_tool {[ "x" := VString "hi" ]} down_world)
    = Ok (mkToolExecutionResult ToolExecutionStatusError VNil
            ("request failed: " +:+ error_text cause) 0 1).
Proof. split; vm_compute; reflexivity. Qed.

(** The same expiry reported by a local handler is classified [timeout]. *)
Lemma LocalExecutor_deadline_reported_as_timeout :
  fst (LocalExecutor_Execute map_order
         (RegisterHandler NewLocalExecutor "t1"
            (fun _ _ => (VNil, Some DeadlineExceeded)))
         background echo_tool {[ "x" := VString "hi" ]} down_world)
    = Ok (mkToolExecutionResult ToolExecutionStatusTimeout VNil
            "execution timed out" 0 1).
Proof. vm_compute. reflexivity. Qed.

(** The sample registry survives a save and a load. *)
Lemma saveConfig_loadConfig_roundtrip_example :
  ∃ m',
    loadConfig (NewManager "/var/mcp/registry.json")
        (snd (saveConfig (registry ServerStatusStopped) down_world))
      = (None, m')
    ∧ dom (servers m') = dom (servers (registry ServerStatusStopped))
    ∧ dom (tools m') = dom (tools (registry ServerStatusStopped))
    ∧ autoApprove m' = false
    ∧ timeout m' = 30 * second.
Proof.
  apply (saveConfig_loadConfig_roundtrip (registry ServerStatusStopped)
           (NewManager "/var/mcp/registry.json") down_world).
  - unfold in_int64. vm_compute. split; [discriminate | reflexivity].
  - reflexivity.
  - reflexivity.
  - vm_compute. reflexivity.
Defined.


(** C8 as worded fails on a runner that is already running: [Start]
    returns without asking the health endpoint. *)
Lemma Start_as_specified_fails : ¬ Start_as_specified.
Proof.
  intros Hspec.
  destruct (Hspec (mkRemoteServerRunner (remote_s1 ServerStatusStopped)
                     ServerStatusRunning) background down_world)
    as [Htrace _].
  vm_compute in Htrace. discriminate Htrace.
Qed.

(** C9 as worded fails on a server configuration without a type: it
    breaks none of the listed rules and is refused. *)
Lemma loaders_as_specified_fails : ¬ loaders_as_specified.
Proof.
  intros Hspec.
  destruct (Hspec "/etc/mcp/servers/s2.json" down_world untyped_server_file)
    as [_ Hserver]; [vm_compute; reflexivity|].
  destruct (Hserver untyped_server_config) as [_ Haccept];
    [vm_compute; reflexivity|].
  assert (Hload : LoadServerConfig "/etc/mcp/servers/s2.json" down_world
                    = inr untyped_server_config).
  { apply Haccept. unfold server_rules_as_specified. cbn.
    rewrite Exists_nil. intuition (try discriminate; try lia). }
  vm_compute in Hload. discriminate Hload.
Qed.

(** The untyped server configuration is refused. *)
Lemma loaders_accept_iff_rules_hold_example :
  ∃ e, LoadServerConfig "/etc/mcp/servers/s2.json" down_world = inl e.
Proof.
  destruct (loaders_accept_iff_rules_hold "/etc/mcp/servers/s2.json"
              down_world untyped_server_file) as [_ Hserver].
  - vm_compute. reflexivity.
  - destruct (Hserver untyped_server_config) as [Hreject _].
    + vm_compute. reflexivity.
    + apply Hreject. right. reflexivity.
Defined.

(** The tool loaded from [echo.json] has no server. *)
Lemma LoadToolFromConfig_tool_is_dangling_example :
  ∃ tool,
    tools (snd (fst (LoadToolFromConfig (NewManager "/var/mcp/registry.json")
                       background "/etc/mcp/tools/echo.json" down_world)))
      !! "echo" = Some tool
    ∧ tool_ServerID tool = "".
Proof.
  destruct (LoadToolFromConfig_tool_is_dangling map_order
              (NewManager "/var/mcp/registry.json") background
              "/etc/mcp/tools/echo.json" down_world echo_config)
    as (tool & Htool & Hserver & _).
  - vm_compute. reflexivity.
  - exists tool. split; [exact Htool | exact Hserver].
Defined.

(** * Instances of the further properties *)

(** The characterisation at the tool [t1] and a call that supplies [x]. *)
Lemma ValidateParameters_accepts_iff_example :
  ValidateParameters map_order echo_tool hi = None
  ↔ ¬ violates_schema echo_tool hi.
Proof.
  apply (ValidateParameters_accepts_iff map_order map_order_perm).
Defined.

(** The echo handler registered for [t1] answers a call of [t1]. *)
Lemma RegisterHandler_dispatch_example :
  fst (LocalExecutor_Execute map_order
         (RegisterHandler NewLocalExecutor "t1" echo_handler) background
         echo_tool hi down_world)
    = Ok (mkToolExecutionResult ToolExecutionStatusSuccess
            (VObject [("echo", VString "hi")]) "" 0 1).
Proof.
  destruct (RegisterHandler_dispatch map_order NewLocalExecutor "t1"
              echo_handler background echo_tool hi down_world)
    as [Hcall _].
  - vm_compute. reflexivity.
  - destruct Hcall as (r & w' & Hrun & _); [reflexivity|].
    vm_compute. reflexivity.
Defined.

(** An answer of 200 with a JSON object is a success with that object
    as payload. *)
Lemma HTTPExecutor_classifies_response_example :
  ∃ r,
    fst (HTTPExecutor_Execute map_order (NewHTTPExecutor (30 * second))
           background echo_tool hi up_world) = Ok r
    ∧ exec_Status r = ToolExecutionStatusSuccess
    ∧ exec_Result r = VObject [("ok", VBool true)]
    ∧ exec_Error r = "".
Proof.
  destruct (HTTPExecutor_classifies_response map_order
              (NewHTTPExecutor (30 * second)) background echo_tool hi
              up_world (JObj [("x", JStr "hi")]) 200
              (Some (JObj [("ok", JBool true)]))) as [_ Hclass].
  - vm_compute. reflexivity.
  - vm_compute. reflexivity.
  - reflexivity.
  - reflexivity.
  - exact Hclass.
Defined.

(** Stopping [s1] leaves the executor cached for it in place. *)
Lemma executor_cache_never_invalidated_example :
  executors
    (snd (fst (StopServer cached_registry background "s1" down_world)))
    !! "s1"
  = Some (ExHTTP (NewHTTPExecutor (5 * second))).
Proof.
  destruct (executor_cache_never_invalidated map_order
              (CallStopServer background "s1") cached_registry down_world)
    as [Hcache _].
  - intros serverID tool handler. discriminate.
  - cbn [perform] in Hcache. rewrite Hcache. vm_compute. reflexivity.
Defined.

(** After the timeout is set to one second, the executor cached for [s1]
    still sends its requests with five. *)
Lemma SetTimeout_misses_cached_executor_example :
  w_trace
    (snd (ExecuteTool map_order
            (snd (fst (SetTimeout cached_registry background second
                         down_world)))
            background "t1" hi up_world))
  = w_trace
      (snd (HTTPExecutor_Execute map_order (NewHTTPExecutor (5 * second))
              background echo_tool hi up_world)).
Proof.
  destruct (SetTimeout_misses_cached_executor map_order cached_registry
              background second down_world "t1" echo_tool
              (remote_s1 ServerStatusRunning)
              (NewHTTPExecutor (5 * second)) hi up_world)
    as [_ Hrun].
  - vm_compute. reflexivity.
  - vm_compute. reflexivity.
  - reflexivity.
  - vm_compute. reflexivity.
  - cbn zeta in Hrun. rewrite Hrun. reflexivity.
Defined.

(** A tool registered on the running local server [l1] answers through
    its handler. *)
Lemma RegisterLocalTool_then_ExecuteTool_example :
  ∃ r,
    fst (fst (ExecuteTool map_order
                (snd (fst (RegisterLocalTool local_registry "l1" echo_tool
                             echo_handler down_world)))
                background "t1" hi down_world)) = Ok r
    ∧ res_Status r = ToolExecutionStatusSuccess
    ∧ res_Result r = VObject [("echo", VString "hi")].
Proof.
  destruct (RegisterLocalTool_then_ExecuteTool map_order local_registry "l1"
              (local_l1 ServerStatusRunning) echo_tool echo_handler
              down_world background hi down_world)
    as (r & w' & Hrun & _ & _ & Hclass).
  - vm_compute. reflexivity.
  - reflexivity.
  - reflexivity.
  - intros e. vm_compute. discriminate.
  - vm_compute. reflexivity.
  - exists r. split; [exact (f_equal (fun x => fst (fst x)) Hrun)|].
    destruct Hclass as (Hstatus & Hresult & _). done.
Defined.

(** The sample registry, saved while [s1] is running, is loaded as it
    was. *)
Lemma saveConfig_loadConfig_exact_example :
  loadConfig (NewManager "/var/mcp/registry.json")
      (snd (saveConfig (registry ServerStatusRunning) down_world))
    = (None, registry ServerStatusRunning).
Proof.
  apply (saveConfig_loadConfig_exact (registry ServerStatusRunning)
           (NewManager "/var/mcp/registry.json") down_world).
  - intros k s Hs. unfold registry in Hs. cbn [servers] in Hs.
    apply lookup_singleton_Some in Hs as [_ <-]. constructor.
  - intros k t Ht. unfold registry in Ht. cbn [tools] in Ht.
    apply lookup_singleton_Some in Ht as [_ <-].
    constructor; [|constructor]. exists JNull. split; reflexivity.
  - unfold in_int64. vm_compute. split; [discriminate | reflexivity].
  - reflexivity.
  - reflexivity.
  - vm_compute. reflexivity.
Defined.

(** A fresh runner that is started, stopped and started again panics
    when it is stopped. *)
Lemma LocalRunner_second_Stop_panics_example :
  fst (fst (LocalRunner_Stop (fst restarted_runner) background None
              (snd restarted_runner)))
    = Panic "close of closed channel".
Proof.
  pose proof (LocalRunner_second_Stop_panics fresh_local_runner background
                down_world None) as Hpanic.
  vm_compute in Hpanic. vm_compute.
  destruct Hpanic as (_ & (_ & _ & _ & Hstop) & _).
  - reflexivity.
  - discriminate.
  - discriminate.
  - reflexivity.
  - exact (f_equal (fun x => fst (fst x)) Hstop).
Defined.

(** The watched runner is demoted when its health endpoint does not
    answer. *)
Lemma failed_health_check_orphans_process_example :
  local_status (fst (health_tick (lr_core watched_runner) down_world))
    = ServerStatusError.
Proof.
  pose proof (failed_health_check_orphans_process watched_runner background
                down_world None) as Hdemoted.
  vm_compute in Hdemoted. vm_compute.
  destruct Hdemoted as (Hstatus & _).
  - reflexivity.
  - discriminate.
  - intros [body Hup]. discriminate Hup.
  - exact Hstatus.
Defined.

(** An item added to the empty context manager is found under its ID. *)
Lemma ContextManager_round_trips_example :
  GetItem (AddItem NewContextManager note_item) "c1" = inr note_item.
Proof.
  destruct (ContextManager_round_trips map_order map_order_perm
              NewContextManager note_item "c1") as (Hget & _).
  exact Hget.
Defined.

(** The directory holds [s3.json], which loads, and [s2.json], which
    does not: the call fails on [s2.json] and [s3] stays registered. *)
Lemma LoadConfigsFromDirectory_stops_at_first_failure_example :
  fst (fst (LoadConfigsFromDirectory server_files
              (NewManager "/var/mcp/registry.json") background "/etc/mcp"
              config_world))
    = Some (ErrorString
              ("failed to load server config /etc/mcp/servers/s2.json: "
               +:+ "failed to load server config: "
               +:+ "invalid server config: server type is required"))
  ∧ dom (servers (NewManager "/var/mcp/registry.json"))
      ⊆ dom (servers
               (snd (fst (LoadConfigsFromDirectory server_files
                            (NewManager "/var/mcp/registry.json") background
                            "/etc/mcp" config_world)))).
Proof.
  pose (m := NewManager "/var/mcp/registry.json").
  pose (first := load_each LoadServerFromConfig "server"
                   ["/etc/mcp/servers/s3.json"] m background config_world).
  pose (second := LoadServerFromConfig (snd (fst first)) background
                    "/etc/mcp/servers/s2.json" (snd first)).
  destruct (LoadConfigsFromDirectory_stops_at_first_failure server_files m
              background "/etc/mcp" config_world
              ["/etc/mcp/servers/s3.json"] "/etc/mcp/servers/s2.json" []
              (snd (fst first)) (snd first)
              (ErrorString
                 ("failed to load server config: "
                  +:+ "invalid server config: server type is required"))
              (snd (fst second)) (snd second))
    as (Hrun & Hservers & _).
  - reflexivity.
  - vm_compute. reflexivity.
  - vm_compute. reflexivity.
  - fold m. rewrite Hrun. split; [reflexivity | exact Hservers].
Defined.


(** The server configuration [s3], with its tool, is read back as it
    is. *)
Lemma SaveServerConfig_then_LoadServerConfig_example :
  LoadServerConfig "/etc/mcp/servers/copy.json"
      (snd (SaveServerConfig grpc_server_config "/etc/mcp/servers/copy.json"
              down_world))
    = inr grpc_server_config.
Proof.
  destruct (SaveServerConfig_then_LoadServerConfig grpc_server_config
              "/etc/mcp/servers/copy.json" down_world
              (snd (SaveServerConfig grpc_server_config
                      "/etc/mcp/servers/copy.json" down_world)))
    as [Hback _].
  - split.
    + constructor; [|constructor].
      repeat constructor; vm_compute; discriminate.
    + repeat constructor; vm_compute; discriminate.
  - reflexivity.
  - vm_compute. reflexivity.
  - rewrite Hback; [reflexivity|].
    unfold server_rules, server_rules_as_specified, tool_rules.
    cbn. rewrite Exists_cons, !Exists_nil. cbn.
    intuition (discriminate || lia).
Defined.


(** Once [s1] is stopped its tool is refused, although an executor is
    cached for it. *)
Lemma StopServer_gates_execution_example :
  fst (fst (ExecuteTool map_order
              (snd (fst (StopServer cached_registry background "s1"
                           down_world)))
              background "t1" hi up_world))
    = Err (ErrorString "server is not running").
Proof.
  destruct (StopServer_gates_execution map_order cached_registry background
              "t1" echo_tool (remote_s1 ServerStatusRunning) hi down_world
              up_world) as [Hstopped _].
  - vm_compute. reflexivity.
  - vm_compute. reflexivity.
  - exact (f_equal (fun x => fst (fst x)) Hstopped).
Defined.

(** The server [s3] of type grpc loads and starts, and its tool [echo]
    cannot be executed. *)
Lemma unsupported_server_type_is_loadable_example :
  fst (fst (ExecuteTool map_order
              (snd (fst (StartServer
                           (snd (fst (LoadServerFromConfig
                                        (NewManager "/var/mcp/registry.json")
                                        background "/etc/mcp/servers/s3.json"
                                        config_world)))
                           background "s3" config_world)))
              background "echo" ∅ config_world))
    = Err (ErrorString "unsupported server type: grpc").
Proof.
  refine (f_equal (fun x => fst (fst x))
            (unsupported_server_type_is_loadable map_order
               (NewManager "/var/mcp/registry.json") background
               "/etc/mcp/servers/s3.json" config_world grpc_server_config
               echo_config ∅ config_world config_world _ _ _ _ _)).
  - vm_compute. reflexivity.
  - discriminate.
  - discriminate.
  - apply list_elem_of_here.
  - reflexivity.
Defined.
